(** * Unix domain sockets of the PFS server (servers/pfs/dev_uds.c)

    A shallow embedding of the descriptor table and of the entry points
    [uds_open], [uds_close], [uds_select], [uds_read], [uds_write],
    [uds_unsuspend] and [uds_cancel], with the read/write engine
    [uds_perform_read] / [uds_perform_write] they share.

    The fields of a descriptor are C integers in the source; they are
    modelled as [Z] without wrap-around.  The header that declares the
    descriptor (uds.h) is not among the sources, so the widths are not
    known; every bound used below keeps the values far inside any width
    (buffer positions never exceed [PIPE_BUF]). *)

From Stdlib Require Import ZArith Bool List Lia.
From stdpp Require Import base list relations.

Open Scope Z_scope.

(** ** Constants of the system headers

    The numeric values come from headers that are not part of the sources
    at hand (const.h, uds.h, errno.h, sys/socket.h, sys/stat.h, limits.h).
    They are taken as parameters; every theorem states which relations
    between them it relies on. *)

Class Consts : Type := {
  PIPE_BUF : Z;            (* capacity of the backing pipe *)
  UDS_SOMAXCONN : nat;     (* length of the backlog array *)
  OPEN_MAX : nat;          (* length of the in-flight fd array *)
  UNIX_PATH_MAX : nat;     (* length of sun_path *)
  S_IRUSR : Z;
  S_IWUSR : Z;
  SOCK_STREAM : Z;
  SOCK_DGRAM : Z;
  SOCK_SEQPACKET : Z;
  AF_UNIX : Z;
  SEL_RD : Z;
  SEL_WR : Z;
  OK : Z;
  SUSPEND : Z;
  ENFILE : Z;
  EINVAL : Z;
  EPIPE : Z;
  ECONNRESET : Z;
  ENOTCONN : Z;
  EMSGSIZE : Z;
  ENOENT : Z;
  EINTR : Z;
  DEV_IOCTL_S : Z;
  NWIOSUDSACCEPT : Z;
  NWIOSUDSCONN : Z
}.

(** ** Data model *)

(** enum UDS_STATE; a slot wiped by memset is [UDS_FREE]. *)
Inductive UDS_STATE : Type := UDS_FREE | UDS_INUSE.

(** enum UDS_SUSPENDED; a slot wiped by memset is [UDS_NOT_SUSPENDED],
    the only value that is false in [if (fd.suspended)]. *)
Inductive UDS_SUSPENDED : Type :=
  | UDS_NOT_SUSPENDED
  | UDS_SUSPENDED_READ
  | UDS_SUSPENDED_WRITE
  | UDS_SUSPENDED_CONNECT
  | UDS_SUSPENDED_ACCEPT.

Definition is_suspended (s : UDS_SUSPENDED) : bool :=
  match s with UDS_NOT_SUSPENDED => false | _ => true end.

Definition UDS_STATE_eqb (a b : UDS_STATE) : bool :=
  match a, b with
  | UDS_FREE, UDS_FREE | UDS_INUSE, UDS_INUSE => true
  | _, _ => false
  end.

(** struct sockaddr_un: family and the characters of the path. *)
Record sockaddr_un : Type := mk_sockaddr_un {
  sun_family : Z;
  sun_path : list Z
}.

(** struct ancillary, restricted to the members dev_uds.c reads. *)
Record ancillary : Type := mk_ancillary {
  nfiledes : Z;
  fds : list Z
}.

Record uds_fd : Type := mk_uds_fd {
  state : UDS_STATE;
  owner : Z;
  endpoint : Z;
  inode_nr : Z;
  io_gr : Z;
  io_gr_size : Z;
  pos : Z;
  size : Z;
  mode : Z;
  type : Z;
  backlog : list Z;
  backlog_size : Z;
  listening : Z;
  peer : Z;
  child : Z;
  addr : sockaddr_un;
  source : sockaddr_un;
  target : sockaddr_un;
  ready_to_revive : Z;
  suspended : UDS_SUSPENDED;
  selecting : Z;
  select_proc : Z;
  sel_ops_in : Z;
  sel_ops_out : Z;
  status_updated : Z;
  err : Z;
  ancillary_data : ancillary;
  call_nr : Z;
  ioctl : Z;
  syscall_done : Z
}.

Definition set_state (v : UDS_STATE) (d : uds_fd) : uds_fd :=
  mk_uds_fd v (owner d) (endpoint d) (inode_nr d) (io_gr d) (io_gr_size d)
    (pos d) (size d) (mode d) (type d) (backlog d) (backlog_size d)
    (listening d) (peer d) (child d) (addr d) (source d) (target d)
    (ready_to_revive d) (suspended d) (selecting d) (select_proc d)
    (sel_ops_in d) (sel_ops_out d) (status_updated d) (err d)
    (ancillary_data d) (call_nr d) (ioctl d) (syscall_done d).

Definition set_owner (v : Z) (d : uds_fd) : uds_fd :=
  mk_uds_fd (state d) v (endpoint d) (inode_nr d) (io_gr d) (io_gr_size d)
    (pos d) (size d) (mode d) (type d) (backlog d) (backlog_size d)
    (listening d) (peer d) (child d) (addr d) (source d) (target d)
    (ready_to_revive d) (suspended d) (selecting d) (select_proc d)
    (sel_ops_in d) (sel_ops_out d) (status_updated d) (err d)
    (ancillary_data d) (call_nr d) (ioctl d) (syscall_done d).

Definition set_endpoint (v : Z) (d : uds_fd) : uds_fd :=
  mk_uds_fd (state d) (owner d) v (inode_nr d) (io_gr d) (io_gr_size d)
    (pos d) (size d) (mode d) (type d) (backlog d) (backlog_size d)
    (listening d) (peer d) (child d) (addr d) (source d) (target d)
    (ready_to_revive d) (suspended d) (selecting d) (select_proc d)
    (sel_ops_in d) (sel_ops_out d) (status_updated d) (err d)
    (ancillary_data d) (call_nr d) (ioctl d) (syscall_done d).

Definition set_inode_nr (v : Z) (d : uds_fd) : uds_fd :=
  mk_uds_fd (state d) (owner d) (endpoint d) v (io_gr d) (io_gr_size d)
    (pos d) (size d) (mode d) (type d) (backlog d) (backlog_size d)
    (listening d) (peer d) (child d) (addr d) (source d) (target d)
    (ready_to_revive d) (suspended d) (selecting d) (select_proc d)
    (sel_ops_in d) (sel_ops_out d) (status_updated d) (err d)
    (ancillary_data d) (call_nr d) (ioctl d) (syscall_done d).

Definition set_io_gr (v : Z) (d : uds_fd) : uds_fd :=
  mk_uds_fd (state d) (owner d) (endpoint d) (inode_nr d) v (io_gr_size d)
    (pos d) (size d) (mode d) (type d) (backlog d) (backlog_size d)
    (listening d) (peer d) (child d) (addr d) (source d) (target d)
    (ready_to_revive d) (suspended d) (selecting d) (select_proc d)
    (sel_ops_in d) (sel_ops_out d) (status_updated d) (err d)
    (ancillary_data d) (call_nr d) (ioctl d) (syscall_done d).

Definition set_io_gr_size (v : Z) (d : uds_fd) : uds_fd :=
  mk_uds_fd (state d) (owner d) (endpoint d) (inode_nr d) (io_gr d) v (pos d)
    (size d) (mode d) (type d) (backlog d) (backlog_size d) (listening d)
    (peer d) (child d) (addr d) (source d) (target d) (ready_to_revive d)
    (suspended d) (selecting d) (select_proc d) (sel_ops_in d) (sel_ops_out d)
    (status_updated d) (err d) (ancillary_data d) (call_nr d) (ioctl d)
    (syscall_done d).

Definition set_pos (v : Z) (d : uds_fd) : uds_fd :=
  mk_uds_fd (state d) (owner d) (endpoint d) (inode_nr d) (io_gr d)
    (io_gr_size d) v (size d) (mode d) (type d) (backlog d) (backlog_size d)
    (listening d) (peer d) (child d) (addr d) (source d) (target d)
    (ready_to_revive d) (suspended d) (selecting d) (select_proc d)
    (sel_ops_in d) (sel_ops_out d) (status_updated d) (err d)
    (ancillary_data d) (call_nr d) (ioctl d) (syscall_done d).

Definition set_size (v : Z) (d : uds_fd) : uds_fd :=
  mk_uds_fd (state d) (owner d) (endpoint d) (inode_nr d) (io_gr d)
    (io_gr_size d) (pos d) v (mode d) (type d) (backlog d) (backlog_size d)
    (listening d) (peer d) (child d) (addr d) (source d) (target d)
    (ready_to_revive d) (suspended d) (selecting d) (select_proc d)
    (sel_ops_in d) (sel_ops_out d) (status_updated d) (err d)
    (ancillary_data d) (call_nr d) (ioctl d) (syscall_done d).

Definition set_mode (v : Z) (d : uds_fd) : uds_fd :=
  mk_uds_fd (state d) (owner d) (endpoint d) (inode_nr d) (io_gr d)
    (io_gr_size d) (pos d) (size d) v (type d) (backlog d) (backlog_size d)
    (listening d) (peer d) (child d) (addr d) (source d) (target d)
    (ready_to_revive d) (suspended d) (selecting d) (select_proc d)
    (sel_ops_in d) (sel_ops_out d) (status_updated d) (err d)
    (ancillary_data d) (call_nr d) (ioctl d) (syscall_done d).

Definition set_type (v : Z) (d : uds_fd) : uds_fd :=
  mk_uds_fd (state d) (owner d) (endpoint d) (inode_nr d) (io_gr d)
    (io_gr_size d) (pos d) (size d) (mode d) v (backlog d) (backlog_size d)
    (listening d) (peer d) (child d) (addr d) (source d) (target d)
    (ready_to_revive d) (suspended d) (selecting d) (select_proc d)
    (sel_ops_in d) (sel_ops_out d) (status_updated d) (err d)
    (ancillary_data d) (call_nr d) (ioctl d) (syscall_done d).

Definition set_backlog (v : list Z) (d : uds_fd) : uds_fd :=
  mk_uds_fd (state d) (owner d) (endpoint d) (inode_nr d) (io_gr d)
    (io_gr_size d) (pos d) (size d) (mode d) (type d) v (backlog_size d)
    (listening d) (peer d) (child d) (addr d) (source d) (target d)
    (ready_to_revive d) (suspended d) (selecting d) (select_proc d)
    (sel_ops_in d) (sel_ops_out d) (status_updated d) (err d)
    (ancillary_data d) (call_nr d) (ioctl d) (syscall_done d).

Definition set_backlog_size (v : Z) (d : uds_fd) : uds_fd :=
  mk_uds_fd (state d) (owner d) (endpoint d) (inode_nr d) (io_gr d)
    (io_gr_size d) (pos d) (size d) (mode d) (type d) (backlog d) v
    (listening d) (peer d) (child d) (addr d) (source d) (target d)
    (ready_to_revive d) (suspended d) (selecting d) (select_proc d)
    (sel_ops_in d) (sel_ops_out d) (status_updated d) (err d)
    (ancillary_data d) (call_nr d) (ioctl d) (syscall_done d).

Definition set_listening (v : Z) (d : uds_fd) : uds_fd :=
  mk_uds_fd (state d) (owner d) (endpoint d) (inode_nr d) (io_gr d)
    (io_gr_size d) (pos d) (size d) (mode d) (type d) (backlog d)
    (backlog_size d) v (peer d) (child d) (addr d) (source d) (target d)
    (ready_to_revive d) (suspended d) (selecting d) (select_proc d)
    (sel_ops_in d) (sel_ops_out d) (status_updated d) (err d)
    (ancillary_data d) (call_nr d) (ioctl d) (syscall_done d).

Definition set_peer (v : Z) (d : uds_fd) : uds_fd :=
  mk_uds_fd (state d) (owner d) (endpoint d) (inode_nr d) (io_gr d)
    (io_gr_size d) (pos d) (size d) (mode d) (type d) (backlog d)
    (backlog_size d) (listening d) v (child d) (addr d) (source d) (target d)
    (ready_to_revive d) (suspended d) (selecting d) (select_proc d)
    (sel_ops_in d) (sel_ops_out d) (status_updated d) (err d)
    (ancillary_data d) (call_nr d) (ioctl d) (syscall_done d).

Definition set_child (v : Z) (d : uds_fd) : uds_fd :=
  mk_uds_fd (state d) (owner d) (endpoint d) (inode_nr d) (io_gr d)
    (io_gr_size d) (pos d) (size d) (mode d) (type d) (backlog d)
    (backlog_size d) (listening d) (peer d) v (addr d) (source d) (target d)
    (ready_to_revive d) (suspended d) (selecting d) (select_proc d)
    (sel_ops_in d) (sel_ops_out d) (status_updated d) (err d)
    (ancillary_data d) (call_nr d) (ioctl d) (syscall_done d).

Definition set_addr (v : sockaddr_un) (d : uds_fd) : uds_fd :=
  mk_uds_fd (state d) (owner d) (endpoint d) (inode_nr d) (io_gr d)
    (io_gr_size d) (pos d) (size d) (mode d) (type d) (backlog d)
    (backlog_size d) (listening d) (peer d) (child d) v (source d) (target d)
    (ready_to_revive d) (suspended d) (selecting d) (select_proc d)
    (sel_ops_in d) (sel_ops_out d) (status_updated d) (err d)
    (ancillary_data d) (call_nr d) (ioctl d) (syscall_done d).

Definition set_source (v : sockaddr_un) (d : uds_fd) : uds_fd :=
  mk_uds_fd (state d) (owner d) (endpoint d) (inode_nr d) (io_gr d)
    (io_gr_size d) (pos d) (size d) (mode d) (type d) (backlog d)
    (backlog_size d) (listening d) (peer d) (child d) (addr d) v (target d)
    (ready_to_revive d) (suspended d) (selecting d) (select_proc d)
    (sel_ops_in d) (sel_ops_out d) (status_updated d) (err d)
    (ancillary_data d) (call_nr d) (ioctl d) (syscall_done d).

Definition set_target (v : sockaddr_un) (d : uds_fd) : uds_fd :=
  mk_uds_fd (state d) (owner d) (endpoint d) (inode_nr d) (io_gr d)
    (io_gr_size d) (pos d) (size d) (mode d) (type d) (backlog d)
    (backlog_size d) (listening d) (peer d) (child d) (addr d) (source d) v
    (ready_to_revive d) (suspended d) (selecting d) (select_proc d)
    (sel_ops_in d) (sel_ops_out d) (status_updated d) (err d)
    (ancillary_data d) (call_nr d) (ioctl d) (syscall_done d).

Definition set_ready_to_revive (v : Z) (d : uds_fd) : uds_fd :=
  mk_uds_fd (state d) (owner d) (endpoint d) (inode_nr d) (io_gr d)
    (io_gr_size d) (pos d) (size d) (mode d) (type d) (backlog d)
    (backlog_size d) (listening d) (peer d) (child d) (addr d) (source d)
    (target d) v (suspended d) (selecting d) (select_proc d) (sel_ops_in d)
    (sel_ops_out d) (status_updated d) (err d) (ancillary_data d) (call_nr d)
    (ioctl d) (syscall_done d).

Definition set_suspended (v : UDS_SUSPENDED) (d : uds_fd) : uds_fd :=
  mk_uds_fd (state d) (owner d) (endpoint d) (inode_nr d) (io_gr d)
    (io_gr_size d) (pos d) (size d) (mode d) (type d) (backlog d)
    (backlog_size d) (listening d) (peer d) (child d) (addr d) (source d)
    (target d) (ready_to_revive d) v (selecting d) (select_proc d)
    (sel_ops_in d) (sel_ops_out d) (status_updated d) (err d)
    (ancillary_data d) (call_nr d) (ioctl d) (syscall_done d).

Definition set_selecting (v : Z) (d : uds_fd) : uds_fd :=
  mk_uds_fd (state d) (owner d) (endpoint d) (inode_nr d) (io_gr d)
    (io_gr_size d) (pos d) (size d) (mode d) (type d) (backlog d)
    (backlog_size d) (listening d) (peer d) (child d) (addr d) (source d)
    (target d) (ready_to_revive d) (suspended d) v (select_proc d)
    (sel_ops_in d) (sel_ops_out d) (status_updated d) (err d)
    (ancillary_data d) (call_nr d) (ioctl d) (syscall_done d).

Definition set_select_proc (v : Z) (d : uds_fd) : uds_fd :=
  mk_uds_fd (state d) (owner d) (endpoint d) (inode_nr d) (io_gr d)
    (io_gr_size d) (pos d) (size d) (mode d) (type d) (backlog d)
    (backlog_size d) (listening d) (peer d) (child d) (addr d) (source d)
    (target d) (ready_to_revive d) (suspended d) (selecting d) v
    (sel_ops_in d) (sel_ops_out d) (status_updated d) (err d)
    (ancillary_data d) (call_nr d) (ioctl d) (syscall_done d).

Definition set_sel_ops_in (v : Z) (d : uds_fd) : uds_fd :=
  mk_uds_fd (state d) (owner d) (endpoint d) (inode_nr d) (io_gr d)
    (io_gr_size d) (pos d) (size d) (mode d) (type d) (backlog d)
    (backlog_size d) (listening d) (peer d) (child d) (addr d) (source d)
    (target d) (ready_to_revive d) (suspended d) (selecting d) (select_proc d)
    v (sel_ops_out d) (status_updated d) (err d) (ancillary_data d)
    (call_nr d) (ioctl d) (syscall_done d).

Definition set_sel_ops_out (v : Z) (d : uds_fd) : uds_fd :=
  mk_uds_fd (state d) (owner d) (endpoint d) (inode_nr d) (io_gr d)
    (io_gr_size d) (pos d) (size d) (mode d) (type d) (backlog d)
    (backlog_size d) (listening d) (peer d) (child d) (addr d) (source d)
    (target d) (ready_to_revive d) (suspended d) (selecting d) (select_proc d)
    (sel_ops_in d) v (status_updated d) (err d) (ancillary_data d) (call_nr d)
    (ioctl d) (syscall_done d).

Definition set_status_updated (v : Z) (d : uds_fd) : uds_fd :=
  mk_uds_fd (state d) (owner d) (endpoint d) (inode_nr d) (io_gr d)
    (io_gr_size d) (pos d) (size d) (mode d) (type d) (backlog d)
    (backlog_size d) (listening d) (peer d) (child d) (addr d) (source d)
    (target d) (ready_to_revive d) (suspended d) (selecting d) (select_proc d)
    (sel_ops_in d) (sel_ops_out d) v (err d) (ancillary_data d) (call_nr d)
    (ioctl d) (syscall_done d).

Definition set_err (v : Z) (d : uds_fd) : uds_fd :=
  mk_uds_fd (state d) (owner d) (endpoint d) (inode_nr d) (io_gr d)
    (io_gr_size d) (pos d) (size d) (mode d) (type d) (backlog d)
    (backlog_size d) (listening d) (peer d) (child d) (addr d) (source d)
    (target d) (ready_to_revive d) (suspended d) (selecting d) (select_proc d)
    (sel_ops_in d) (sel_ops_out d) (status_updated d) v (ancillary_data d)
    (call_nr d) (ioctl d) (syscall_done d).

Definition set_ancillary_data (v : ancillary) (d : uds_fd) : uds_fd :=
  mk_uds_fd (state d) (owner d) (endpoint d) (inode_nr d) (io_gr d)
    (io_gr_size d) (pos d) (size d) (mode d) (type d) (backlog d)
    (backlog_size d) (listening d) (peer d) (child d) (addr d) (source d)
    (target d) (ready_to_revive d) (suspended d) (selecting d) (select_proc d)
    (sel_ops_in d) (sel_ops_out d) (status_updated d) (err d) v (call_nr d)
    (ioctl d) (syscall_done d).

Definition set_call_nr (v : Z) (d : uds_fd) : uds_fd :=
  mk_uds_fd (state d) (owner d) (endpoint d) (inode_nr d) (io_gr d)
    (io_gr_size d) (pos d) (size d) (mode d) (type d) (backlog d)
    (backlog_size d) (listening d) (peer d) (child d) (addr d) (source d)
    (target d) (ready_to_revive d) (suspended d) (selecting d) (select_proc d)
    (sel_ops_in d) (sel_ops_out d) (status_updated d) (err d)
    (ancillary_data d) v (ioctl d) (syscall_done d).

Definition set_ioctl (v : Z) (d : uds_fd) : uds_fd :=
  mk_uds_fd (state d) (owner d) (endpoint d) (inode_nr d) (io_gr d)
    (io_gr_size d) (pos d) (size d) (mode d) (type d) (backlog d)
    (backlog_size d) (listening d) (peer d) (child d) (addr d) (source d)
    (target d) (ready_to_revive d) (suspended d) (selecting d) (select_proc d)
    (sel_ops_in d) (sel_ops_out d) (status_updated d) (err d)
    (ancillary_data d) (call_nr d) v (syscall_done d).

Definition set_syscall_done (v : Z) (d : uds_fd) : uds_fd :=
  mk_uds_fd (state d) (owner d) (endpoint d) (inode_nr d) (io_gr d)
    (io_gr_size d) (pos d) (size d) (mode d) (type d) (backlog d)
    (backlog_size d) (listening d) (peer d) (child d) (addr d) (source d)
    (target d) (ready_to_revive d) (suspended d) (selecting d) (select_proc d)
    (sel_ops_in d) (sel_ops_out d) (status_updated d) (err d)
    (ancillary_data d) (call_nr d) (ioctl d) v.

(** ** Messages *)

(** The request message, with the members the handlers read. *)
Record message : Type := mk_message {
  m_type : Z;
  m_source : Z;
  DEVICE : Z;
  USER_ENDPT : Z;
  IO_GRANT : Z;
  COUNT : Z;
  POSITION : Z
}.

Inductive reply_type : Type :=
  DEV_OPEN_REPL | DEV_CLOSE_REPL | DEV_SEL_REPL1 | DEV_SEL_REPL2 | DEV_REVIVE.

(** What [uds_set_reply] and [uds_sel_reply] (uds.c, not among the sources)
    store in a reply message: the arguments they are called with. *)
Inductive reply_msg : Type :=
  | uds_set_reply (t : reply_type) (endpt grant status : Z)
  | uds_sel_reply (t : reply_type) (minor ops : Z).

(** Requests to the file-system side of PFS. *)
Inductive rw_flag : Type := REQ_READ | REQ_WRITE.

Record rw_request : Type := mk_rw_request {
  REQ_TYPE : rw_flag;
  REQ_INODE_NR : Z;
  REQ_GRANT : Z;
  REQ_SEEK_POS_LO : Z;
  REQ_NBYTES : Z
}.

(** ** The collaborators

    Credential lookup and the byte containers live outside dev_uds.c.  They
    are an interface with a state of its own; nothing is assumed about them
    unless a theorem says so. *)
Class Backend : Type := {
  fs_state : Type;
  (* result: rc, (uid, gid), errno *)
  getnucred : fs_state → Z → fs_state * (Z * (Z * Z) * Z);
  (* arguments: uid, gid; result: rc, RES_INODE_NR *)
  fs_newnode : fs_state → Z → Z → fs_state * (Z * Z);
  (* argument: inode number; result: rc *)
  fs_putnode : fs_state → Z → fs_state * Z;
  (* result: rc, RES_NBYTES *)
  fs_readwrite : fs_state → rw_request → fs_state * (Z * Z);
  (* closes the in-flight descriptors of a socket *)
  clear_fds : fs_state → Z → ancillary → fs_state;
  (* the minor device number a request is addressed to *)
  uds_minor : message → Z
}.

Section Uds.

Context `{C : Consts} `{B : Backend}.

(** ** The state *)

(** [tbl] is the global array uds_fd_table[NR_FDS]: its length is NR_FDS.
    [sent] lists the messages handed to reply(), newest first; the local
    m_out of uds_unsuspend may be sent without having been filled in,
    which is the [None] payload. *)
Record world : Type := mk_world {
  tbl : list uds_fd;
  fs : fs_state;
  sent : list (Z * option reply_msg)
}.

Definition NR_FDS (w : world) : Z := Z.of_nat (length (tbl w)).

(** An array access with a C int index.  Outside the array the behaviour of
    the C program is undefined, which the monad below reports as [Undef]. *)
Definition lookup_fd (i : Z) (t : list uds_fd) : option uds_fd :=
  if 0 <=? i then t !! Z.to_nat i else None.

Definition store_fd (i : Z) (d : uds_fd) (t : list uds_fd) : list uds_fd :=
  <[Z.to_nat i := d]> t.

Inductive result (A : Type) : Type :=
  | Ret (a : A) (w : world)   (* returned [a] in state [w] *)
  | Undef                     (* indexed the table out of bounds *)
  | Timeout.                  (* recursion deeper than the fuel *)

Arguments Ret {A} a w.
Arguments Undef {A}.
Arguments Timeout {A}.

Definition M (A : Type) : Type := world → result A.

Definition ret {A} (a : A) : M A := fun w => Ret a w.

Definition bind {A B'} (m : M A) (k : A → M B') : M B' :=
  fun w => match m w with
           | Ret a w' => k a w'
           | Undef => Undef
           | Timeout => Timeout
           end.

Notation "x <- m ;; k" := (bind m (fun x => k))
  (at level 62, m at next level, right associativity, only parsing).
Notation "m ;;; k" := (bind m (fun _ => k))
  (at level 62, right associativity, only parsing).

(** read uds_fd_table[i] *)
Definition get_fd (i : Z) : M uds_fd :=
  fun w => match lookup_fd i (tbl w) with
           | Some d => Ret d w
           | None => Undef
           end.

(** uds_fd_table[i] = f (uds_fd_table[i]) *)
Definition upd_fd (i : Z) (f : uds_fd → uds_fd) : M unit :=
  fun w => match lookup_fd i (tbl w) with
           | Some d => Ret tt (mk_world (store_fd i (f d) (tbl w)) (fs w) (sent w))
           | None => Undef
           end.

Definition get_tbl : M (list uds_fd) := fun w => Ret (tbl w) w.

Definition put_tbl (t : list uds_fd) : M unit :=
  fun w => Ret tt (mk_world t (fs w) (sent w)).

(** reply(m_source, &m_out) *)
Definition reply (dst : Z) (m : option reply_msg) : M unit :=
  fun w => Ret tt (mk_world (tbl w) (fs w) ((dst, m) :: sent w)).

(** a call into the collaborators *)
Definition call {A} (f : fs_state → fs_state * A) : M A :=
  fun w => let (b, a) := f (fs w) in Ret a (mk_world (tbl w) b (sent w)).

Definition when (c : bool) (m : M unit) : M unit :=
  if c then m else ret tt.

(** C truth value of an int *)
Definition truthy (z : Z) : bool := negb (z =? 0).

(** (x & mask) != 0 *)
Definition has_bit (x mask : Z) : bool := negb (Z.land x mask =? 0).

(** memset(&fd, 0, sizeof fd) *)
Definition zero_sockaddr : sockaddr_un :=
  mk_sockaddr_un 0 (replicate UNIX_PATH_MAX 0).

Definition zero_ancillary : ancillary :=
  mk_ancillary 0 (replicate OPEN_MAX 0).

Definition zero_fd : uds_fd :=
  mk_uds_fd UDS_FREE 0 0 0 0 0 0 0 0 0 (replicate UDS_SOMAXCONN 0) 0 0 0 0
    zero_sockaddr zero_sockaddr zero_sockaddr 0 UDS_NOT_SUSPENDED 0 0 0 0 0 0
    zero_ancillary 0 0 0.

(** ** Loops over the table *)

(** strncmp(s1, s2, n): the difference of the first characters that differ,
    0 when the strings agree up to a NUL or for [n] characters.  A list
    shorter than [n] reads as NUL behind its end. *)
Fixpoint strncmp (s1 s2 : list Z) (n : nat) : Z :=
  match n with
  | O => 0
  | S n' =>
      let c1 := hd 0 s1 in
      let c2 := hd 0 s2 in
      if negb (c1 =? c2) then c1 - c2
      else if c1 =? 0 then 0
      else strncmp (tl s1) (tl s2) n'
  end.

(** The test of the datagram scan in uds_perform_write. *)
Definition dgram_bound_to (tgt : sockaddr_un) (d : uds_fd) : bool :=
  (type d =? SOCK_DGRAM) && (sun_family (addr d) =? AF_UNIX) &&
  (strncmp (sun_path tgt) (sun_path (addr d)) UNIX_PATH_MAX =? 0).

(** for (i = i0; i < NR_FDS; i++) if (test(uds_fd_table[i])) { r = i; break; }
    over the slots [t] that start at index [i0]; -1 when the loop ends
    without a hit. *)
Fixpoint scan_from (test : uds_fd → bool) (i : Z) (t : list uds_fd) : Z :=
  match t with
  | [] => -1
  | d :: t' => if test d then i else scan_from test (i + 1) t'
  end.

(** for (i = 0; i < backlog_size; i++) if (backlog[i] != -1) ...; break;
    [None] when the loop leaves the array. *)
Fixpoint backlog_pending (n : nat) (l : list Z) : option bool :=
  match n with
  | O => Some false
  | S n' =>
      match l with
      | [] => None
      | x :: l' => if negb (x =? -1) then Some true else backlog_pending n' l'
      end
  end.

(** for (j = 0; j < backlog_size; j++)
      if (backlog[j] == minor) backlog[j] = -1; *)
Fixpoint backlog_remove (minor : Z) (n : nat) (l : list Z) : option (list Z) :=
  match n with
  | O => Some l
  | S n' =>
      match l with
      | [] => None
      | x :: l' =>
          match backlog_remove minor n' l' with
          | Some r => Some ((if x =? minor then -1 else x) :: r)
          | None => None
          end
      end
  end.

(** The rollback loop of a cancelled connect(), over all slots. *)
Fixpoint cancel_backlogs (minor : Z) (t : list uds_fd) : option (list uds_fd) :=
  match t with
  | [] => Some []
  | d :: t' =>
      let d' :=
        if UDS_STATE_eqb (state d) UDS_INUSE then
          match backlog_remove minor (Z.to_nat (backlog_size d)) (backlog d) with
          | Some bl => Some (set_backlog bl d)
          | None => None
          end
        else Some d in
      match d', cancel_backlogs minor t' with
      | Some x, Some r => Some (x :: r)
      | _, _ => None
      end
  end.

(** The rollback loop of a cancelled accept(). *)
Definition cancel_children (minor : Z) (t : list uds_fd) : list uds_fd :=
  map (fun d => if child d =? minor then set_child (-1) d else d) t.

Definition lift_opt {A} (o : option A) : M A :=
  fun w => match o with Some a => Ret a w | None => Undef end.

(** ** The read/write engine

    uds_perform_read, uds_perform_write and uds_unsuspend call each other.
    The bodies are written against the callee, and the knot is tied below
    by recursion on a bound of the call depth. *)

Section Engine.

Variable unsuspend : Z → Z → M Z.

(** if (uds_fd_table[peer].suspended) {
      uds_fd_table[peer].ready_to_revive = 1;
      uds_unsuspend(m_source, peer); } *)
Definition revive_if_suspended (m_source p : Z) : M unit :=
  pfd <- get_fd p ;;
  if is_suspended (suspended pfd) then
    upd_fd p (set_ready_to_revive 1) ;;;
    _ <- unsuspend m_source p ;;
    ret tt
  else ret tt.

(** The tail of a read or write: the peer learns through select() that the
    direction [sel] has become possible. *)
Definition notify_select (m_source p sel : Z) : M unit :=
  pfd <- get_fd p ;;
  if has_bit (sel_ops_in pfd) sel && negb (has_bit (sel_ops_out pfd) sel) then
    upd_fd p (fun d => set_sel_ops_out (Z.lor (sel_ops_out d) sel) d) ;;;
    upd_fd p (set_status_updated 1) ;;;
    _ <- unsuspend m_source p ;;
    ret tt
  else ret tt.

Definition uds_perform_read_with (minor m_source sz pretend : Z) : M Z :=
  fd <- get_fd minor ;;
  let p := peer fd in
  if sz <=? 0 then ret 0 else
  (* check if we are allowed to read *)
  if negb (has_bit (mode fd) S_IRUSR) then ret EPIPE else
  if size fd =? 0 then
    if (p =? -1) &&
       ((type fd =? SOCK_STREAM) || (type fd =? SOCK_SEQPACKET)) then
      (* not connected, and connection oriented *)
      if err fd =? ECONNRESET then
        upd_fd minor (set_err 0) ;;;
        ret ECONNRESET
      else ret ENOTCONN
    else
      (* reading from a closed pipe? *)
      closed <- (if p =? -1 then ret false
                 else pfd <- get_fd p ;;
                      ret (negb (has_bit (mode pfd) S_IWUSR))) ;;
      if closed : bool then ret 0 else
      if truthy pretend then ret SUSPEND else
      (* maybe a process is blocked waiting to write? *)
      (if p =? -1 then ret tt else revive_if_suspended m_source p) ;;;
      upd_fd minor (set_suspended UDS_SUSPENDED_READ) ;;;
      ret SUSPEND
  else
  if truthy pretend then ret (if sz >? size fd then size fd else sz) else
  r <- call (fun b => fs_readwrite b
               (mk_rw_request REQ_READ (inode_nr fd) (io_gr fd) (pos fd)
                  (if sz >? size fd then size fd else sz))) ;;
  let rc := fst r in
  let nbytes := snd r in
  if negb (rc =? OK) then ret rc else
  upd_fd minor (fun d => set_pos (pos d + nbytes) d) ;;;
  upd_fd minor (fun d => set_size (size d - nbytes) d) ;;;
  upd_fd minor (fun d => if size d =? 0 then set_pos 0 d else d) ;;;
  (* maybe a big write was waiting for us to read some data *)
  (if p =? -1 then ret tt else revive_if_suspended m_source p) ;;;
  (* is the peer blocked on select() and a write possible? *)
  (if p =? -1 then ret tt else
     pfd <- get_fd p ;;
     fd' <- get_fd minor ;;
     if (selecting pfd =? 1) && (size fd' + pos fd' + 1 <? PIPE_BUF)
     then notify_select m_source p SEL_WR
     else ret tt) ;;;
  ret nbytes.

(** uds_perform_write from the test [peer == -1] on, once the peer [p] of
    the writer [fd] has been looked up. *)
Definition write_to_peer (minor m_source sz pretend : Z) (fd : uds_fd) (p : Z)
  : M Z :=
  if p =? -1 then
    if truthy pretend then ret SUSPEND else ret ENOENT
  else
  pfd <- get_fd p ;;
  (* check if we write to a closed pipe *)
  if negb (has_bit (mode pfd) S_IRUSR) then ret EPIPE else
  (* DGRAM boundary: a packet is already waiting *)
  if (type fd =? SOCK_DGRAM) && (size pfd >? 0) then ret sz else
  if (pos pfd + size pfd + sz >? PIPE_BUF) ||
     ((type fd =? SOCK_SEQPACKET) && (size pfd >? 0)) then
    if truthy pretend then ret SUSPEND else
    (* if needed revive the reader *)
    revive_if_suspended m_source p ;;;
    upd_fd minor (set_suspended UDS_SUSPENDED_WRITE) ;;;
    ret SUSPEND
  else
  if truthy pretend then ret sz else
  r <- call (fun b => fs_readwrite b
               (mk_rw_request REQ_WRITE (inode_nr pfd) (io_gr fd)
                  (pos pfd + size pfd) sz)) ;;
  let rc := fst r in
  let nbytes := snd r in
  if negb (rc =? OK) then ret rc else
  (* increase the count of unread bytes *)
  upd_fd p (fun d => set_size (size d + nbytes) d) ;;;
  (* fill in the source address *)
  fd' <- get_fd minor ;;
  (if type fd' =? SOCK_DGRAM then upd_fd p (set_source (addr fd'))
   else ret tt) ;;;
  (* revive peer that was waiting for us to write *)
  revive_if_suspended m_source p ;;;
  (* see if peer is blocked on select() *)
  pfd' <- get_fd p ;;
  (if (selecting pfd' =? 1) && (nbytes >? 0)
   then notify_select m_source p SEL_RD
   else ret tt) ;;;
  ret nbytes.

Definition uds_perform_write_with (minor m_source sz pretend : Z) : M Z :=
  (* skip reads and writes of 0 (or less!) bytes *)
  if sz <=? 0 then ret 0 else
  fd <- get_fd minor ;;
  (* check if we are allowed to write *)
  if negb (has_bit (mode fd) S_IWUSR) then ret EPIPE else
  if sz >? PIPE_BUF then ret EMSGSIZE else
  if (type fd =? SOCK_STREAM) || (type fd =? SOCK_SEQPACKET) then
    if peer fd =? -1 then
      if err fd =? ECONNRESET then
        upd_fd minor (set_err 0) ;;;
        ret ECONNRESET
      else ret ENOTCONN
    else write_to_peer minor m_source sz pretend fd (peer fd)
  else
    (* locate the "peer" we want to write to *)
    t <- get_tbl ;;
    write_to_peer minor m_source sz pretend fd
      (scan_from (dgram_bound_to (target fd)) 0 t).

End Engine.

(** if (r == OK) reply(m_source, &m_out); return r; *)
Definition finish (m_source r : Z) (m_out : option reply_msg) : M Z :=
  when (r =? OK) (reply m_source m_out) ;;;
  ret r.

Definition uds_unsuspend_with
    (perform_read perform_write : Z → Z → Z → Z → M Z)
    (m_source minor : Z) : M Z :=
  fdp <- get_fd minor ;;
  if status_updated fdp =? 1 then
    (* clear the status_updated flag *)
    upd_fd minor (set_status_updated 0) ;;;
    upd_fd minor (set_selecting 0) ;;;
    fdp' <- get_fd minor ;;
    finish m_source OK
      (Some (uds_sel_reply DEV_SEL_REPL2 minor (sel_ops_out fdp')))
  else if ready_to_revive fdp =? 1 then
    (* clear the ready to revive flag *)
    upd_fd minor (set_ready_to_revive 0) ;;;
    match suspended fdp with
    | UDS_SUSPENDED_READ =>
        bytes <- perform_read minor m_source (io_gr_size fdp) 0 ;;
        if bytes =? SUSPEND then finish m_source SUSPEND None else
        upd_fd minor (set_suspended UDS_NOT_SUSPENDED) ;;;
        fdp' <- get_fd minor ;;
        finish m_source OK
          (Some (uds_set_reply DEV_REVIVE (endpoint fdp') (io_gr fdp') bytes))
    | UDS_SUSPENDED_WRITE =>
        bytes <- perform_write minor m_source (io_gr_size fdp) 0 ;;
        if bytes =? SUSPEND then finish m_source SUSPEND None else
        upd_fd minor (set_suspended UDS_NOT_SUSPENDED) ;;;
        fdp' <- get_fd minor ;;
        finish m_source OK
          (Some (uds_set_reply DEV_REVIVE (endpoint fdp') (io_gr fdp') bytes))
    | UDS_SUSPENDED_CONNECT | UDS_SUSPENDED_ACCEPT =>
        (* the connection was already performed; only unblock *)
        upd_fd minor (set_suspended UDS_NOT_SUSPENDED) ;;;
        fdp' <- get_fd minor ;;
        finish m_source OK
          (Some (uds_set_reply DEV_REVIVE (endpoint fdp') (io_gr fdp') OK))
    | UDS_NOT_SUSPENDED =>
        (* default: return(OK) *)
        ret OK
    end
  else finish m_source OK None.

(** [fuel] bounds the depth of the calls of uds_unsuspend. *)
Fixpoint uds_unsuspend (fuel : nat) (m_source minor : Z) : M Z :=
  match fuel with
  | O => fun _ => Timeout
  | S n =>
      uds_unsuspend_with
        (uds_perform_read_with (uds_unsuspend n))
        (uds_perform_write_with (uds_unsuspend n))
        m_source minor
  end.

Definition uds_perform_read (fuel : nat) : Z → Z → Z → Z → M Z :=
  uds_perform_read_with (uds_unsuspend fuel).

Definition uds_perform_write (fuel : nat) : Z → Z → Z → Z → M Z :=
  uds_perform_write_with (uds_unsuspend fuel).

(** ** The entry points

    A handler returns its C return value and the reply it stored in
    dev_m_out, if it stored one. *)

Definition handler_result : Type := Z * option reply_msg.

Definition in_use (d : uds_fd) : bool := UDS_STATE_eqb (state d) UDS_INUSE.

(** The assignments of uds_open to the slot it found, up to the call of
    getnucred. *)
Definition open_init (dev_m_in : message) (d : uds_fd) : uds_fd :=
  set_ready_to_revive 0
   (set_io_gr_size 0
    (set_io_gr 0
     (set_suspended UDS_NOT_SUSPENDED
      (set_target zero_sockaddr
       (set_source zero_sockaddr
        (set_addr zero_sockaddr
         (set_child (-1)
          (set_peer (-1)
           (set_listening 0
            (set_backlog_size (Z.of_nat UDS_SOMAXCONN)
             (set_ancillary_data (mk_ancillary 0 (replicate OPEN_MAX (-1)))
              (set_backlog (replicate UDS_SOMAXCONN (-1))
               (set_type (-1)
                (set_mode (Z.lor S_IRUSR S_IWUSR)
                 (set_size 0
                  (set_pos 0
                   (set_status_updated 0
                    (set_sel_ops_out 0
                     (set_sel_ops_in 0
                      (set_select_proc 0
                       (set_selecting 0
                        (set_endpoint (USER_ENDPT dev_m_in)
                         (set_owner (USER_ENDPT dev_m_in)
                          (set_syscall_done 0
                           (set_ioctl 0
                            (set_call_nr (m_type dev_m_in)
                             (set_state UDS_INUSE d))))))))))))))))))))))))))).

Definition uds_open (dev_m_in : message) : M handler_result :=
  (* find a slot; minor 0 is the device itself *)
  t <- get_tbl ;;
  let minor := scan_from (fun d => UDS_STATE_eqb (state d) UDS_FREE) 1 (drop 1 t) in
  if minor =? -1 then
    (* descriptor table full *)
    ret (ENFILE, Some (uds_set_reply DEV_OPEN_REPL (USER_ENDPT dev_m_in)
                         (IO_GRANT dev_m_in) ENFILE))
  else
  upd_fd minor (open_init dev_m_in) ;;;
  fd <- get_fd minor ;;
  cred <- call (fun b => getnucred b (endpoint fd)) ;;
  let rc := fst (fst cred) in
  let ucred := snd (fst cred) in
  let errno := snd cred in
  if rc =? -1 then
    (* roll back the changes we made to the descriptor *)
    upd_fd minor (fun _ => zero_fd) ;;;
    ret (errno, Some (uds_set_reply DEV_OPEN_REPL (USER_ENDPT dev_m_in)
                        (IO_GRANT dev_m_in) errno))
  else
  node <- call (fun b => fs_newnode b (fst ucred) (snd ucred)) ;;
  let rc := fst node in
  if negb (rc =? OK) then
    (* roll back the changes we made to the descriptor *)
    upd_fd minor (fun _ => zero_fd) ;;;
    ret (rc, Some (uds_set_reply DEV_OPEN_REPL (USER_ENDPT dev_m_in)
                     (IO_GRANT dev_m_in) rc))
  else
  upd_fd minor (set_inode_nr (snd node)) ;;;
  upd_fd minor (set_syscall_done 1) ;;;
  ret (minor, Some (uds_set_reply DEV_OPEN_REPL (USER_ENDPT dev_m_in)
                      (IO_GRANT dev_m_in) minor)).

Definition uds_close (fuel : nat) (dev_m_in : message) : M handler_result :=
  let minor := uds_minor dev_m_in in
  fd <- get_fd minor ;;
  if negb (in_use fd) then
    ret (EINVAL, Some (uds_set_reply DEV_CLOSE_REPL (USER_ENDPT dev_m_in)
                         (IO_GRANT dev_m_in) EINVAL))
  else
  (* if the socket is connected, disconnect it *)
  (if negb (peer fd =? -1) then
     let p := peer fd in
     upd_fd p (set_peer (-1)) ;;;
     upd_fd p (set_err ECONNRESET) ;;;
     (* if peer was blocked on I/O revive peer *)
     revive_if_suspended (uds_unsuspend fuel) (m_source dev_m_in) p
   else ret tt) ;;;
  fd1 <- get_fd minor ;;
  (if nfiledes (ancillary_data fd1) >? 0 then
     call (fun b => (clear_fds b minor (ancillary_data fd1), tt))
   else ret tt) ;;;
  fd2 <- get_fd minor ;;
  (* set the socket back to its original UDS_FREE state *)
  upd_fd minor (fun _ => zero_fd) ;;;
  (* request the removal of the inode from the pipe file system *)
  rc <- call (fun b => fs_putnode b (inode_nr fd2)) ;;
  if negb (rc =? OK) then ret (rc, None) else
  ret (OK, Some (uds_set_reply DEV_CLOSE_REPL (USER_ENDPT dev_m_in)
                   (IO_GRANT dev_m_in) OK)).

Definition uds_select (fuel : nat) (dev_m_in : message) : M handler_result :=
  let minor := uds_minor dev_m_in in
  fd <- get_fd minor ;;
  if negb (in_use fd) then
    ret (EINVAL, Some (uds_sel_reply DEV_SEL_REPL1 minor EINVAL))
  else
  upd_fd minor (fun d =>
    set_sel_ops_out 0
     (set_sel_ops_in (USER_ENDPT dev_m_in)
      (set_syscall_done 0
       (set_ioctl 0
        (set_call_nr (m_type dev_m_in)
         (set_select_proc (m_source dev_m_in)
          (set_selecting 1 d))))))) ;;;
  let add_ready (bit : Z) :=
    upd_fd minor (fun d => set_sel_ops_out (Z.lor (sel_ops_out d) bit) d) in
  (* check if there is data available to read *)
  bytes <- uds_perform_read fuel minor (m_source dev_m_in) 1 1 ;;
  fd1 <- get_fd minor ;;
  (if bytes >? 0 then add_ready SEL_RD
   else if listening fd1 =? 1 then
     (* check for pending connections *)
     pending <- lift_opt (backlog_pending (Z.to_nat (backlog_size fd1))
                            (backlog fd1)) ;;
     when pending (add_ready SEL_RD)
   else when (negb (bytes =? SUSPEND)) (add_ready SEL_RD)) ;;;
  (* check if we can write without blocking *)
  bytes <- uds_perform_write fuel minor (m_source dev_m_in) PIPE_BUF 1 ;;
  when (negb (bytes =? 0) && negb (bytes =? SUSPEND)) (add_ready SEL_WR) ;;;
  upd_fd minor (set_syscall_done 1) ;;;
  fd2 <- get_fd minor ;;
  ret (sel_ops_out fd2,
       Some (uds_sel_reply DEV_SEL_REPL1 minor (sel_ops_out fd2))).

(** The bookkeeping uds_read and uds_write share before the transfer. *)
Definition track_io (dev_m_in : message) (d : uds_fd) : uds_fd :=
  set_io_gr_size (COUNT dev_m_in)
   (set_io_gr (IO_GRANT dev_m_in)
    (set_selecting 0
     (set_endpoint (USER_ENDPT dev_m_in)
      (set_syscall_done 0
       (set_ioctl 0
        (set_call_nr (m_type dev_m_in) d)))))).

Definition uds_read (fuel : nat) (dev_m_in : message) : M handler_result :=
  let minor := uds_minor dev_m_in in
  fd <- get_fd minor ;;
  if negb (in_use fd) then
    ret (EINVAL, Some (uds_set_reply DEV_REVIVE (USER_ENDPT dev_m_in)
                         (IO_GRANT dev_m_in) EINVAL))
  else
  upd_fd minor (track_io dev_m_in) ;;;
  fd1 <- get_fd minor ;;
  bytes <- uds_perform_read fuel minor (m_source dev_m_in) (io_gr_size fd1) 0 ;;
  fd2 <- get_fd minor ;;
  ret (bytes, Some (uds_set_reply DEV_REVIVE (endpoint fd2) (io_gr fd2) bytes)).

Definition uds_write (fuel : nat) (dev_m_in : message) : M handler_result :=
  let minor := uds_minor dev_m_in in
  fd <- get_fd minor ;;
  if negb (in_use fd) then
    ret (EINVAL, Some (uds_set_reply DEV_REVIVE (USER_ENDPT dev_m_in)
                         (IO_GRANT dev_m_in) EINVAL))
  else
  upd_fd minor (track_io dev_m_in) ;;;
  fd1 <- get_fd minor ;;
  bytes <- uds_perform_write fuel minor (m_source dev_m_in) (io_gr_size fd1) 0 ;;
  fd2 <- get_fd minor ;;
  ret (bytes, Some (uds_set_reply DEV_REVIVE (endpoint fd2) (io_gr fd2) bytes)).

(** The switch of uds_cancel on the cancelled ioctl. *)
Definition cancel_rollback (minor : Z) (fd : uds_fd) : M unit :=
  if call_nr fd =? DEV_IOCTL_S then
    if ioctl fd =? NWIOSUDSACCEPT then
      (* partial accept() only changes the child of the parent *)
      t <- get_tbl ;;
      put_tbl (cancel_children minor t)
    else if ioctl fd =? NWIOSUDSCONN then
      (* partial connect() sets addr and adds minor to server backlog *)
      t <- get_tbl ;;
      t' <- lift_opt (cancel_backlogs minor t) ;;
      put_tbl t' ;;;
      upd_fd minor (set_addr zero_sockaddr)
    else ret tt
  else ret tt.

Definition uds_cancel (dev_m_in : message) : M handler_result :=
  let minor := uds_minor dev_m_in in
  fd <- get_fd minor ;;
  if negb (in_use fd) then
    (* attempted to cancel an unknown request *)
    ret (SUSPEND, None)
  else
  upd_fd minor (fun d =>
    set_suspended UDS_NOT_SUSPENDED
     (set_selecting 0
      (set_endpoint (USER_ENDPT dev_m_in) d))) ;;;
  fd1 <- get_fd minor ;;
  (* if there is a system call and it isn't complete, roll back *)
  (if truthy (call_nr fd1) && negb (truthy (syscall_done fd1)) then
     cancel_rollback minor fd1 ;;;
     upd_fd minor (set_syscall_done 1)
   else ret tt) ;;;
  ret (EINTR, Some (uds_set_reply DEV_REVIVE (USER_ENDPT dev_m_in)
                      (IO_GRANT dev_m_in) EINTR)).

End Uds.

Arguments Ret {B A} a w.
Arguments Undef {B A}.
Arguments Timeout {B A}.

Notation "x <- m ;; k" := (bind m (fun x => k))
  (at level 62, m at next level, right associativity, only parsing).
Notation "m ;;; k" := (bind m (fun _ => k))
  (at level 62, right associativity, only parsing).

(** ** A concrete configuration

    Values for the constants and a simple backend, used to run the model
    on concrete tables. *)
Module Sample.

Definition consts : Consts := {|
  PIPE_BUF := 32768;
  UDS_SOMAXCONN := 4;
  OPEN_MAX := 4;
  UNIX_PATH_MAX := 8;
  S_IRUSR := 256;
  S_IWUSR := 128;
  SOCK_STREAM := 1;
  SOCK_DGRAM := 2;
  SOCK_SEQPACKET := 5;
  AF_UNIX := 1;
  SEL_RD := 1;
  SEL_WR := 2;
  OK := 0;
  SUSPEND := -998;
  ENFILE := -23;
  EINVAL := -22;
  EPIPE := -32;
  ECONNRESET := -54;
  ENOTCONN := -57;
  EMSGSIZE := -40;
  ENOENT := -2;
  EINTR := -4;
  DEV_IOCTL_S := 24;
  NWIOSUDSACCEPT := 1001;
  NWIOSUDSCONN := 1002
|}.

#[local] Existing Instance consts.

(** A backend that always transfers what it is asked for and keeps the log
    of the transfers; releasing a container answers [putnode_rc]. *)
Definition backend (putnode_rc : Z) : Backend := {|
  fs_state := list rw_request;
  getnucred := fun b _ => (b, (0, (0, 0), 0));
  fs_newnode := fun b _ _ => (b, (0, 7));
  fs_putnode := fun b _ => (b, putnode_rc);
  fs_readwrite := fun b r => (r :: b, (0, REQ_NBYTES r));
  clear_fds := fun b _ _ => b;
  uds_minor := DEVICE
|}.

(** A backend that never reports a negative count. *)
Definition clamping : Backend := {|
  fs_state := list rw_request;
  getnucred := fun b _ => (b, (0, (0, 0), 0));
  fs_newnode := fun b _ _ => (b, (0, 7));
  fs_putnode := fun b _ => (b, 0);
  fs_readwrite := fun b r => (r :: b, (0, Z.max 0 (REQ_NBYTES r)));
  clear_fds := fun b _ _ => b;
  uds_minor := DEVICE
|}.

(** A backend that transfers all it is asked for and refuses a negative
    count. *)
Definition honest : Backend := {|
  fs_state := list rw_request;
  getnucred := fun b _ => (b, (0, (0, 0), 0));
  fs_newnode := fun b _ _ => (b, (0, 7));
  fs_putnode := fun b _ => (b, 0);
  fs_readwrite := fun b r =>
    if 0 <=? REQ_NBYTES r then (r :: b, (0, REQ_NBYTES r)) else (b, (-22, 0));
  clear_fds := fun b _ _ => b;
  uds_minor := DEVICE
|}.

(** A backend that has no container left to give. *)
Definition out_of_nodes : Backend := {|
  fs_state := list rw_request;
  getnucred := fun b _ => (b, (0, (0, 0), 0));
  fs_newnode := fun b _ _ => (b, (-28, 0));
  fs_putnode := fun b _ => (b, 0);
  fs_readwrite := fun b r => (r :: b, (0, REQ_NBYTES r));
  clear_fds := fun b _ _ => b;
  uds_minor := DEVICE
|}.

(** A backend that does not know the caller: getnucred fails with errno
    -3. *)
Definition unknown_caller : Backend := {|
  fs_state := list rw_request;
  getnucred := fun b _ => (b, (-1, (0, 0), -3));
  fs_newnode := fun b _ _ => (b, (0, 7));
  fs_putnode := fun b _ => (b, 0);
  fs_readwrite := fun b r => (r :: b, (0, REQ_NBYTES r));
  clear_fds := fun b _ _ => b;
  uds_minor := DEVICE
|}.

(** A slot as uds_open leaves it, then given a type, a peer and a bound
    address. *)
Definition request (typ minor count : Z) : message :=
  mk_message typ 100 minor 200 300 count 0.

Definition fresh : uds_fd :=
  set_syscall_done 1 (set_inode_nr 7 (open_init (request 1 0 0) zero_fd)).

Definition path (c : Z) : sockaddr_un := mk_sockaddr_un AF_UNIX [c].

Definition sock (typ p : Z) : uds_fd := set_peer p (set_type typ fresh).

Definition world_of (t : list uds_fd) : world (B := backend 0) :=
  mk_world (B := backend 0) t [] [].

Definition clamped_world_of (t : list uds_fd) : world (B := clamping) :=
  mk_world (B := clamping) t [] [].

Definition honest_world_of (t : list uds_fd) : world (B := honest) :=
  mk_world (B := honest) t [] [].

(** Slot 0 is the device; 1 and 2 are a connected stream pair; 3 is a
    stream socket whose peer has gone; 4 and 5 are datagram sockets, 4
    sending to the address of 5. *)
Definition table : list uds_fd :=
  [ zero_fd;
    sock SOCK_STREAM 2;
    sock SOCK_STREAM 1;
    set_err ECONNRESET (sock SOCK_STREAM (-1));
    set_target (path 65) (set_addr (path 66) (sock SOCK_DGRAM (-1)));
    set_addr (path 65) (sock SOCK_DGRAM (-1)) ].

(** Slot 1 shut down for reading and writing. *)
Definition shut_table : list uds_fd :=
  [ zero_fd; set_mode 0 (sock SOCK_STREAM 2); sock SOCK_STREAM 1 ].

(** The datagram pair of [table] with a packet of 10 bytes waiting in
    slot 2; slot 3 sends to an address nobody is bound to. *)
Definition dgram_table : list uds_fd :=
  [ zero_fd;
    set_target (path 65) (set_addr (path 66) (sock SOCK_DGRAM (-1)));
    set_size 10 (set_addr (path 65) (sock SOCK_DGRAM (-1)));
    set_target (path 67) (sock SOCK_DGRAM (-1)) ].

(** Slot 1 with an accept() in flight, slot 2 the parent that names it as
    its child. *)
Definition accept_table : list uds_fd :=
  [ zero_fd;
    set_syscall_done 0
      (set_ioctl NWIOSUDSACCEPT
         (set_call_nr DEV_IOCTL_S (sock SOCK_STREAM (-1))));
    set_child 1 (sock SOCK_STREAM (-1)) ].

(** Slot 1 suspended in a read of 4 bytes, with a readiness notification
    pending in [notified_table] and a revival pending in both. *)
Definition blocked_reader : uds_fd :=
  set_ready_to_revive 1
    (set_io_gr_size 4
       (set_suspended UDS_SUSPENDED_READ (sock SOCK_STREAM 2))).

Definition revived_table : list uds_fd :=
  [ zero_fd; blocked_reader; sock SOCK_STREAM 1 ].

Definition notified_table : list uds_fd :=
  [ zero_fd; set_status_updated 1 blocked_reader; sock SOCK_STREAM 1 ].

(** The stream pair of [table] with the buffer of slot 2 full. *)
Definition full_table : list uds_fd :=
  [ zero_fd; sock SOCK_STREAM 2; set_size PIPE_BUF (sock SOCK_STREAM 1) ].

(** The stream pair of [table], and slot 3 free. *)
Definition free_table : list uds_fd :=
  [ zero_fd; sock SOCK_STREAM 2; sock SOCK_STREAM 1; zero_fd ].

(** Slot 1 with a connect() in flight to the listening slot 2, which holds
    it in its backlog beside the pending connection of a slot 3. *)
Definition connect_table : list uds_fd :=
  [ zero_fd;
    set_syscall_done 0
      (set_ioctl NWIOSUDSCONN
         (set_call_nr DEV_IOCTL_S
            (set_addr (path 65) (sock SOCK_STREAM (-1)))));
    set_backlog [3; 1; -1; -1]
      (set_listening 1 (set_addr (path 65) (sock SOCK_STREAM (-1)))) ].

End Sample.

(** ** Notions used in the statements *)

Section Notions.

Context `{C : Consts} `{B : Backend}.

(** A socket of a connection-oriented type. *)
Definition connection_oriented (d : uds_fd) : Prop :=
  type d = SOCK_STREAM ∨ type d = SOCK_SEQPACKET.

(** The world after the error latch of [minor] has been consumed. *)
Definition clear_err (minor : Z) (d : uds_fd) (w : world) : world :=
  mk_world (store_fd minor (set_err 0 d) (tbl w)) (fs w) (sent w).

(** The two transfers, and what lets one of them reach the test of the
    connection: a nonzero size, the direction not shut down, and for a
    read an empty buffer, for a write a size within the pipe. *)
Inductive transfer : Type := Read | Write.

Definition perform (op : transfer) (fuel : nat) : Z → Z → Z → Z → M Z :=
  match op with
  | Read => uds_perform_read fuel
  | Write => uds_perform_write fuel
  end.

Definition reaches_connection_test (op : transfer) (sz : Z) (d : uds_fd)
  : Prop :=
  match op with
  | Read => 0 < sz ∧ has_bit (mode d) S_IRUSR = true ∧ size d = 0
  | Write => 0 < sz ≤ PIPE_BUF ∧ has_bit (mode d) S_IWUSR = true
  end.

(** [p] is the lowest index of the table whose descriptor passes [test]. *)
Definition first_hit (test : uds_fd → bool) (t : list uds_fd) (p : Z) : Prop :=
  (∃ dp, lookup_fd p t = Some dp ∧ test dp = true) ∧
  ∀ j dj, j < p → lookup_fd j t = Some dj → test dj = false.

(** No descriptor of the table passes [test]. *)
Definition no_hit (test : uds_fd → bool) (t : list uds_fd) : Prop :=
  ∀ j dj, lookup_fd j t = Some dj → test dj = false.

(** Slots are freed by memset only. *)
Definition free_slots_zeroed (t : list uds_fd) : Prop :=
  ∀ i d, lookup_fd i t = Some d → state d = UDS_FREE → d = zero_fd.

(** The peer a write addresses: the connected one for a stream or
    seqpacket socket, the result of the scan otherwise. *)
Definition resolved_peer (d : uds_fd) (t : list uds_fd) : Z :=
  if (type d =? SOCK_STREAM) || (type d =? SOCK_SEQPACKET) then peer d
  else scan_from (dgram_bound_to (target d)) 0 t.

(** Every slot of [t] is a slot of [t'] with the same buffer window and the
    same suspension. *)
Definition window_unchanged (t t' : list uds_fd) : Prop :=
  ∀ i d, lookup_fd i t = Some d →
    ∃ d', lookup_fd i t' = Some d' ∧
          pos d' = pos d ∧ size d' = size d ∧ suspended d' = suspended d.

(** The peer recorded in [d] is no peer or a slot of the table. *)
Definition peer_in_table (d : uds_fd) (t : list uds_fd) : Prop :=
  peer d = -1 ∨ is_Some (lookup_fd (peer d) t).

(** The backend never reports [SUSPEND] as the count of a transfer that
    succeeded. *)
Definition counts_are_not_SUSPEND : Prop :=
  ∀ b req b' rc n,
    fs_readwrite b req = (b', (rc, n)) → rc = OK → n ≠ SUSPEND.

(** The peer a transfer of [d] looks at. *)
Definition addressed_peer (op : transfer) (d : uds_fd) (t : list uds_fd) : Z :=
  match op with
  | Read => peer d
  | Write => resolved_peer d t
  end.

(** The suspension a blocked transfer leaves behind. *)
Definition suspension_of (op : transfer) : UDS_SUSPENDED :=
  match op with
  | Read => UDS_SUSPENDED_READ
  | Write => UDS_SUSPENDED_WRITE
  end.

(** The backlog of every slot in use lies within its array. *)
Definition backlogs_in_bounds (t : list uds_fd) : Prop :=
  ∀ i d, lookup_fd i t = Some d → state d = UDS_INUSE →
         (Z.to_nat (backlog_size d) ≤ length (backlog d))%nat.

(** [minor] is among the first backlog_size entries of the backlog. *)
Definition in_backlog (minor : Z) (d : uds_fd) : Prop :=
  ∃ j, (j < Z.to_nat (backlog_size d))%nat ∧ backlog d !! j = Some minor.

(** What the rollback of a connect() does to one slot: a slot in use
    loses [minor] from its backlog, any other slot stays as it is. *)
Definition unlisted (minor : Z) (d d' : uds_fd) : Prop :=
  (state d ≠ UDS_INUSE ∧ d' = d) ∨
  (state d = UDS_INUSE ∧
   ∃ bl, backlog_remove minor (Z.to_nat (backlog_size d)) (backlog d)
         = Some bl ∧ d' = set_backlog bl d).

(** The buffer window of a descriptor lies within the pipe. *)
Definition fd_ok (d : uds_fd) : Prop := pos d + size d ≤ PIPE_BUF.

(** Every slot of [t] is a slot of [t'], related to it by [R]. *)
Definition slots_rel (R : uds_fd → uds_fd → Prop) (t t' : list uds_fd) : Prop :=
  ∀ i d, lookup_fd i t = Some d → ∃ d', lookup_fd i t' = Some d' ∧ R d d'.

(** The position and the length of the window are byte counts: neither is
    negative. *)
Definition window_in_range (d : uds_fd) : Prop := 0 ≤ pos d ∧ 0 ≤ size d.

(** Every slot of [t] is a slot of [t']; if its window was within the pipe
    in [t] it is within the pipe in [t'], and if its position and length
    were byte counts in [t] they are byte counts in [t']. *)
Definition fd_ok_kept (t t' : list uds_fd) : Prop :=
  slots_rel (fun d d' => (fd_ok d → fd_ok d') ∧
                         (window_in_range d → window_in_range d')) t t'.

(** The position and the length of a read that took [n] bytes: the three
    assignments of uds_perform_read after the transfer. *)
Definition read_shift (n : Z) (d : uds_fd) : uds_fd :=
  let d1 := set_pos (pos d + n) d in
  let d2 := set_size (size d1 - n) d1 in
  if size d2 =? 0 then set_pos 0 d2 else d2.

(** What one assignment of the transfer engine (uds_perform_read,
    uds_perform_write, uds_unsuspend) does to a slot.  [count_ok n r] is
    what is known of the count [n] the backend reports for a request of
    [r] bytes. *)
Inductive transfer_update (count_ok : Z → Z → Prop) : uds_fd → uds_fd → Prop :=
  | upd_latch d : transfer_update count_ok d (set_err 0 d)
  | upd_suspended d v : transfer_update count_ok d (set_suspended v d)
  | upd_ready d v : transfer_update count_ok d (set_ready_to_revive v d)
  | upd_sel_ops_out d v : transfer_update count_ok d (set_sel_ops_out v d)
  | upd_status d v : transfer_update count_ok d (set_status_updated v d)
  | upd_selecting d v : transfer_update count_ok d (set_selecting v d)
  | upd_source d a : transfer_update count_ok d (set_source a d)
  | upd_read d n sz :
      0 < sz → size d ≠ 0 →
      count_ok n (if sz >? size d then size d else sz) →
      transfer_update count_ok d (read_shift n d)
  | upd_write d n sz :
      0 < sz → pos d + size d + sz ≤ PIPE_BUF →
      count_ok n sz →
      transfer_update count_ok d (set_size (size d + n) d).

(** What one assignment of an entry point does to a slot. *)
Inductive handler_update (count_ok : Z → Z → Prop) : uds_fd → uds_fd → Prop :=
  | upd_transfer d x :
      transfer_update count_ok d x → handler_update count_ok d x
  | upd_zero d : handler_update count_ok d zero_fd
  | upd_open m d : handler_update count_ok d (open_init m d)
  | upd_track m d : handler_update count_ok d (track_io m d)
  | upd_inode_nr d v : handler_update count_ok d (set_inode_nr v d)
  | upd_syscall_done d v : handler_update count_ok d (set_syscall_done v d)
  | upd_call_nr d v : handler_update count_ok d (set_call_nr v d)
  | upd_ioctl d v : handler_update count_ok d (set_ioctl v d)
  | upd_select_proc d v : handler_update count_ok d (set_select_proc v d)
  | upd_sel_ops_in d v : handler_update count_ok d (set_sel_ops_in v d)
  | upd_endpoint d v : handler_update count_ok d (set_endpoint v d)
  | upd_peer d v : handler_update count_ok d (set_peer v d)
  | upd_err d v : handler_update count_ok d (set_err v d)
  | upd_child d v : handler_update count_ok d (set_child v d)
  | upd_backlog d v : handler_update count_ok d (set_backlog v d)
  | upd_addr d v : handler_update count_ok d (set_addr v d).

(** The counts the backend reports satisfy [count_ok]. *)
Definition backend_counts (count_ok : Z → Z → Prop) : Prop :=
  ∀ b req b' rc n,
    fs_readwrite b req = (b', (rc, n)) → rc = OK →
    count_ok n (REQ_NBYTES req).

(** Whenever [m] returns, every slot has gone through updates in [U]. *)
Definition steps_by {A} (U : uds_fd → uds_fd → Prop) (m : M A) : Prop :=
  ∀ w a w', m w = Ret a w' → slots_rel (rtc U) (tbl w) (tbl w').

(** The answer of the backend to the release of the container of [d2], in
    the backend state [b]. *)
Definition release (minor : Z) (d2 : uds_fd) (b : fs_state) : fs_state * Z :=
  fs_putnode
    (if nfiledes (ancillary_data d2) >? 0
     then clear_fds b minor (ancillary_data d2) else b)
    (inode_nr d2).

(** The fields of a descriptor that a transfer or a revival leaves alone:
    all but the buffer window, the suspension, the revival and select flags,
    the error latch and the source address. *)
Definition same_socket (d d' : uds_fd) : Prop :=
  state d' = state d ∧ type d' = type d ∧ mode d' = mode d ∧
  peer d' = peer d ∧ child d' = child d ∧
  addr d' = addr d ∧ target d' = target d ∧
  backlog d' = backlog d ∧ backlog_size d' = backlog_size d ∧
  listening d' = listening d ∧
  owner d' = owner d ∧ endpoint d' = endpoint d ∧
  inode_nr d' = inode_nr d ∧ io_gr d' = io_gr d ∧
  io_gr_size d' = io_gr_size d ∧
  call_nr d' = call_nr d ∧ ioctl d' = ioctl d ∧
  syscall_done d' = syscall_done d ∧
  ancillary_data d' = ancillary_data d ∧
  select_proc d' = select_proc d ∧ sel_ops_in d' = sel_ops_in d.

(** A well-formed buffer window: it starts and ends within the pipe, and
    an empty buffer starts at 0. *)
Definition window_wf (d : uds_fd) : Prop :=
  0 ≤ pos d ∧ 0 ≤ size d ∧ pos d + size d ≤ PIPE_BUF ∧
  (size d = 0 → pos d = 0).

(** The backend reports a count between 0 and the number of bytes asked
    for. *)
Definition transfers_within_request : Prop :=
  backend_counts (fun n r => 0 ≤ n ≤ r).

(** The descriptor of the peer after a write of [n] bytes by [fd]. *)
Definition written (fd dp : uds_fd) (n : Z) : uds_fd :=
  let dp1 := set_size (size dp + n) dp in
  if type fd =? SOCK_DGRAM then set_source (addr fd) dp1 else dp1.

(** A descriptor whose buffer has been drained. *)
Definition drained (d : uds_fd) : uds_fd := set_pos 0 (set_size 0 d).

(** What uds_select leaves of the descriptor [d] it was asked about: the
    socket and its buffer are as they were, the select() bookkeeping is
    that of the request [m], and the error latch is as it was or consumed. *)
Definition select_marked (m : message) (d x : uds_fd) : Prop :=
  state x = state d ∧ peer x = peer d ∧
  pos x = pos d ∧ size x = size d ∧ suspended x = suspended d ∧
  listening x = listening d ∧
  backlog x = backlog d ∧ backlog_size x = backlog_size d ∧
  selecting x = 1 ∧ select_proc x = m_source m ∧
  sel_ops_in x = USER_ENDPT m ∧
  (err x = err d ∨ err x = 0).

(** The readiness mask of a select(). *)
Definition select_mask (rd wr : bool) : Z :=
  Z.lor (if rd then SEL_RD else 0) (if wr then SEL_WR else 0).

(** A descriptor that uds_unsuspend has something to do for. *)
Definition flagged (p : Z) (t : list uds_fd) : Prop :=
  ∃ d, lookup_fd p t = Some d ∧
       (status_updated d = 1 ∨ ready_to_revive d = 1).

(** The replies sent since [old] all carry a message that was filled in. *)
Definition filled_since (old new : list (Z * option reply_msg)) : Prop :=
  ∃ l, new = l ++ old ∧ Forall (fun x => is_Some (snd x)) l.

(** In a table of [n] slots, a descriptor whose peer link is -1 or a
    slot of the table, and whose backlog lies within its array. *)
Definition desc_ok (n : nat) (d : uds_fd) : Prop :=
  (peer d = -1 ∨ 0 ≤ peer d < Z.of_nat n) ∧
  (Z.to_nat (backlog_size d) ≤ length (backlog d))%nat.

(** A table of [n] slots, each of them such a descriptor. *)
Definition table_ok (n : nat) (t : list uds_fd) : Prop :=
  length t = n ∧ ∀ i d, lookup_fd i t = Some d → desc_ok n d.

(** Started in a table of [n] well-linked slots, [m] never indexes an
    array outside its bounds, and when it returns, it returns a result
    that satisfies [Q] in a table of [n] well-linked slots. *)
Definition in_bounds {A} (n : nat) (m : M A) (Q : A → Prop) : Prop :=
  ∀ w, table_ok n (tbl w) →
    m w ≠ Undef ∧
    ∀ a w', m w = Ret a w' → table_ok n (tbl w') ∧ Q a.

(** Every peer link of the table is -1 or a slot of the table, and every
    backlog lies within its array. *)
Definition well_linked (t : list uds_fd) : Prop := table_ok (length t) t.

(** Run in [w], [m] never indexes an array outside its bounds, and it
    returns in a well-linked table of as many slots. *)
Definition stays_in_bounds {A} (m : M A) (w : world) : Prop :=
  m w ≠ Undef ∧
  ∀ r w', m w = Ret r w' →
    well_linked (tbl w') ∧ length (tbl w') = length (tbl w).


(** What the revival of a descriptor whose peer has gone leaves of it: the
    peer link as it was, and the error latch as it was or consumed. *)
Definition revived_alone (d x : uds_fd) : Prop :=
  peer x = peer d ∧ (err x = err d ∨ err x = 0).

End Notions.
(** * Properties *)

Section Facts.

Context `{C : Consts} `{B : Backend}.

(** ** The table *)

Lemma lookup_fd_Some i (t : list uds_fd) d :
  lookup_fd i t = Some d → 0 ≤ i ∧ t !! Z.to_nat i = Some d.
Proof.
  unfold lookup_fd. destruct (0 <=? i) eqn:E; [|discriminate].
  intros H. split; [lia | exact H].
Qed.

Lemma lookup_store_eq i (t : list uds_fd) d d' :
  lookup_fd i t = Some d → lookup_fd i (store_fd i d' t) = Some d'.
Proof.
  intros H. destruct (lookup_fd_Some _ _ _ H) as [Hi Hl].
  unfold lookup_fd, store_fd.
  replace (0 <=? i) with true by lia.
  apply list_lookup_insert_eq. eapply lookup_lt_Some; eauto.
Qed.

Lemma lookup_store_ne i j (t : list uds_fd) d :
  0 ≤ i → i ≠ j → lookup_fd j (store_fd i d t) = lookup_fd j t.
Proof.
  intros Hi Hne. unfold lookup_fd, store_fd.
  destruct (0 <=? j) eqn:E; [|reflexivity].
  apply list_lookup_insert_ne. lia.
Qed.

Lemma lookup_store i j (t : list uds_fd) d d' :
  lookup_fd i t = Some d →
  lookup_fd j (store_fd i d' t) = if Z.eq_dec i j then Some d' else lookup_fd j t.
Proof.
  intros H. destruct (Z.eq_dec i j) as [->|Hne].
  - eapply lookup_store_eq; eauto.
  - apply lookup_store_ne; [|exact Hne]. apply (lookup_fd_Some _ _ _ H).
Qed.

Lemma lookup_store_same i (t : list uds_fd) x d :
  lookup_fd i (store_fd i x t) = Some d → d = x.
Proof.
  unfold lookup_fd, store_fd. destruct (0 <=? i); [|discriminate].
  intros H. apply list_lookup_insert_Some in H as [(_ & -> & _)|[Hne _]].
  - reflexivity.
  - contradiction.
Qed.

Lemma lookup_store_eq_is_Some i (t : list uds_fd) x :
  is_Some (lookup_fd i t) → lookup_fd i (store_fd i x t) = Some x.
Proof. intros [d Hd]. eapply lookup_store_eq; eauto. Qed.

Lemma store_same i (t : list uds_fd) d :
  lookup_fd i t = Some d → store_fd i d t = t.
Proof.
  intros H. destruct (lookup_fd_Some _ _ _ H) as [_ Hl].
  unfold store_fd. apply list_insert_id. exact Hl.
Qed.

Lemma length_store i d (t : list uds_fd) : length (store_fd i d t) = length t.
Proof. unfold store_fd. apply length_insert. Qed.

Lemma lookup_fd_lt i (t : list uds_fd) d :
  lookup_fd i t = Some d → 0 ≤ i < Z.of_nat (length t).
Proof.
  intros H. destruct (lookup_fd_Some _ _ _ H) as [Hi Hl].
  apply lookup_lt_Some in Hl. lia.
Qed.

Lemma lookup_fd_is_Some i (t : list uds_fd) :
  0 ≤ i < Z.of_nat (length t) → is_Some (lookup_fd i t).
Proof.
  intros Hi. unfold lookup_fd. replace (0 <=? i) with true by lia.
  apply lookup_lt_is_Some. lia.
Qed.

(** ** Running the monad forwards *)

Lemma bind_get_fd {A} i d (k : uds_fd → M A) w :
  lookup_fd i (tbl w) = Some d → bind (get_fd i) k w = k d w.
Proof. intros H. unfold bind, get_fd. rewrite H. reflexivity. Qed.

Lemma bind_upd_fd {A} i d f (k : unit → M A) w :
  lookup_fd i (tbl w) = Some d →
  bind (upd_fd i f) k w =
  k tt (mk_world (store_fd i (f d) (tbl w)) (fs w) (sent w)).
Proof. intros H. unfold bind, upd_fd. rewrite H. reflexivity. Qed.

Lemma bind_bind {A B' D} (m : M A) (k : A → M B') (h : B' → M D) w :
  bind (bind m k) h w = bind m (fun a => bind (k a) h) w.
Proof. unfold bind. destruct (m w); reflexivity. Qed.

Lemma bind_ret {A B'} (a : A) (k : A → M B') w : bind (ret a) k w = k a w.
Proof. reflexivity. Qed.

Lemma bind_get_tbl {A} (k : list uds_fd → M A) w :
  bind get_tbl k w = k (tbl w) w.
Proof. reflexivity. Qed.

Lemma bind_put_tbl {A} t (k : unit → M A) w :
  bind (put_tbl t) k w = k tt (mk_world t (fs w) (sent w)).
Proof. reflexivity. Qed.

Lemma bind_reply {A} dst m (k : unit → M A) w :
  bind (reply dst m) k w =
  k tt (mk_world (tbl w) (fs w) ((dst, m) :: sent w)).
Proof. reflexivity. Qed.

Lemma world_eta (w : world) : mk_world (tbl w) (fs w) (sent w) = w.
Proof. destruct w; reflexivity. Qed.

(** ** Running the monad backwards *)

Lemma bind_inv {A B'} (m : M A) (k : A → M B') w b w2 :
  bind m k w = Ret b w2 → ∃ a w1, m w = Ret a w1 ∧ k a w1 = Ret b w2.
Proof.
  unfold bind. destruct (m w) as [a w1| |]; try discriminate. eauto.
Qed.

Lemma ret_inv {A} (a b : A) w w' : ret a w = Ret b w' → b = a ∧ w' = w.
Proof. unfold ret. intros H; injection H; auto. Qed.

Lemma get_fd_inv i w d w' :
  get_fd i w = Ret d w' → w' = w ∧ lookup_fd i (tbl w) = Some d.
Proof.
  unfold get_fd. destruct (lookup_fd i (tbl w)); [|discriminate].
  intros H; injection H; intros; subst; auto.
Qed.

Lemma upd_fd_inv i f w u w' :
  upd_fd i f w = Ret u w' →
  ∃ d, lookup_fd i (tbl w) = Some d ∧
       w' = mk_world (store_fd i (f d) (tbl w)) (fs w) (sent w).
Proof.
  unfold upd_fd. destruct (lookup_fd i (tbl w)) as [d|]; [|discriminate].
  intros H; injection H; intros; subst; eauto.
Qed.

Lemma get_tbl_inv w t w' : get_tbl w = Ret t w' → w' = w ∧ t = tbl w.
Proof. unfold get_tbl. intros H; injection H; auto. Qed.

Lemma put_tbl_inv t w u w' :
  put_tbl t w = Ret u w' → w' = mk_world t (fs w) (sent w).
Proof. unfold put_tbl. intros H; injection H; auto. Qed.

Lemma reply_inv dst m w u w' :
  reply dst m w = Ret u w' → w' = mk_world (tbl w) (fs w) ((dst, m) :: sent w).
Proof. unfold reply. intros H; injection H; auto. Qed.

Lemma call_inv {A} (f : fs_state → fs_state * A) w a w' :
  call f w = Ret a w' →
  ∃ b, f (fs w) = (b, a) ∧ w' = mk_world (tbl w) b (sent w).
Proof.
  unfold call. destruct (f (fs w)) as [b x]. intros H; injection H.
  intros; subst; eauto.
Qed.

Lemma lift_opt_inv {A} (o : option A) w a w' :
  lift_opt o w = Ret a w' → o = Some a ∧ w' = w.
Proof.
  unfold lift_opt. destruct o; [|discriminate].
  intros H; injection H; intros; subst; auto.
Qed.

End Facts.

(** Symbolic execution of the runs that are known to have returned: every
    hypothesis [m w = Ret a w'] is taken apart along the structure of [m],
    down to the calls that are not part of the monad. *)
Ltac run_all :=
  repeat match goal with
  | H : bind _ _ _ = Ret _ _ |- _ =>
      let a := fresh "a" in let w := fresh "w" in
      let H1 := fresh "Hrun" in
      apply bind_inv in H; destruct H as (a & w & H1 & H); cbv beta in H
  | H : ret _ _ = Ret _ _ |- _ =>
      apply ret_inv in H; destruct H as [? ?]; subst
  | H : get_fd _ _ = Ret _ _ |- _ =>
      apply get_fd_inv in H; destruct H as [? H]; subst
  | H : upd_fd _ _ _ = Ret _ _ |- _ =>
      let d := fresh "d" in
      apply upd_fd_inv in H; destruct H as (d & H & ?); subst;
      cbn [tbl fs sent] in *
  | H : get_tbl _ = Ret _ _ |- _ =>
      apply get_tbl_inv in H; destruct H as [? ?]; subst
  | H : put_tbl _ _ = Ret _ _ |- _ =>
      apply put_tbl_inv in H; subst; cbn [tbl fs sent] in *
  | H : reply _ _ _ = Ret _ _ |- _ =>
      apply reply_inv in H; subst; cbn [tbl fs sent] in *
  | H : call _ _ = Ret ?a _ |- _ =>
      let b := fresh "b" in
      apply call_inv in H; destruct H as (b & H & ?); subst;
      cbn [tbl fs sent] in *
  | H : lift_opt _ _ = Ret _ _ |- _ =>
      apply lift_opt_inv in H; destruct H as [H ?]; subst
  | H : when ?c _ _ = Ret _ _ |- _ => unfold when in H
  | H : (if ?c then _ else _) _ = Ret _ _ |- _ => destruct c eqn:?
  | H : (match ?s with UDS_NOT_SUSPENDED => _ | _ => _ end) _ = Ret _ _ |- _ =>
      destruct s eqn:?
  end.

(** Running the steps that need no hypothesis. *)
Ltac fwd :=
  repeat (first [ rewrite bind_bind | rewrite bind_get_tbl
                | rewrite bind_put_tbl | rewrite bind_ret
                | rewrite bind_reply ];
          cbv beta; cbn [tbl fs sent]).

(** Two reads of one slot give one value. *)
Ltac same_lookup :=
  cbn [tbl fs sent] in *;
  repeat match goal with
  | H : lookup_fd ?i (store_fd ?i ?x ?t) = Some ?d |- _ =>
      is_var d; pose proof (lookup_store_same _ _ _ _ H); subst d
  | H1 : lookup_fd ?i ?t = Some ?a, H2 : lookup_fd ?i ?t = Some ?b |- _ =>
      rewrite H1 in H2; injection H2 as H2;
      first [subst b | subst a | rewrite <- ?H2 in *; clear H2]
  end.

(** ** The checks at the head of a transfer *)

Section Checks.

Context `{C : Consts} `{B : Backend}.

Variable unsuspend : Z → Z → M Z.

Lemma connection_oriented_true d :
  connection_oriented d →
  (type d =? SOCK_STREAM) || (type d =? SOCK_SEQPACKET) = true.
Proof.
  intros [H|H]; rewrite H, Z.eqb_refl; [reflexivity | apply orb_true_r].
Qed.

Lemma read_zero minor src sz pretend w d :
  lookup_fd minor (tbl w) = Some d → sz ≤ 0 →
  uds_perform_read_with unsuspend minor src sz pretend w = Ret 0 w.
Proof.
  intros Hd Hsz. unfold uds_perform_read_with.
  rewrite (bind_get_fd _ _ _ _ Hd).
  replace (sz <=? 0) with true by lia. reflexivity.
Qed.

Lemma write_zero minor src sz pretend w :
  sz ≤ 0 →
  uds_perform_write_with unsuspend minor src sz pretend w = Ret 0 w.
Proof.
  intros Hsz. unfold uds_perform_write_with.
  replace (sz <=? 0) with true by lia. reflexivity.
Qed.

Lemma read_shut minor src sz pretend w d :
  lookup_fd minor (tbl w) = Some d → 0 < sz →
  has_bit (mode d) S_IRUSR = false →
  uds_perform_read_with unsuspend minor src sz pretend w = Ret EPIPE w.
Proof.
  intros Hd Hsz Hm. unfold uds_perform_read_with.
  rewrite (bind_get_fd _ _ _ _ Hd).
  replace (sz <=? 0) with false by lia. rewrite Hm. reflexivity.
Qed.

Lemma write_shut minor src sz pretend w d :
  lookup_fd minor (tbl w) = Some d → 0 < sz →
  has_bit (mode d) S_IWUSR = false →
  uds_perform_write_with unsuspend minor src sz pretend w = Ret EPIPE w.
Proof.
  intros Hd Hsz Hm. unfold uds_perform_write_with.
  replace (sz <=? 0) with false by lia.
  rewrite (bind_get_fd _ _ _ _ Hd). rewrite Hm. reflexivity.
Qed.

Lemma write_too_big minor src sz pretend w d :
  lookup_fd minor (tbl w) = Some d → PIPE_BUF < sz → 0 < sz →
  has_bit (mode d) S_IWUSR = true →
  uds_perform_write_with unsuspend minor src sz pretend w = Ret EMSGSIZE w.
Proof.
  intros Hd Hsz Hpos Hm. unfold uds_perform_write_with.
  replace (sz <=? 0) with false by lia.
  rewrite (bind_get_fd _ _ _ _ Hd). rewrite Hm.
  replace (sz >? PIPE_BUF) with true by lia. reflexivity.
Qed.

(** A read that reaches the test of the connection: nonzero size on a
    readable socket with an empty buffer and no peer. *)
Lemma read_unconnected minor src sz pretend w d :
  lookup_fd minor (tbl w) = Some d → 0 < sz →
  has_bit (mode d) S_IRUSR = true →
  size d = 0 → peer d = -1 → connection_oriented d →
  uds_perform_read_with unsuspend minor src sz pretend w =
  if err d =? ECONNRESET then Ret ECONNRESET (clear_err minor d w)
  else Ret ENOTCONN w.
Proof.
  intros Hd Hsz Hm Hs Hp Ht. unfold uds_perform_read_with.
  rewrite (bind_get_fd _ _ _ _ Hd).
  replace (sz <=? 0) with false by lia. rewrite Hm, Hs, Hp. simpl.
  rewrite (connection_oriented_true _ Ht).
  destruct (err d =? ECONNRESET); [|reflexivity].
  rewrite (bind_upd_fd _ _ _ _ _ Hd). reflexivity.
Qed.

(** A write that reaches the test of the connection. *)
Lemma write_unconnected minor src sz pretend w d :
  lookup_fd minor (tbl w) = Some d → 0 < sz ≤ PIPE_BUF →
  has_bit (mode d) S_IWUSR = true →
  peer d = -1 → connection_oriented d →
  uds_perform_write_with unsuspend minor src sz pretend w =
  if err d =? ECONNRESET then Ret ECONNRESET (clear_err minor d w)
  else Ret ENOTCONN w.
Proof.
  intros Hd Hsz Hm Hp Ht. unfold uds_perform_write_with.
  replace (sz <=? 0) with false by lia.
  rewrite (bind_get_fd _ _ _ _ Hd). rewrite Hm.
  replace (sz >? PIPE_BUF) with false by lia.
  rewrite (connection_oriented_true _ Ht), Hp. simpl.
  destruct (err d =? ECONNRESET); [|reflexivity].
  rewrite (bind_upd_fd _ _ _ _ _ Hd). reflexivity.
Qed.

Lemma lookup_clear_err minor d w :
  lookup_fd minor (tbl w) = Some d →
  lookup_fd minor (tbl (clear_err minor d w)) = Some (set_err 0 d).
Proof. intros Hd. simpl. eapply lookup_store_eq; eauto. Qed.

End Checks.

(** ** The scans *)

Section Scans.

Context `{C : Consts} `{B : Backend}.

Lemma scan_from_cases test (t : list uds_fd) : ∀ i0,
  (scan_from test i0 t = -1 ∧ ∀ n d, t !! n = Some d → test d = false) ∨
  (∃ n d, scan_from test i0 t = i0 + Z.of_nat n ∧ t !! n = Some d ∧
          test d = true ∧
          ∀ m d', (m < n)%nat → t !! m = Some d' → test d' = false).
Proof.
  induction t as [|x t IH]; intros i0; simpl.
  - left. split; [reflexivity|]. intros n d Hn. discriminate.
  - destruct (test x) eqn:Hx.
    + right. exists 0%nat, x.
      refine (conj _ (conj eq_refl (conj Hx _))); [lia|].
      intros m d' Hm. lia.
    + destruct (IH (i0 + 1)) as [[Hr Hall]|(n & d & Hr & Hn & Hd & Hlow)].
      * left. split; [exact Hr|]. intros [|n] d Hn; simpl in Hn.
        -- injection Hn as <-. exact Hx.
        -- eapply Hall; eauto.
      * right. exists (S n), d.
        refine (conj _ (conj Hn (conj Hd _))).
        -- rewrite Hr. lia.
        -- intros [|m] d' Hm Hl; simpl in Hl.
           ++ injection Hl as <-. exact Hx.
           ++ eapply Hlow; [|exact Hl]. lia.
Qed.

(** The scan from index 0 finds the lowest hit, or answers -1 when there is
    none. *)
Lemma scan_from_0 test (t : list uds_fd) :
  (scan_from test 0 t = -1 ∧ no_hit test t) ∨
  first_hit test t (scan_from test 0 t).
Proof.
  destruct (scan_from_cases test t 0)
    as [[Hr Hall]|(n & d & Hr & Hn & Hd & Hlow)].
  - left. split; [exact Hr|]. intros j dj Hj.
    destruct (lookup_fd_Some _ _ _ Hj) as [_ Hl]. eapply Hall; eauto.
  - right. rewrite Hr. split.
    + exists d. split; [|exact Hd]. unfold lookup_fd.
      replace (0 <=? 0 + Z.of_nat n) with true by lia.
      replace (Z.to_nat (0 + Z.of_nat n)) with n by lia. exact Hn.
    + intros j dj Hj Hl. destruct (lookup_fd_Some _ _ _ Hl) as [Hj0 Hl'].
      eapply Hlow; [|exact Hl']. lia.
Qed.

Lemma first_hit_unique test (t : list uds_fd) p q :
  first_hit test t p → first_hit test t q → p = q.
Proof.
  intros [(dp & Hp & Tp) Lp] [(dq & Hq & Tq) Lq].
  destruct (Z.lt_trichotomy p q) as [H|[H|H]]; [|exact H|].
  - rewrite (Lq _ _ H Hp) in Tp. discriminate.
  - rewrite (Lp _ _ H Hq) in Tq. discriminate.
Qed.

Lemma scan_from_first_hit test (t : list uds_fd) p :
  first_hit test t p → scan_from test 0 t = p.
Proof.
  intros Hp. destruct (scan_from_0 test t) as [[_ Hno]|Hq].
  - destruct Hp as [(dp & Hl & Ht) _]. rewrite (Hno _ _ Hl) in Ht.
    discriminate.
  - eapply first_hit_unique; eauto.
Qed.

Lemma scan_from_no_hit test (t : list uds_fd) :
  no_hit test t → scan_from test 0 t = -1.
Proof.
  intros Hno. destruct (scan_from_0 test t) as [[Hr _]|Hq]; [exact Hr|].
  destruct Hq as [(dp & Hl & Ht) _]. rewrite (Hno _ _ Hl) in Ht.
  discriminate.
Qed.

Lemma first_hit_not_minus_one test (t : list uds_fd) p :
  first_hit test t p → (p =? -1) = false.
Proof.
  intros [(dp & Hl & _) _]. apply lookup_fd_Some in Hl. lia.
Qed.

End Scans.

(** ** A write once the peer is known *)

Section Write.

Context `{C : Consts} `{B : Backend}.

Variable unsuspend : Z → Z → M Z.

(** A datagram writer passes the head of uds_perform_write and scans. *)
Lemma write_dgram minor src sz pretend w d :
  lookup_fd minor (tbl w) = Some d → 0 < sz ≤ PIPE_BUF →
  has_bit (mode d) S_IWUSR = true →
  type d = SOCK_DGRAM →
  SOCK_DGRAM ≠ SOCK_STREAM → SOCK_DGRAM ≠ SOCK_SEQPACKET →
  uds_perform_write_with unsuspend minor src sz pretend w =
  write_to_peer unsuspend minor src sz pretend d
    (scan_from (dgram_bound_to (target d)) 0 (tbl w)) w.
Proof.
  intros Hd Hsz Hm Ht Hs Hq. unfold uds_perform_write_with.
  replace (sz <=? 0) with false by lia.
  rewrite (bind_get_fd _ _ _ _ Hd). rewrite Hm.
  replace (sz >? PIPE_BUF) with false by lia.
  rewrite Ht.
  replace (SOCK_DGRAM =? SOCK_STREAM) with false by lia.
  replace (SOCK_DGRAM =? SOCK_SEQPACKET) with false by lia.
  reflexivity.
Qed.

Lemma write_to_nobody minor src sz pretend d w :
  write_to_peer unsuspend minor src sz pretend d (-1) w =
  Ret (if truthy pretend then SUSPEND else ENOENT) w.
Proof.
  unfold write_to_peer. simpl. destruct (truthy pretend); reflexivity.
Qed.

(** The datagram boundary: a packet is already waiting at the peer. *)
Lemma write_to_busy_dgram minor src sz pretend d p dp w :
  lookup_fd p (tbl w) = Some dp →
  type d = SOCK_DGRAM →
  has_bit (mode dp) S_IRUSR = true → 0 < size dp →
  write_to_peer unsuspend minor src sz pretend d p w = Ret sz w.
Proof.
  intros Hp Ht Hm Hs. unfold write_to_peer.
  replace (p =? -1) with false by (apply lookup_fd_Some in Hp; lia).
  rewrite (bind_get_fd _ _ _ _ Hp). rewrite Hm, Ht, Z.eqb_refl.
  replace (size dp >? 0) with true by lia. reflexivity.
Qed.

End Write.

(** ** Probing *)

Section Probe.

Context `{C : Consts} `{B : Backend}.

Variable unsuspend : Z → Z → M Z.

Lemma window_unchanged_refl t : window_unchanged t t.
Proof. intros i d Hd. exists d. auto. Qed.

Lemma window_unchanged_clear_err minor d w :
  lookup_fd minor (tbl w) = Some d →
  window_unchanged (tbl w) (tbl (clear_err minor d w)).
Proof.
  intros Hd i di Hi. simpl. rewrite (lookup_store _ _ _ _ _ Hd).
  destruct (Z.eq_dec minor i) as [->|Hne].
  - rewrite Hd in Hi. injection Hi as <-. exists (set_err 0 d). auto.
  - exists di. auto.
Qed.

(** A probing read returns in the state it found, or in that state with the
    error latch of an unconnected reader consumed. *)
Lemma read_probe minor src sz pretend w d :
  lookup_fd minor (tbl w) = Some d →
  truthy pretend = true →
  peer_in_table d (tbl w) →
  ∃ r, uds_perform_read_with unsuspend minor src sz pretend w = Ret r w ∨
       (peer d = -1 ∧
        uds_perform_read_with unsuspend minor src sz pretend w =
        Ret r (clear_err minor d w)).
Proof.
  intros Hd Hpr Hp. unfold uds_perform_read_with.
  rewrite (bind_get_fd _ _ _ _ Hd).
  destruct (sz <=? 0); [eexists; left; reflexivity|].
  destruct (negb (has_bit (mode d) S_IRUSR)); [eexists; left; reflexivity|].
  rewrite Hpr.
  destruct (size d =? 0); [|eexists; left; reflexivity].
  destruct (peer d =? -1) eqn:Ep.
  - destruct ((type d =? SOCK_STREAM) || (type d =? SOCK_SEQPACKET)); simpl.
    + destruct (err d =? ECONNRESET).
      * rewrite (bind_upd_fd _ _ _ _ _ Hd). eexists. right.
        split; [lia | reflexivity].
      * eexists; left; reflexivity.
    + eexists; left; reflexivity.
  - simpl. destruct Hp as [Hp|[dp Hp]]; [lia|].
    unfold bind at 1. rewrite (bind_get_fd _ _ _ _ Hp). unfold ret at 1.
    destruct (negb (has_bit (mode dp) S_IWUSR)); eexists; left; reflexivity.
Qed.

(** The same for a probing write that was given its peer. *)
Lemma write_to_peer_probe minor src sz pretend d p w :
  truthy pretend = true →
  p = -1 ∨ is_Some (lookup_fd p (tbl w)) →
  ∃ r, write_to_peer unsuspend minor src sz pretend d p w = Ret r w.
Proof.
  intros Hpr Hp. unfold write_to_peer. rewrite Hpr.
  destruct (p =? -1) eqn:Ep; [eexists; reflexivity|].
  destruct Hp as [Hp|[dp Hp]]; [lia|].
  rewrite (bind_get_fd _ _ _ _ Hp).
  destruct (negb (has_bit (mode dp) S_IRUSR)); [eexists; reflexivity|].
  destruct ((type d =? SOCK_DGRAM) && (size dp >? 0)); [eexists; reflexivity|].
  destruct ((pos dp + size dp + sz >? PIPE_BUF) ||
            (type d =? SOCK_SEQPACKET) && (size dp >? 0));
    eexists; reflexivity.
Qed.

Lemma write_probe minor src sz pretend w d :
  lookup_fd minor (tbl w) = Some d →
  truthy pretend = true →
  peer_in_table d (tbl w) →
  ∃ r, uds_perform_write_with unsuspend minor src sz pretend w = Ret r w ∨
       (resolved_peer d (tbl w) = -1 ∧
        uds_perform_write_with unsuspend minor src sz pretend w =
        Ret r (clear_err minor d w)).
Proof.
  intros Hd Hpr Hp. unfold uds_perform_write_with, resolved_peer.
  destruct (sz <=? 0); [eexists; left; reflexivity|].
  rewrite (bind_get_fd _ _ _ _ Hd).
  destruct (negb (has_bit (mode d) S_IWUSR)); [eexists; left; reflexivity|].
  destruct (sz >? PIPE_BUF); [eexists; left; reflexivity|].
  destruct ((type d =? SOCK_STREAM) || (type d =? SOCK_SEQPACKET)).
  - destruct (peer d =? -1) eqn:Ep.
    + destruct (err d =? ECONNRESET).
      * rewrite (bind_upd_fd _ _ _ _ _ Hd). eexists. right.
        split; [lia | reflexivity].
      * eexists; left; reflexivity.
    + destruct (write_to_peer_probe minor src sz pretend d (peer d) w Hpr Hp)
        as [r Hr].
      exists r. left. exact Hr.
  - unfold bind, get_tbl.
    destruct (write_to_peer_probe minor src sz pretend d
                (scan_from (dgram_bound_to (target d)) 0 (tbl w)) w Hpr)
      as [r Hr].
    + destruct (scan_from_0 (dgram_bound_to (target d)) (tbl w))
        as [[Hn _]|[(dp & Hl & _) _]]; [left; exact Hn|].
      right. rewrite Hl. eauto.
    + exists r. left. exact Hr.
Qed.

End Probe.

(** ** A retried transfer that blocks again *)

Section Retry.

Context `{C : Consts} `{B : Backend}.

Variable unsuspend : Z → Z → M Z.

Lemma rc_OK (rc : Z) : negb (rc =? OK) = false → rc = OK.
Proof. intros H. apply negb_false_iff in H. lia. Qed.

Ltac bad_count Hbk :=
  match goal with
  | Hf : fs_readwrite _ _ = (_, ?r), Hrc : negb (fst ?r =? OK) = false,
    Hn : SUSPEND = snd ?r |- _ =>
      exfalso; destruct r as [rc n]; simpl in *;
      eapply Hbk; [exact Hf | apply rc_OK; exact Hrc | congruence]
  end.

Lemma read_suspend_keeps minor src sz pretend w w' d :
  uds_perform_read_with unsuspend minor src sz pretend w = Ret SUSPEND w' →
  lookup_fd minor (tbl w) = Some d →
  suspended d = UDS_SUSPENDED_READ →
  counts_are_not_SUSPEND →
  ∃ d', lookup_fd minor (tbl w') = Some d' ∧
        suspended d' = UDS_SUSPENDED_READ.
Proof.
  intros H Hd Hs Hbk. unfold uds_perform_read_with in H.
  run_all; same_lookup.
  all: try (eexists; split; [eassumption | assumption]).
  all: try (eexists; split;
            [eapply lookup_store_eq; eassumption | assumption || reflexivity]).
  all: bad_count Hbk.
Qed.

Lemma write_suspend_keeps minor src sz pretend w w' d :
  uds_perform_write_with unsuspend minor src sz pretend w = Ret SUSPEND w' →
  lookup_fd minor (tbl w) = Some d →
  suspended d = UDS_SUSPENDED_WRITE →
  counts_are_not_SUSPEND →
  ∃ d', lookup_fd minor (tbl w') = Some d' ∧
        suspended d' = UDS_SUSPENDED_WRITE.
Proof.
  intros H Hd Hs Hbk. unfold uds_perform_write_with, write_to_peer in H.
  run_all; same_lookup.
  all: try (eexists; split; [eassumption | assumption]).
  all: try (eexists; split;
            [eapply lookup_store_eq; eassumption | assumption || reflexivity]).
  all: bad_count Hbk.
Qed.

(** With nobody to revive, a transfer that blocks sends no reply. *)
Lemma read_suspend_silent minor src sz pretend w w' d :
  uds_perform_read_with unsuspend minor src sz pretend w = Ret SUSPEND w' →
  lookup_fd minor (tbl w) = Some d →
  counts_are_not_SUSPEND →
  (∀ dp, lookup_fd (peer d) (tbl w) = Some dp →
         suspended dp = UDS_NOT_SUSPENDED) →
  sent w' = sent w.
Proof.
  intros H Hd Hbk Hq.
  unfold uds_perform_read_with, revive_if_suspended in H.
  run_all; same_lookup; try reflexivity.
  all: try bad_count Hbk.
  all: match goal with
       | Hl : lookup_fd (peer _) _ = Some ?x,
         Hs : is_suspended (suspended ?x) = true |- _ =>
           rewrite (Hq _ Hl) in Hs; discriminate
       end.
Qed.

Lemma write_suspend_silent minor src sz pretend w w' d :
  uds_perform_write_with unsuspend minor src sz pretend w = Ret SUSPEND w' →
  lookup_fd minor (tbl w) = Some d →
  counts_are_not_SUSPEND →
  (∀ dp, lookup_fd (resolved_peer d (tbl w)) (tbl w) = Some dp →
         suspended dp = UDS_NOT_SUSPENDED) →
  sent w' = sent w.
Proof.
  intros H Hd Hbk Hq.
  unfold uds_perform_write_with, write_to_peer, revive_if_suspended in H.
  unfold resolved_peer in Hq.
  run_all; same_lookup; try reflexivity.
  all: try bad_count Hbk.
  all: match goal with
       | Hc : _ || _ = _ |- _ => rewrite Hc in Hq
       end.
  all: match goal with
       | Hl : lookup_fd _ _ = Some ?x,
         Hs : is_suspended (suspended ?x) = true |- _ =>
           rewrite (Hq _ Hl) in Hs; discriminate
       end.
Qed.

End Retry.

(** ** Revival *)

Section Revive.

Context `{C : Consts} `{B : Backend}.

Lemma store_store i x y (t : list uds_fd) :
  store_fd i x (store_fd i y t) = store_fd i x t.
Proof. unfold store_fd. apply list_insert_insert_eq. Qed.

Lemma finish_OK src m w :
  finish src OK m w = Ret OK (mk_world (tbl w) (fs w) ((src, m) :: sent w)).
Proof. unfold finish, when. rewrite Z.eqb_refl. reflexivity. Qed.

Lemma finish_SUSPEND src m w :
  SUSPEND ≠ OK → finish src SUSPEND m w = Ret SUSPEND w.
Proof.
  intros H. unfold finish, when.
  replace (SUSPEND =? OK) with false by lia. reflexivity.
Qed.

Variables perform_read perform_write : Z → Z → Z → Z → M Z.

(** A pending readiness notification goes out first. *)
Lemma unsuspend_status_updated src minor w d :
  lookup_fd minor (tbl w) = Some d →
  status_updated d = 1 →
  uds_unsuspend_with perform_read perform_write src minor w =
  Ret OK
    (mk_world
       (store_fd minor (set_selecting 0 (set_status_updated 0 d)) (tbl w))
       (fs w)
       ((src, Some (uds_sel_reply DEV_SEL_REPL2 minor (sel_ops_out d)))
          :: sent w)).
Proof.
  intros Hd Hs. unfold uds_unsuspend_with.
  rewrite (bind_get_fd _ _ _ _ Hd). rewrite Hs. simpl.
  rewrite (bind_upd_fd _ _ _ _ _ Hd).
  erewrite bind_upd_fd by (eapply lookup_store_eq; exact Hd).
  erewrite bind_get_fd by (eapply lookup_store_eq; eapply lookup_store_eq;
                           exact Hd).
  rewrite finish_OK. cbn [tbl fs sent]. rewrite store_store. reflexivity.
Qed.

(** The world in which a suspended transfer is retried. *)
Lemma unsuspend_retry_blocked op src minor w d w2 :
  lookup_fd minor (tbl w) = Some d →
  status_updated d ≠ 1 →
  ready_to_revive d = 1 →
  suspended d = suspension_of op →
  SUSPEND ≠ OK →
  match op with Read => perform_read | Write => perform_write end
    minor src (io_gr_size d) 0
    (mk_world (store_fd minor (set_ready_to_revive 0 d) (tbl w))
       (fs w) (sent w)) = Ret SUSPEND w2 →
  uds_unsuspend_with perform_read perform_write src minor w = Ret SUSPEND w2.
Proof.
  intros Hd Hs Hr Hsusp Hne Hrun. unfold uds_unsuspend_with.
  rewrite (bind_get_fd _ _ _ _ Hd).
  replace (status_updated d =? 1) with false by lia.
  rewrite Hr. simpl.
  rewrite (bind_upd_fd _ _ _ _ _ Hd). rewrite Hsusp.
  destruct op; simpl; unfold bind at 1; rewrite Hrun; rewrite Z.eqb_refl;
    apply finish_SUSPEND; exact Hne.
Qed.

End Revive.

(** ** Cancellation *)

Section Cancel.

Context `{C : Consts} `{B : Backend}.

Lemma lookup_fd_map (f : uds_fd → uds_fd) i (t : list uds_fd) :
  lookup_fd i (map f t) = option_map f (lookup_fd i t).
Proof.
  unfold lookup_fd. destruct (0 <=? i); [|reflexivity].
  change (map f t) with (f <$> t). rewrite list_lookup_fmap.
  destruct (t !! Z.to_nat i); reflexivity.
Qed.

Lemma lookup_cancel_children minor i t d :
  lookup_fd i t = Some d →
  lookup_fd i (cancel_children minor t) =
  Some (if child d =? minor then set_child (-1) d else d).
Proof.
  intros H. unfold cancel_children. rewrite lookup_fd_map, H. reflexivity.
Qed.

Lemma cancel_children_no_child minor i t d :
  minor ≠ -1 →
  lookup_fd i (cancel_children minor t) = Some d → child d ≠ minor.
Proof.
  intros Hm H. unfold cancel_children in H. rewrite lookup_fd_map in H.
  destruct (lookup_fd i t) as [x|]; [|discriminate].
  simpl in H. injection H as <-.
  destruct (child x =? minor) eqn:E; simpl; lia.
Qed.

(** The cancelled accept(): the run of uds_cancel, step by step. *)
Lemma cancel_accept_run dev_m_in w d :
  let minor := uds_minor dev_m_in in
  let d1 := set_suspended UDS_NOT_SUSPENDED
              (set_selecting 0 (set_endpoint (USER_ENDPT dev_m_in) d)) in
  let t1 := cancel_children minor (store_fd minor d1 (tbl w)) in
  lookup_fd minor (tbl w) = Some d →
  state d = UDS_INUSE →
  call_nr d = DEV_IOCTL_S → DEV_IOCTL_S ≠ 0 →
  ioctl d = NWIOSUDSACCEPT →
  syscall_done d = 0 →
  uds_cancel dev_m_in w =
  Ret (EINTR, Some (uds_set_reply DEV_REVIVE (USER_ENDPT dev_m_in)
                      (IO_GRANT dev_m_in) EINTR))
      (mk_world
         (store_fd minor
            (set_syscall_done 1
               (if child d1 =? minor then set_child (-1) d1 else d1)) t1)
         (fs w) (sent w)).
Proof.
  intros minor d1 t1 Hd Hst Hc Hnz Hi Hdone. unfold uds_cancel.
  fold minor. rewrite (bind_get_fd _ _ _ _ Hd).
  unfold in_use. rewrite Hst. simpl.
  rewrite (bind_upd_fd _ _ _ _ _ Hd). fold d1.
  assert (Hd1 : lookup_fd minor (store_fd minor d1 (tbl w)) = Some d1)
    by (eapply lookup_store_eq; exact Hd).
  erewrite bind_get_fd by exact Hd1.
  unfold truthy. simpl call_nr. simpl syscall_done. rewrite Hc, Hdone.
  replace (DEV_IOCTL_S =? 0) with false by lia. simpl.
  unfold cancel_rollback. simpl call_nr. simpl ioctl.
  rewrite Hc, Hi, !Z.eqb_refl.
  fwd. fold t1.
  erewrite bind_upd_fd
    by (cbn [tbl]; unfold t1; apply lookup_cancel_children; exact Hd1).
  reflexivity.
Qed.

Lemma backlog_remove_total minor n : ∀ l,
  (n ≤ length l)%nat → is_Some (backlog_remove minor n l).
Proof.
  induction n as [|n IH]; intros l Hl; simpl; [eauto|].
  destruct l as [|x l]; simpl in Hl; [lia|].
  destruct (IH l) as [r Hr]; [lia|]. rewrite Hr. eauto.
Qed.

Lemma backlog_remove_length minor n : ∀ l r,
  backlog_remove minor n l = Some r → length r = length l.
Proof.
  induction n as [|n IH]; intros l r H; simpl in H.
  - injection H as <-. reflexivity.
  - destruct l as [|x l]; [discriminate|].
    destruct (backlog_remove minor n l) as [r'|] eqn:E; [|discriminate].
    injection H as <-. simpl. f_equal. eapply IH; eauto.
Qed.

(** After the loop no entry below backlog_size is [minor]; the entries
    that were not [minor] are as before. *)
Lemma backlog_remove_gone minor n : ∀ l r j,
  minor ≠ -1 →
  backlog_remove minor n l = Some r →
  (j < n)%nat → r !! j ≠ Some minor.
Proof.
  induction n as [|n IH]; intros l r j Hm H Hj; [lia|]. simpl in H.
  destruct l as [|x l]; [discriminate|].
  destruct (backlog_remove minor n l) as [r'|] eqn:E; [|discriminate].
  injection H as <-. destruct j as [|j]; simpl.
  - destruct (x =? minor) eqn:Ex; intros Heq; injection Heq; lia.
  - eapply IH; eauto. lia.
Qed.

Lemma backlog_remove_other minor n : ∀ l r j x,
  backlog_remove minor n l = Some r →
  l !! j = Some x → x ≠ minor → r !! j = Some x.
Proof.
  induction n as [|n IH]; intros l r j x H Hl Hx; simpl in H.
  - injection H as <-. exact Hl.
  - destruct l as [|y l]; [discriminate|].
    destruct (backlog_remove minor n l) as [r'|] eqn:E; [|discriminate].
    injection H as <-. destruct j as [|j]; simpl in *.
    + injection Hl as ->. replace (x =? minor) with false by lia.
      reflexivity.
    + eapply IH; eauto.
Qed.

Lemma cancel_backlogs_nth minor : ∀ t t' n d,
  cancel_backlogs minor t = Some t' →
  t !! n = Some d → ∃ d', t' !! n = Some d' ∧ unlisted minor d d'.
Proof.
  induction t as [|x t IH]; intros t' n d H Hn; [discriminate|].
  simpl in H.
  destruct (cancel_backlogs minor t) as [r|] eqn:Er;
    [|destruct (UDS_STATE_eqb (state x) UDS_INUSE);
      [destruct (backlog_remove _ _ _)|]; discriminate].
  destruct n as [|n]; simpl in Hn.
  - injection Hn as ->.
    destruct (state d) eqn:Est; simpl in H.
    + injection H as <-. exists d. split; [reflexivity|]. left.
      split; [congruence | reflexivity].
    + destruct (backlog_remove minor (Z.to_nat (backlog_size d)) (backlog d))
        as [bl|] eqn:Eb; [|discriminate].
      injection H as <-. exists (set_backlog bl d). split; [reflexivity|].
      right. split; [exact Est|]. eauto.
  - destruct (IH r n d eq_refl Hn) as (d' & Hd' & Hu).
    exists d'. split; [|exact Hu].
    destruct (UDS_STATE_eqb (state x) UDS_INUSE);
      [destruct (backlog_remove _ _ _); [|discriminate]|];
      injection H as <-; exact Hd'.
Qed.

Lemma cancel_backlogs_lookup minor t t' i d :
  cancel_backlogs minor t = Some t' →
  lookup_fd i t = Some d →
  ∃ d', lookup_fd i t' = Some d' ∧ unlisted minor d d'.
Proof.
  intros H Hl. destruct (lookup_fd_Some _ _ _ Hl) as [Hi Hn].
  destruct (cancel_backlogs_nth _ _ _ _ _ H Hn) as (d' & Hd' & Hu).
  exists d'. split; [|exact Hu]. unfold lookup_fd.
  replace (0 <=? i) with true by lia. exact Hd'.
Qed.

Lemma cancel_backlogs_length minor : ∀ t t',
  cancel_backlogs minor t = Some t' → length t' = length t.
Proof.
  induction t as [|x t IH]; intros t' H; simpl in H.
  - injection H as <-. reflexivity.
  - destruct (cancel_backlogs minor t) as [r|] eqn:Er;
      [|destruct (UDS_STATE_eqb (state x) UDS_INUSE);
        [destruct (backlog_remove _ _ _)|]; discriminate].
    destruct (UDS_STATE_eqb (state x) UDS_INUSE);
      [destruct (backlog_remove _ _ _); [|discriminate]|];
      injection H as <-; simpl; f_equal; eapply IH; eauto.
Qed.

Lemma cancel_backlogs_total_nat minor : ∀ t,
  (∀ n d, t !! n = Some d → state d = UDS_INUSE →
          (Z.to_nat (backlog_size d) ≤ length (backlog d))%nat) →
  is_Some (cancel_backlogs minor t).
Proof.
  induction t as [|x t IH]; intros H; simpl; [eauto|].
  destruct IH as [r Hr].
  { intros n d Hn. apply (H (S n) d Hn). }
  rewrite Hr. destruct (state x) eqn:Est; simpl; [eauto|].
  destruct (backlog_remove_total minor (Z.to_nat (backlog_size x)) (backlog x))
    as [bl Hbl]; [apply (H 0%nat x eq_refl Est)|].
  rewrite Hbl. eauto.
Qed.

Lemma cancel_backlogs_total minor t :
  backlogs_in_bounds t → is_Some (cancel_backlogs minor t).
Proof.
  intros H. apply cancel_backlogs_total_nat. intros n d Hn Hst.
  apply (H (Z.of_nat n) d); [|exact Hst]. unfold lookup_fd.
  assert (E : (0 <=? Z.of_nat n) = true) by (apply Z.leb_le; lia).
  rewrite E, Nat2Z.id. exact Hn.
Qed.

Lemma backlogs_in_bounds_store i d d' t :
  backlogs_in_bounds t →
  lookup_fd i t = Some d →
  state d' = state d →
  backlog d' = backlog d → backlog_size d' = backlog_size d →
  backlogs_in_bounds (store_fd i d' t).
Proof.
  intros H Hd He Hb Hs j dj Hj Hst.
  rewrite (lookup_store _ _ _ _ _ Hd) in Hj.
  destruct (Z.eq_dec i j) as [->|Hne].
  - injection Hj as <-. rewrite Hb, Hs. eapply H; eauto. congruence.
  - eapply H; eauto.
Qed.

Lemma cancel_returns dev_m_in w d :
  lookup_fd (uds_minor dev_m_in) (tbl w) = Some d →
  backlogs_in_bounds (tbl w) →
  ∃ r w', uds_cancel dev_m_in w = Ret r w'.
Proof.
  intros Hd Hb. unfold uds_cancel.
  rewrite (bind_get_fd _ _ _ _ Hd).
  destruct (negb (in_use d)); [eexists _, _; reflexivity|].
  rewrite (bind_upd_fd _ _ _ _ _ Hd).
  set (d1 := set_suspended _ _).
  assert (Hd1 : lookup_fd (uds_minor dev_m_in)
                  (store_fd (uds_minor dev_m_in) d1 (tbl w)) = Some d1)
    by (eapply lookup_store_eq; exact Hd).
  erewrite bind_get_fd by exact Hd1.
  destruct (truthy (call_nr d1) && negb (truthy (syscall_done d1)));
    [|eexists _, _; reflexivity].
  unfold cancel_rollback.
  destruct (call_nr d1 =? DEV_IOCTL_S).
  - destruct (ioctl d1 =? NWIOSUDSACCEPT).
    + fwd. erewrite bind_upd_fd
        by (cbn [tbl]; apply lookup_cancel_children; exact Hd1).
      eexists _, _; reflexivity.
    + destruct (ioctl d1 =? NWIOSUDSCONN).
      * fwd.
        destruct (cancel_backlogs_total (uds_minor dev_m_in)
                    (store_fd (uds_minor dev_m_in) d1 (tbl w))) as [t' Ht'].
        { eapply backlogs_in_bounds_store; eauto. }
        rewrite Ht'. unfold lift_opt at 1. unfold bind at 1. fwd.
        destruct (cancel_backlogs_lookup _ _ _ _ _ Ht' Hd1) as (d2 & Hd2 & _).
        erewrite bind_upd_fd by exact Hd2. cbn [tbl fs sent].
        erewrite bind_upd_fd by (eapply lookup_store_eq; exact Hd2).
        eexists _, _; reflexivity.
      * fwd. erewrite bind_upd_fd by exact Hd1. eexists _, _; reflexivity.
  - fwd. erewrite bind_upd_fd by exact Hd1. eexists _, _; reflexivity.
Qed.

(** Whenever uds_cancel returns on a slot in use, it answers EINTR and the
    slot is neither selecting nor suspended; a call that was recorded is
    marked done. *)
Lemma cancel_inv dev_m_in w d r w' :
  lookup_fd (uds_minor dev_m_in) (tbl w) = Some d →
  state d = UDS_INUSE →
  uds_cancel dev_m_in w = Ret r w' →
  r = (EINTR, Some (uds_set_reply DEV_REVIVE (USER_ENDPT dev_m_in)
                      (IO_GRANT dev_m_in) EINTR)) ∧
  ∃ dm, lookup_fd (uds_minor dev_m_in) (tbl w') = Some dm ∧
        selecting dm = 0 ∧ suspended dm = UDS_NOT_SUSPENDED ∧
        (call_nr d ≠ 0 → syscall_done dm ≠ 0).
Proof.
  intros Hd Hst H. unfold uds_cancel, cancel_rollback in H.
  run_all; same_lookup.
  all: try (unfold in_use in *; rewrite Hst in *; discriminate).
  all: split; [reflexivity|].
  all: try match goal with
       | Hc : cancel_backlogs _ _ = Some _,
         Hl : lookup_fd _ (store_fd _ _ _) = Some _ |- _ =>
           let Hu := fresh "Hu" in
           destruct (cancel_backlogs_lookup _ _ _ _ _ Hc Hl)
             as (? & ? & Hu);
           same_lookup;
           destruct Hu as [[_ ->]|(_ & ? & _ & ->)]
       end.
  all: try match goal with
       | Hl : lookup_fd _ (store_fd _ _ _) = Some _,
         Hc : lookup_fd _ (cancel_children _ _) = Some _ |- _ =>
           rewrite (lookup_cancel_children _ _ _ _ Hl) in Hc;
           injection Hc as <-
       end.
  all: eexists; split;
    [ first [ eassumption
            | apply lookup_store_eq_is_Some;
              first [ rewrite lookup_store_eq_is_Some; eauto
                    | erewrite lookup_cancel_children by eassumption; eauto
                    | eauto ] ]
    | ].
  all: try destruct (child _ =? _).
  all: simpl; repeat split; try (intros; lia).
  intros Hc. simpl in *. unfold truthy in *.
  destruct (call_nr d =? 0) eqn:E1; [lia|].
  destruct (syscall_done d =? 0) eqn:E2; [discriminate | lia].
Qed.

End Cancel.

(** ** What a run does to the slots *)

Section Slots.

Context `{C : Consts} `{B : Backend}.

Variable U : uds_fd → uds_fd → Prop.

Lemma slots_refl t : slots_rel (rtc U) t t.
Proof. intros i d Hd. exists d. split; [exact Hd | apply rtc_refl]. Qed.

Lemma slots_trans t1 t2 t3 :
  slots_rel (rtc U) t1 t2 → slots_rel (rtc U) t2 t3 → slots_rel (rtc U) t1 t3.
Proof.
  intros H12 H23 i d Hd.
  destruct (H12 _ _ Hd) as (d2 & Hd2 & R2).
  destruct (H23 _ _ Hd2) as (d3 & Hd3 & R3).
  exists d3. split; [exact Hd3 | etrans; eauto].
Qed.

Lemma slots_store i d x t :
  lookup_fd i t = Some d → rtc U d x → slots_rel (rtc U) t (store_fd i x t).
Proof.
  intros Hd Hx j dj Hj. rewrite (lookup_store _ _ _ _ _ Hd).
  destruct (Z.eq_dec i j) as [->|Hne].
  - rewrite Hd in Hj. injection Hj as <-. eauto.
  - exists dj. split; [exact Hj | apply rtc_refl].
Qed.

Lemma slots_map (f : uds_fd → uds_fd) t :
  (∀ d, rtc U d (f d)) → slots_rel (rtc U) t (map f t).
Proof.
  intros Hf i d Hd. rewrite lookup_fd_map, Hd. simpl. eauto.
Qed.

Lemma slots_cancel_backlogs minor t t' :
  (∀ d bl, U d (set_backlog bl d)) →
  cancel_backlogs minor t = Some t' → slots_rel (rtc U) t t'.
Proof.
  intros HU H i d Hd.
  destruct (cancel_backlogs_lookup _ _ _ _ _ H Hd) as (d' & Hd' & Hu).
  exists d'. split; [exact Hd'|].
  destruct Hu as [[_ ->]|(_ & bl & _ & ->)];
    [apply rtc_refl | apply rtc_once, HU].
Qed.

End Slots.

Lemma slots_rel_mono `{B : Backend} (R R' : uds_fd → uds_fd → Prop) t t' :
  (∀ d d', R d d' → R' d d') → slots_rel R t t' → slots_rel R' t t'.
Proof.
  intros HR H i d Hd. destruct (H _ _ Hd) as (d' & Hd' & Hr). eauto.
Qed.

(** Chaining the steps of a run: the goal [slots_rel (rtc U) t t'] follows
    the stores and the sub-runs that lead from [t] to [t']; [steps] proves
    that a stored descriptor comes by updates from the one it replaces. *)
Ltac chain steps :=
  cbn [tbl fs sent] in *;
  repeat first
    [ apply slots_refl
    | progress cbn [tbl fs sent]
    | match goal with
      | H : slots_rel (rtc ?U) ?t (tbl ?w2)
        |- slots_rel (rtc ?U) _ (tbl ?w2) =>
          apply slots_trans with t; [| exact H]
      | |- slots_rel _ _ (cancel_children _ ?t) =>
          apply slots_trans with t;
          [| apply slots_map; intros ?; destruct (child _ =? _);
             [steps | apply rtc_refl]]
      | H : cancel_backlogs _ ?t = Some ?t' |- slots_rel _ _ ?t' =>
          apply slots_trans with t;
          [| apply (fun HU => slots_cancel_backlogs _ _ _ _ HU H);
             intros ? ?; apply upd_backlog]
      | |- slots_rel _ _ (store_fd ?i ?x ?t) =>
          apply slots_trans with t;
          [| eapply slots_store;
             [eassumption | steps]]
      end ];
  cbn [tbl fs sent] in *.

Section Steps_engine.

Context `{C : Consts} `{B : Backend}.

Variable count_ok : Z → Z → Prop.
Hypothesis backend_ok : backend_counts count_ok.

Let U := transfer_update count_ok.

Variable unsuspend : Z → Z → M Z.
Hypothesis unsuspend_steps : ∀ s p, steps_by U (unsuspend s p).

Ltac sub_runs :=
  repeat match goal with
  | H : unsuspend _ _ _ = Ret _ _ |- _ => apply unsuspend_steps in H
  end.

Ltac side := solve [apply rtc_refl | apply rtc_once; constructor].

Lemma revive_if_suspended_steps s p :
  steps_by U (revive_if_suspended unsuspend s p).
Proof.
  intros w r w' H. unfold revive_if_suspended in H.
  run_all; same_lookup; sub_runs; chain ltac:(idtac; side).
Qed.

Lemma notify_select_steps s p sel :
  steps_by U (notify_select unsuspend s p sel).
Proof.
  intros w r w' H. unfold notify_select in H.
  run_all; same_lookup; sub_runs; chain ltac:(idtac; side).
Qed.

Ltac blocks :=
  repeat match goal with
  | H : revive_if_suspended _ _ _ ?w1 = Ret _ ?w2 |- _ =>
      apply revive_if_suspended_steps in H
  | H : notify_select _ _ _ _ ?w1 = Ret _ ?w2 |- _ =>
      apply notify_select_steps in H
  end.

Ltac count Hf Hrc :=
  let Hn := fresh "Hn" in
  pose proof (backend_ok _ _ _ _ _ Hf (rc_OK _ Hrc)) as Hn; simpl in Hn.

Lemma read_steps minor s sz pretend :
  steps_by U (uds_perform_read_with unsuspend minor s sz pretend).
Proof.
  intros w r w' H. unfold uds_perform_read_with in H.
  run_all; same_lookup; blocks.
  all: try match goal with
       | Hf : fs_readwrite _ _ = (_, ?r),
         Hrc : negb (fst ?r =? OK) = false |- _ =>
           destruct r as [rc n]; cbn [fst snd] in *; count Hf Hrc
       end.
  all: rewrite ?store_store in *.
  all: chain ltac:(idtac; side).
  all: eapply slots_store; [eassumption|]; apply rtc_once;
    apply (upd_read count_ok _ n sz); [lia | lia | assumption].
Qed.

Lemma write_to_peer_steps minor s sz pretend fd p :
  0 < sz →
  steps_by U (write_to_peer unsuspend minor s sz pretend fd p).
Proof.
  intros Hsz w r w' H. unfold write_to_peer in H.
  run_all; same_lookup; blocks.
  all: try match goal with
       | Hf : fs_readwrite _ _ = (_, ?r),
         Hrc : negb (fst ?r =? OK) = false |- _ =>
           destruct r as [rc n]; cbn [fst snd] in *; count Hf Hrc
       end.
  all: try match goal with
       | Hc : _ || _ = false |- _ => apply orb_false_iff in Hc as [Hc _]
       end.
  all: chain ltac:(idtac; side).
  all: eapply slots_store; [eassumption|]; apply rtc_once;
    apply (upd_write count_ok _ n sz); [lia | lia | assumption].
Qed.

Lemma write_steps minor s sz pretend :
  steps_by U (uds_perform_write_with unsuspend minor s sz pretend).
Proof.
  intros w r w' H. unfold uds_perform_write_with in H.
  run_all; same_lookup.
  all: repeat match goal with
       | H : write_to_peer _ _ _ _ _ _ _ ?w1 = Ret _ ?w2 |- _ =>
           apply write_to_peer_steps in H; [|lia]
       end.
  all: chain ltac:(idtac; side).
Qed.

End Steps_engine.

Section Steps_revive.

Context `{C : Consts} `{B : Backend}.

Variable count_ok : Z → Z → Prop.

Let U := transfer_update count_ok.

Variables pr pw : Z → Z → Z → Z → M Z.
Hypothesis pr_steps : ∀ m src sz pretend, steps_by U (pr m src sz pretend).
Hypothesis pw_steps : ∀ m src sz pretend, steps_by U (pw m src sz pretend).

Lemma unsuspend_with_steps s minor :
  steps_by U (uds_unsuspend_with pr pw s minor).
Proof.
  intros w r w' H. unfold uds_unsuspend_with, finish in H.
  run_all; same_lookup.
  all: repeat match goal with
       | H : pr _ _ _ _ ?w1 = Ret _ ?w2 |- _ => apply pr_steps in H
       | H : pw _ _ _ _ ?w1 = Ret _ ?w2 |- _ => apply pw_steps in H
       end.
  all: chain ltac:(solve [apply rtc_refl | apply rtc_once; constructor]).
Qed.

End Steps_revive.

(** A descriptor comes from another by updates of an entry point: the
    assignments are peeled off one by one, by the name of the field. *)
Ltac handler_step :=
  lazymatch goal with
  | |- handler_update _ _ zero_fd => apply upd_zero
  | |- handler_update _ _ (open_init _ _) => apply upd_open
  | |- handler_update _ _ (track_io _ _) => apply upd_track
  | |- handler_update _ _ (set_inode_nr _ _) => apply upd_inode_nr
  | |- handler_update _ _ (set_syscall_done _ _) => apply upd_syscall_done
  | |- handler_update _ _ (set_call_nr _ _) => apply upd_call_nr
  | |- handler_update _ _ (set_ioctl _ _) => apply upd_ioctl
  | |- handler_update _ _ (set_select_proc _ _) => apply upd_select_proc
  | |- handler_update _ _ (set_sel_ops_in _ _) => apply upd_sel_ops_in
  | |- handler_update _ _ (set_endpoint _ _) => apply upd_endpoint
  | |- handler_update _ _ (set_peer _ _) => apply upd_peer
  | |- handler_update _ _ (set_err _ _) => apply upd_err
  | |- handler_update _ _ (set_child _ _) => apply upd_child
  | |- handler_update _ _ (set_backlog _ _) => apply upd_backlog
  | |- handler_update _ _ (set_addr _ _) => apply upd_addr
  | |- handler_update _ _ (set_suspended _ _) =>
      apply upd_transfer, upd_suspended
  | |- handler_update _ _ (set_selecting _ _) =>
      apply upd_transfer, upd_selecting
  | |- handler_update _ _ (set_sel_ops_out _ _) =>
      apply upd_transfer, upd_sel_ops_out
  end.

Ltac handler_steps :=
  lazymatch goal with
  | |- rtc _ ?d ?d => apply rtc_refl
  | |- rtc _ _ zero_fd => apply rtc_once; handler_step
  | |- rtc _ _ (open_init _ _) => apply rtc_once; handler_step
  | |- rtc _ _ (track_io _ _) => apply rtc_once; handler_step
  | |- rtc _ _ (_ _ ?y) =>
      apply rtc_r with y; [handler_steps | handler_step]
  end.

Section Steps_handlers.

Context `{C : Consts} `{B : Backend}.

Variable count_ok : Z → Z → Prop.
Hypothesis backend_ok : backend_counts count_ok.

Lemma uds_unsuspend_steps fuel : ∀ s minor,
  steps_by (transfer_update count_ok) (uds_unsuspend fuel s minor).
Proof.
  induction fuel as [|n IH]; intros s minor.
  - intros w r w' H. discriminate.
  - simpl. apply unsuspend_with_steps; intros.
    + apply read_steps; assumption.
    + apply write_steps; assumption.
Qed.

Lemma uds_perform_read_steps fuel minor s sz pretend :
  steps_by (transfer_update count_ok)
    (uds_perform_read fuel minor s sz pretend).
Proof. apply read_steps; auto using uds_unsuspend_steps. Qed.

Lemma uds_perform_write_steps fuel minor s sz pretend :
  steps_by (transfer_update count_ok)
    (uds_perform_write fuel minor s sz pretend).
Proof. apply write_steps; auto using uds_unsuspend_steps. Qed.

Lemma transfer_to_handler t t' :
  slots_rel (rtc (transfer_update count_ok)) t t' →
  slots_rel (rtc (handler_update count_ok)) t t'.
Proof.
  apply slots_rel_mono. intros d d'. apply rtc_subrel.
  intros x y. apply upd_transfer.
Qed.

Ltac engine_runs fuel :=
  repeat match goal with
  | H : revive_if_suspended _ _ _ _ = Ret _ _ |- _ =>
      apply (revive_if_suspended_steps _ _ (uds_unsuspend_steps fuel)) in H;
      apply transfer_to_handler in H
  | H : uds_perform_read _ _ _ _ _ _ = Ret _ _ |- _ =>
      apply uds_perform_read_steps in H; apply transfer_to_handler in H
  | H : uds_perform_write _ _ _ _ _ _ = Ret _ _ |- _ =>
      apply uds_perform_write_steps in H; apply transfer_to_handler in H
  end.

Lemma uds_open_steps dev_m_in :
  steps_by (handler_update count_ok) (uds_open dev_m_in).
Proof.
  intros w r w' H. unfold uds_open in H.
  run_all; same_lookup; chain ltac:(idtac; handler_steps).
Qed.

Lemma uds_close_steps fuel dev_m_in :
  steps_by (handler_update count_ok) (uds_close fuel dev_m_in).
Proof.
  intros w r w' H. unfold uds_close in H.
  run_all; same_lookup; engine_runs fuel; chain ltac:(idtac; handler_steps).
Qed.

Lemma uds_select_steps fuel dev_m_in :
  steps_by (handler_update count_ok) (uds_select fuel dev_m_in).
Proof.
  intros w r w' H. unfold uds_select in H.
  run_all; same_lookup; engine_runs fuel; chain ltac:(idtac; handler_steps).
Qed.

Lemma uds_read_steps fuel dev_m_in :
  steps_by (handler_update count_ok) (uds_read fuel dev_m_in).
Proof.
  intros w r w' H. unfold uds_read in H.
  run_all; same_lookup; engine_runs fuel; chain ltac:(idtac; handler_steps).
Qed.

Lemma uds_write_steps fuel dev_m_in :
  steps_by (handler_update count_ok) (uds_write fuel dev_m_in).
Proof.
  intros w r w' H. unfold uds_write in H.
  run_all; same_lookup; engine_runs fuel; chain ltac:(idtac; handler_steps).
Qed.

Lemma uds_cancel_steps dev_m_in :
  steps_by (handler_update count_ok) (uds_cancel dev_m_in).
Proof.
  intros w r w' H. unfold uds_cancel, cancel_rollback in H.
  run_all; same_lookup; chain ltac:(idtac; handler_steps).
Qed.

End Steps_handlers.

(** ** The window within the pipe *)

Section Window.

Context `{C : Consts} `{B : Backend}.

Hypothesis pipe_nonneg : 0 ≤ PIPE_BUF.

Lemma handler_update_fd_ok d x :
  handler_update (fun n r => 0 ≤ n ≤ r) d x → fd_ok d → fd_ok x.
Proof.
  unfold fd_ok. intros H Hok.
  destruct H as [d x H| | | | | | | | | | | | | | |];
    [destruct H|..]; simpl; try lia.
  unfold read_shift. cbv zeta.
  destruct (size _ =? 0) eqn:E; simpl in *; lia.
Qed.

Lemma handler_update_in_range d x :
  handler_update (fun n r => 0 ≤ n ≤ r) d x →
  window_in_range d → window_in_range x.
Proof.
  unfold window_in_range. intros H Hok.
  destruct H as [d x H| | | | | | | | | | | | | | |];
    [destruct H|..]; simpl; try lia.
  unfold read_shift. cbv zeta.
  destruct (sz >? size d) eqn:Esz;
    destruct (size _ =? 0) eqn:E; simpl in *; lia.
Qed.

Lemma handler_updates_fd_ok d x :
  rtc (handler_update (fun n r => 0 ≤ n ≤ r)) d x →
  (fd_ok d → fd_ok x) ∧ (window_in_range d → window_in_range x).
Proof.
  induction 1 as [|d y x Hdy _ [IH1 IH2]]; [auto|].
  split; intros Hok.
  - apply IH1. eapply handler_update_fd_ok; eauto.
  - apply IH2. eapply handler_update_in_range; eauto.
Qed.

Lemma steps_fd_ok_kept t t' :
  slots_rel (rtc (handler_update (fun n r => 0 ≤ n ≤ r))) t t' →
  fd_ok_kept t t'.
Proof.
  apply slots_rel_mono. intros d d'. apply handler_updates_fd_ok.
Qed.

End Window.

(** ** Closing *)

Section Close.

Context `{C : Consts} `{B : Backend}.

Lemma revive_if_suspended_run (u : Z → Z → M Z) s p w dp :
  lookup_fd p (tbl w) = Some dp →
  revive_if_suspended u s p w =
  if is_suspended (suspended dp) then
    bind (u s p) (fun _ => ret tt)
      (mk_world (store_fd p (set_ready_to_revive 1 dp) (tbl w)) (fs w) (sent w))
  else Ret tt w.
Proof.
  intros Hp. unfold revive_if_suspended.
  rewrite (bind_get_fd _ _ _ _ Hp).
  destruct (is_suspended (suspended dp)); [|reflexivity].
  rewrite (bind_upd_fd _ _ _ _ _ Hp). reflexivity.
Qed.


(** uds_close from the release of the in-flight descriptors on. *)
Lemma close_tail dev_m_in w2 d2 :
  let minor := uds_minor dev_m_in in
  lookup_fd minor (tbl w2) = Some d2 →
  (fd1 <- get_fd minor ;;
   (if nfiledes (ancillary_data fd1) >? 0 then
      call (fun b => (clear_fds b minor (ancillary_data fd1), tt))
    else ret tt) ;;;
   fd2 <- get_fd minor ;;
   upd_fd minor (fun _ => zero_fd) ;;;
   rc <- call (fun b => fs_putnode b (inode_nr fd2)) ;;
   if negb (rc =? OK) then ret (rc, None) else
   ret (OK, Some (uds_set_reply DEV_CLOSE_REPL (USER_ENDPT dev_m_in)
                    (IO_GRANT dev_m_in) OK))) w2 =
  let rc := snd (release minor d2 (fs w2)) in
  Ret (rc, if rc =? OK
           then Some (uds_set_reply DEV_CLOSE_REPL (USER_ENDPT dev_m_in)
                        (IO_GRANT dev_m_in) OK)
           else None)
      (mk_world (store_fd minor zero_fd (tbl w2))
         (fst (release minor d2 (fs w2))) (sent w2)).
Proof.
  intros minor Hd2. rewrite (bind_get_fd _ _ _ _ Hd2). unfold release.
  destruct (nfiledes (ancillary_data d2) >? 0).
  - unfold bind at 1, call at 1. cbv beta iota.
    erewrite bind_get_fd by exact Hd2.
    erewrite bind_upd_fd by exact Hd2. cbn [tbl fs sent].
    unfold bind, call. cbn [tbl fs sent].
    destruct (fs_putnode _ _) as [b rc]. cbn [fst snd].
    destruct (rc =? OK) eqn:E; cbn [negb]; [|reflexivity].
    apply Z.eqb_eq in E. subst rc. reflexivity.
  - rewrite bind_ret.
    erewrite bind_get_fd by exact Hd2.
    erewrite bind_upd_fd by exact Hd2. cbn [tbl fs sent].
    unfold bind, call. cbn [tbl fs sent].
    destruct (fs_putnode _ _) as [b rc]. cbn [fst snd].
    destruct (rc =? OK) eqn:E; cbn [negb]; [|reflexivity].
    apply Z.eqb_eq in E. subst rc. reflexivity.
Qed.

(** Whatever a run of uds_unsuspend does, every slot stays a slot. *)
Lemma unsuspend_keeps_slots fuel s p w r w' i d :
  uds_unsuspend fuel s p w = Ret r w' →
  lookup_fd i (tbl w) = Some d → is_Some (lookup_fd i (tbl w')).
Proof.
  intros H Hd.
  assert (Hb : backend_counts (fun _ _ => True)) by (intros ? ? ? ? ? _ _; exact I).
  destruct (uds_unsuspend_steps _ Hb fuel s p w r w' H i d Hd) as (d' & Hd' & _).
  eauto.
Qed.

Lemma close_in_use fuel dev_m_in w d w2 d2 :
  let minor := uds_minor dev_m_in in
  lookup_fd minor (tbl w) = Some d →
  state d = UDS_INUSE →
  (if negb (peer d =? -1) then
     upd_fd (peer d) (set_peer (-1)) ;;;
     upd_fd (peer d) (set_err ECONNRESET) ;;;
     revive_if_suspended (uds_unsuspend fuel) (m_source dev_m_in) (peer d)
   else ret tt) w = Ret tt w2 →
  lookup_fd minor (tbl w2) = Some d2 →
  uds_close fuel dev_m_in w =
  let rc := snd (release minor d2 (fs w2)) in
  Ret (rc, if rc =? OK
           then Some (uds_set_reply DEV_CLOSE_REPL (USER_ENDPT dev_m_in)
                        (IO_GRANT dev_m_in) OK)
           else None)
      (mk_world (store_fd minor zero_fd (tbl w2))
         (fst (release minor d2 (fs w2))) (sent w2)).
Proof.
  intros minor Hd Hst Hblock Hd2. unfold uds_close. fold minor.
  rewrite (bind_get_fd _ _ _ _ Hd). unfold in_use. rewrite Hst.
  cbn [UDS_STATE_eqb negb]. unfold bind at 1. rewrite Hblock.
  apply (close_tail dev_m_in w2 d2 Hd2).
Qed.

End Close.

(** ** The revival of a descriptor whose peer has gone *)

Section Revive_alone.

Context `{C : Consts} `{B : Backend}.

Lemma revived_alone_refl d : revived_alone d d.
Proof. split; auto. Qed.








End Revive_alone.

(** * The claims *)

Section Claims.

Context `{C : Consts} `{B : Backend}.

(** C10.  A read or a write of size 0 returns 0 at once and leaves the whole
    state as it is, in probe mode or not and whatever the descriptor holds:
    the test of the size comes first.  On a descriptor shut down for reading
    or for writing, or not connected, the same call with a nonzero size
    returns EPIPE or ENOTCONN. *)
Theorem zero_size_transfer fuel minor src pretend w d :
  lookup_fd minor (tbl w) = Some d →
  uds_perform_read fuel minor src 0 pretend w = Ret 0 w ∧
  uds_perform_write fuel minor src 0 pretend w = Ret 0 w ∧
  (∀ sz, 0 < sz → has_bit (mode d) S_IRUSR = false →
     uds_perform_read fuel minor src sz pretend w = Ret EPIPE w) ∧
  (∀ sz, 0 < sz → has_bit (mode d) S_IWUSR = false →
     uds_perform_write fuel minor src sz pretend w = Ret EPIPE w) ∧
  (∀ op sz, reaches_connection_test op sz d →
     connection_oriented d → peer d = -1 → err d ≠ ECONNRESET →
     perform op fuel minor src sz pretend w = Ret ENOTCONN w).
Proof.
  intros Hd. refine (conj _ (conj _ (conj _ (conj _ _)))).
  - eapply read_zero; eauto. lia.
  - apply write_zero. lia.
  - intros sz Hsz Hm. eapply read_shut; eauto.
  - intros sz Hsz Hm. eapply write_shut; eauto.
  - intros op sz Hop Ht Hp He.
    assert (Hne : (err d =? ECONNRESET) = false) by lia.
    destruct op; simpl in Hop |- *.
    + destruct Hop as (Hsz & Hm & Hs). unfold uds_perform_read.
      rewrite (read_unconnected _ _ _ _ _ _ _ Hd Hsz Hm Hs Hp Ht), Hne.
      reflexivity.
    + destruct Hop as (Hsz & Hm). unfold uds_perform_write.
      rewrite (write_unconnected _ _ _ _ _ _ _ Hd Hsz Hm Hp Ht), Hne.
      reflexivity.
Qed.

(** C6, amended.  A read of a nonzero size on a descriptor shut down for
    reading returns EPIPE and leaves the state as it is, in probe mode or
    not. *)
Theorem read_disabled_EPIPE fuel minor src sz pretend w d :
  lookup_fd minor (tbl w) = Some d →
  has_bit (mode d) S_IRUSR = false →
  0 < sz →
  uds_perform_read fuel minor src sz pretend w = Ret EPIPE w.
Proof. intros Hd Hm Hsz. eapply read_shut; eauto. Qed.

(** C5, amended.  On a stream or seqpacket descriptor without a peer whose
    error latch holds ECONNRESET, a transfer that reaches the test of the
    connection returns ECONNRESET and clears the latch of that descriptor,
    touching nothing else; a second such transfer straight after returns
    ENOTCONN and changes nothing. *)
Theorem reset_latch_consumed_once fuel minor src w d
    op1 sz1 pretend1 op2 sz2 pretend2 :
  lookup_fd minor (tbl w) = Some d →
  connection_oriented d → peer d = -1 →
  err d = ECONNRESET → ECONNRESET ≠ 0 →
  reaches_connection_test op1 sz1 d →
  reaches_connection_test op2 sz2 d →
  perform op1 fuel minor src sz1 pretend1 w =
    Ret ECONNRESET (clear_err minor d w) ∧
  lookup_fd minor (tbl (clear_err minor d w)) = Some (set_err 0 d) ∧
  (∀ j, j ≠ minor →
     lookup_fd j (tbl (clear_err minor d w)) = lookup_fd j (tbl w)) ∧
  perform op2 fuel minor src sz2 pretend2 (clear_err minor d w) =
    Ret ENOTCONN (clear_err minor d w).
Proof.
  intros Hd Ht Hp He Hnz H1 H2.
  assert (Hd' := lookup_clear_err _ _ _ Hd).
  assert (Hi : 0 ≤ minor) by apply (lookup_fd_Some _ _ _ Hd).
  assert (Heq : (err d =? ECONNRESET) = true) by (apply Z.eqb_eq; exact He).
  assert (Hne : (err (set_err 0 d) =? ECONNRESET) = false)
    by (apply Z.eqb_neq; simpl; congruence).
  refine (conj _ (conj _ (conj _ _))).
  - destruct op1; simpl in H1 |- *.
    + destruct H1 as (Hsz & Hm & Hs). unfold uds_perform_read.
      rewrite (read_unconnected _ _ _ _ _ _ _ Hd Hsz Hm Hs Hp Ht), Heq.
      reflexivity.
    + destruct H1 as (Hsz & Hm). unfold uds_perform_write.
      rewrite (write_unconnected _ _ _ _ _ _ _ Hd Hsz Hm Hp Ht), Heq.
      reflexivity.
  - exact Hd'.
  - intros j Hj. simpl. apply lookup_store_ne; [exact Hi | congruence].
  - destruct op2; simpl in H2 |- *.
    + destruct H2 as (Hsz & Hm & Hs). unfold uds_perform_read.
      rewrite (read_unconnected _ _ _ _ _ _ _ Hd' Hsz Hm Hs Hp Ht), Hne.
      reflexivity.
    + destruct H2 as (Hsz & Hm). unfold uds_perform_write.
      rewrite (write_unconnected _ _ _ _ _ _ _ Hd' Hsz Hm Hp Ht), Hne.
      reflexivity.
Qed.

(** C3.  A write on a datagram descriptor whose resolved peer already holds
    data returns the requested size, as if all of it had been written, and
    leaves the whole state (every descriptor, the stored bytes and the
    replies) as it is; the writer is enabled for writing, the size is within
    1..PIPE_BUF and the peer is enabled for reading. *)
Theorem datagram_dropped_when_peer_busy fuel minor src sz pretend w d p dp :
  lookup_fd minor (tbl w) = Some d →
  type d = SOCK_DGRAM →
  SOCK_DGRAM ≠ SOCK_STREAM → SOCK_DGRAM ≠ SOCK_SEQPACKET →
  first_hit (dgram_bound_to (target d)) (tbl w) p →
  lookup_fd p (tbl w) = Some dp →
  0 < size dp →
  has_bit (mode d) S_IWUSR = true →
  0 < sz ≤ PIPE_BUF →
  has_bit (mode dp) S_IRUSR = true →
  uds_perform_write fuel minor src sz pretend w = Ret sz w.
Proof.
  intros Hd Ht Hs Hq Hp Hdp Hsize Hm Hsz Hr. unfold uds_perform_write.
  rewrite (write_dgram _ _ _ _ _ _ _ Hd Hsz Hm Ht Hs Hq).
  rewrite (scan_from_first_hit _ _ _ Hp).
  eapply write_to_busy_dgram; eauto.
Qed.

(** C7, amended.  A write on a datagram descriptor that is enabled for
    writing, with a size within 1..PIPE_BUF, addresses the lowest index of
    the table whose descriptor is of type datagram and bound to an AF_UNIX
    address with the path of the writer's target; where free slots are
    zeroed that descriptor is in use.  When no descriptor qualifies, the
    write returns ENOENT, or SUSPEND in probe mode, and changes nothing. *)
Theorem dgram_peer_resolution fuel minor src sz pretend w d :
  lookup_fd minor (tbl w) = Some d →
  type d = SOCK_DGRAM →
  SOCK_DGRAM ≠ SOCK_STREAM → SOCK_DGRAM ≠ SOCK_SEQPACKET →
  has_bit (mode d) S_IWUSR = true →
  0 < sz ≤ PIPE_BUF →
  (no_hit (dgram_bound_to (target d)) (tbl w) ∧
   uds_perform_write fuel minor src sz pretend w =
   Ret (if truthy pretend then SUSPEND else ENOENT) w)
  ∨
  (∃ p dp,
     first_hit (dgram_bound_to (target d)) (tbl w) p ∧
     lookup_fd p (tbl w) = Some dp ∧
     type dp = SOCK_DGRAM ∧ sun_family (addr dp) = AF_UNIX ∧
     strncmp (sun_path (target d)) (sun_path (addr dp)) UNIX_PATH_MAX = 0 ∧
     (free_slots_zeroed (tbl w) → SOCK_DGRAM ≠ 0 → state dp = UDS_INUSE) ∧
     uds_perform_write fuel minor src sz pretend w =
     write_to_peer (uds_unsuspend fuel) minor src sz pretend d p w).
Proof.
  intros Hd Ht Hs Hq Hm Hsz. unfold uds_perform_write.
  rewrite (write_dgram _ _ _ _ _ _ _ Hd Hsz Hm Ht Hs Hq).
  destruct (scan_from_0 (dgram_bound_to (target d)) (tbl w))
    as [[Hn Hno]|Hhit].
  - left. split; [exact Hno|]. rewrite Hn. apply write_to_nobody.
  - right. destruct Hhit as [(dp & Hl & Htest) Hlow].
    exists (scan_from (dgram_bound_to (target d)) 0 (tbl w)), dp.
    assert (Hb := Htest). unfold dgram_bound_to in Hb.
    apply andb_true_iff in Hb as [Hb H3].
    apply andb_true_iff in Hb as [H1 H2].
    apply Z.eqb_eq in H1, H2, H3.
    refine (conj _ (conj Hl (conj H1 (conj H2 (conj H3 (conj _ eq_refl)))))).
    + split; [eauto | exact Hlow].
    + intros Hfree Hnz. destruct (state dp) eqn:Est; [|reflexivity].
      rewrite (Hfree _ _ Hl Est) in H1. simpl in H1. congruence.
Qed.

(** C2.  In probe mode a read or a write of any size returns, and leaves the
    position, the length and the suspension of every descriptor, the stored
    bytes and the replies as they were; the peer the transfer resolves is
    left as it was in every field. *)
Theorem probe_mutates_nothing fuel minor src sz pretend w d :
  lookup_fd minor (tbl w) = Some d →
  truthy pretend = true →
  peer_in_table d (tbl w) →
  (∃ r w', uds_perform_read fuel minor src sz pretend w = Ret r w' ∧
     window_unchanged (tbl w) (tbl w') ∧
     fs w' = fs w ∧ sent w' = sent w ∧
     (peer d ≠ -1 →
      lookup_fd (peer d) (tbl w') = lookup_fd (peer d) (tbl w))) ∧
  (∃ r w', uds_perform_write fuel minor src sz pretend w = Ret r w' ∧
     window_unchanged (tbl w) (tbl w') ∧
     fs w' = fs w ∧ sent w' = sent w ∧
     (resolved_peer d (tbl w) ≠ -1 →
      lookup_fd (resolved_peer d (tbl w)) (tbl w') =
      lookup_fd (resolved_peer d (tbl w)) (tbl w))).
Proof.
  intros Hd Hpr Hp. split.
  - destruct (read_probe (uds_unsuspend fuel) minor src sz pretend w d
                Hd Hpr Hp) as [r [Hr|[Hnone Hr]]].
    + exists r, w. repeat split; auto using window_unchanged_refl.
    + exists r, (clear_err minor d w).
      refine (conj Hr (conj _ (conj eq_refl (conj eq_refl _)))).
      * apply window_unchanged_clear_err; exact Hd.
      * intros Hne. contradiction.
  - destruct (write_probe (uds_unsuspend fuel) minor src sz pretend w d
                Hd Hpr Hp) as [r [Hr|[Hnone Hr]]].
    + exists r, w. repeat split; auto using window_unchanged_refl.
    + exists r, (clear_err minor d w).
      refine (conj Hr (conj _ (conj eq_refl (conj eq_refl _)))).
      * apply window_unchanged_clear_err; exact Hd.
      * intros Hne. contradiction.
Qed.

(** C8.  On a slot in use, uds_cancel answers EINTR and leaves the slot
    neither selecting nor suspended, whatever call was in flight, and a
    recorded call is marked done.  When an accept() was in flight and not
    complete, no descriptor of the table has the slot as its child
    afterwards. *)
Theorem cancel_accept_clears_child dev_m_in w d :
  lookup_fd (uds_minor dev_m_in) (tbl w) = Some d →
  state d = UDS_INUSE →
  (backlogs_in_bounds (tbl w) →
   ∃ w' dm,
     uds_cancel dev_m_in w =
       Ret (EINTR, Some (uds_set_reply DEV_REVIVE (USER_ENDPT dev_m_in)
                           (IO_GRANT dev_m_in) EINTR)) w' ∧
     lookup_fd (uds_minor dev_m_in) (tbl w') = Some dm ∧
     selecting dm = 0 ∧ suspended dm = UDS_NOT_SUSPENDED ∧
     (call_nr d ≠ 0 → syscall_done dm ≠ 0)) ∧
  (call_nr d = DEV_IOCTL_S → DEV_IOCTL_S ≠ 0 →
   ioctl d = NWIOSUDSACCEPT → syscall_done d = 0 →
   ∃ w' dm,
     uds_cancel dev_m_in w =
       Ret (EINTR, Some (uds_set_reply DEV_REVIVE (USER_ENDPT dev_m_in)
                           (IO_GRANT dev_m_in) EINTR)) w' ∧
     (∀ i di, lookup_fd i (tbl w') = Some di →
              child di ≠ uds_minor dev_m_in) ∧
     lookup_fd (uds_minor dev_m_in) (tbl w') = Some dm ∧
     selecting dm = 0 ∧ suspended dm = UDS_NOT_SUSPENDED ∧
     syscall_done dm = 1 ∧
     fs w' = fs w ∧ sent w' = sent w).
Proof.
  intros Hd Hst. split.
  - intros Hb. destruct (cancel_returns _ _ _ Hd Hb) as (r & w' & Hr).
    destruct (cancel_inv _ _ _ _ _ Hd Hst Hr) as (-> & dm & Hdm).
    exists w', dm. split; [exact Hr | exact Hdm].
  - intros Hc Hnz Hi Hdone.
    assert (Hm : uds_minor dev_m_in ≠ -1)
      by (apply lookup_fd_Some in Hd; lia).
    pose proof (cancel_accept_run dev_m_in w d Hd Hst Hc Hnz Hi Hdone) as Hr.
    cbv zeta in Hr.
    destruct (cancel_inv _ _ _ _ _ Hd Hst Hr) as (_ & dm & Hdm & Hsel & Hsu & _).
    eexists _, dm. split; [exact Hr|]. cbn [tbl fs sent] in *.
    refine (conj _ (conj Hdm (conj Hsel (conj Hsu (conj _ (conj eq_refl eq_refl)))))).
    + intros i di Hl.
      set (d1 := set_suspended _ _) in *.
      assert (Hd1 : lookup_fd (uds_minor dev_m_in)
                      (store_fd (uds_minor dev_m_in) d1 (tbl w)) = Some d1)
        by (eapply lookup_store_eq; exact Hd).
      rewrite (lookup_store _ _ _ _ _
                 (lookup_cancel_children (uds_minor dev_m_in) _ _ _ Hd1)) in Hl.
      destruct (Z.eq_dec (uds_minor dev_m_in) i) as [<-|Hne].
      * injection Hl as <-. subst d1.
        destruct (child _ =? _) eqn:E; simpl in *; lia.
      * eapply cancel_children_no_child; eauto.
    + rewrite lookup_store_eq_is_Some in Hdm.
      * injection Hdm as <-. reflexivity.
      * erewrite lookup_cancel_children; [eauto|].
        eapply lookup_store_eq; exact Hd.
Qed.

(** C9.  When uds_unsuspend runs on a descriptor whose status_updated is
    set, it sends the readiness reply and clears status_updated and
    selecting; the suspended transfer is not retried, so the suspension,
    ready_to_revive and the stored bytes stay as they are, whether
    ready_to_revive is set or not.  When only ready_to_revive is set and
    the retried read or write returns SUSPEND again, uds_unsuspend returns
    SUSPEND in the very state the retry left: it sends nothing itself, the
    suspension of the descriptor is what it was, and with no suspended peer
    to revive no reply is sent at all. *)
Theorem revive_priorities f src minor w d :
  lookup_fd minor (tbl w) = Some d →
  (status_updated d = 1 →
   uds_unsuspend (S f) src minor w =
   Ret OK
     (mk_world
        (store_fd minor (set_selecting 0 (set_status_updated 0 d)) (tbl w))
        (fs w)
        ((src, Some (uds_sel_reply DEV_SEL_REPL2 minor (sel_ops_out d)))
           :: sent w))) ∧
  (status_updated d ≠ 1 → ready_to_revive d = 1 →
   SUSPEND ≠ OK → counts_are_not_SUSPEND →
   ∀ op w2,
     let w1 := mk_world (store_fd minor (set_ready_to_revive 0 d) (tbl w))
                 (fs w) (sent w) in
     suspended d = suspension_of op →
     perform op f minor src (io_gr_size d) 0 w1 = Ret SUSPEND w2 →
     uds_unsuspend (S f) src minor w = Ret SUSPEND w2 ∧
     (∃ d2, lookup_fd minor (tbl w2) = Some d2 ∧ suspended d2 = suspended d) ∧
     ((∀ dp, lookup_fd (addressed_peer op d (tbl w1)) (tbl w1) = Some dp →
             suspended dp = UDS_NOT_SUSPENDED) →
      sent w2 = sent w)).
Proof.
  intros Hd. split.
  - intros Hs. simpl. apply unsuspend_status_updated; assumption.
  - intros Hs Hr Hne Hbk op w2 w1 Hsusp Hrun.
    assert (Hd1 : lookup_fd minor (tbl w1) = Some (set_ready_to_revive 0 d))
      by (eapply lookup_store_eq; exact Hd).
    refine (conj _ (conj _ _)).
    + simpl. eapply (unsuspend_retry_blocked _ _ op); eauto.
    + rewrite Hsusp. destruct op; simpl in Hrun |- *.
      * eapply read_suspend_keeps; eauto.
      * eapply write_suspend_keeps; eauto.
    + intros Hq. change (sent w) with (sent w1).
      destruct op; simpl in Hrun, Hq.
      * eapply read_suspend_silent; eauto.
      * eapply write_suspend_silent; eauto.
Qed.

(** C1.  Where the backend transfers at most the number of bytes it is
    asked for, that is, reports a count between 0 and the size of the
    request, every entry point (open, close, read, write, select, revive,
    cancel) that returns leaves every descriptor whose position plus length
    was within PIPE_BUF a descriptor whose position plus length is within
    PIPE_BUF; and a position and a length that were not negative are not
    negative afterwards, so that the sum never wraps around. *)
Theorem window_within_pipe fuel dev_m_in src minor w :
  0 ≤ PIPE_BUF →
  transfers_within_request →
  (∀ r w', uds_open dev_m_in w = Ret r w' → fd_ok_kept (tbl w) (tbl w')) ∧
  (∀ r w', uds_close fuel dev_m_in w = Ret r w' →
           fd_ok_kept (tbl w) (tbl w')) ∧
  (∀ r w', uds_read fuel dev_m_in w = Ret r w' →
           fd_ok_kept (tbl w) (tbl w')) ∧
  (∀ r w', uds_write fuel dev_m_in w = Ret r w' →
           fd_ok_kept (tbl w) (tbl w')) ∧
  (∀ r w', uds_select fuel dev_m_in w = Ret r w' →
           fd_ok_kept (tbl w) (tbl w')) ∧
  (∀ r w', uds_unsuspend fuel src minor w = Ret r w' →
           fd_ok_kept (tbl w) (tbl w')) ∧
  (∀ r w', uds_cancel dev_m_in w = Ret r w' → fd_ok_kept (tbl w) (tbl w')).
Proof.
  intros Hp Hb.
  refine (conj _ (conj _ (conj _ (conj _ (conj _ (conj _ _))))));
    intros r w' H; apply steps_fd_ok_kept; try exact Hp.
  - eapply uds_open_steps; eauto.
  - eapply uds_close_steps; eauto.
  - eapply uds_read_steps; eauto.
  - eapply uds_write_steps; eauto.
  - eapply uds_select_steps; eauto.
  - apply transfer_to_handler. eapply uds_unsuspend_steps; eauto.
  - eapply uds_cancel_steps; eauto.
Qed.


End Claims.

(** * Further properties of the entry points *)

Section Frames.

Context `{C : Consts} `{B : Backend}.

Lemma same_socket_refl d : same_socket d d.
Proof. unfold same_socket. repeat split. Qed.

Lemma same_socket_trans a b c :
  same_socket a b → same_socket b c → same_socket a c.
Proof.
  unfold same_socket. intros H1 H2.
  repeat match goal with H : _ ∧ _ |- _ => destruct H end.
  repeat split; congruence.
Qed.

Lemma transfer_update_same_socket count_ok d x :
  transfer_update count_ok d x → same_socket d x.
Proof.
  intros H. destruct H; unfold same_socket; try (repeat split; reflexivity).
  unfold read_shift. cbv zeta. destruct (size _ =? 0); repeat split.
Qed.

Lemma transfer_updates_same_socket count_ok d x :
  rtc (transfer_update count_ok) d x → same_socket d x.
Proof.
  induction 1 as [|d y x Hdy _ IH]; [apply same_socket_refl|].
  eapply same_socket_trans; [|exact IH].
  eapply transfer_update_same_socket; eauto.
Qed.

Lemma transfer_steps_same_socket t t' :
  slots_rel (rtc (transfer_update (fun _ _ => True))) t t' →
  slots_rel same_socket t t'.
Proof.
  apply slots_rel_mono. intros d d'. apply transfer_updates_same_socket.
Qed.

Lemma any_backend_counts : backend_counts (fun _ _ => True).
Proof. intros ? ? ? ? ? _ _. exact I. Qed.

(** X1.  Whatever the backend answers and however deep the revivals go, a
    read, a write or a revival that returns has changed, in any slot of
    the table, nothing but the buffer window, the suspension, the revival
    and select flags, the error latch and the source address: the state,
    type, mode, peer, child, addresses, backlog, owner and the record of the
    call in flight of every descriptor are what they were. *)
Theorem transfers_keep_the_sockets fuel minor src sz pretend w :
  (∀ r w', uds_perform_read fuel minor src sz pretend w = Ret r w' →
           slots_rel same_socket (tbl w) (tbl w')) ∧
  (∀ r w', uds_perform_write fuel minor src sz pretend w = Ret r w' →
           slots_rel same_socket (tbl w) (tbl w')) ∧
  (∀ r w', uds_unsuspend fuel src minor w = Ret r w' →
           slots_rel same_socket (tbl w) (tbl w')).
Proof.
  refine (conj _ (conj _ _)); intros r w' H;
    apply transfer_steps_same_socket.
  - eapply uds_perform_read_steps; eauto using any_backend_counts.
  - eapply uds_perform_write_steps; eauto using any_backend_counts.
  - eapply uds_unsuspend_steps; eauto using any_backend_counts.
Qed.

Hypothesis pipe_nonneg : 0 ≤ PIPE_BUF.

Lemma window_wf_zero : window_wf zero_fd.
Proof. unfold window_wf. simpl. lia. Qed.

Lemma handler_update_window_wf d x :
  handler_update (fun n r => 0 ≤ n ≤ r) d x → window_wf d → window_wf x.
Proof.
  unfold window_wf. intros H Hok.
  destruct H as [d x H| | | | | | | | | | | | | | |];
    [destruct H|..]; simpl; try lia.
  - unfold read_shift. cbv zeta.
    destruct (sz >? size d) eqn:Esz;
      destruct (size _ =? 0) eqn:E; simpl in *; lia.
Qed.

Lemma handler_updates_window_wf d x :
  rtc (handler_update (fun n r => 0 ≤ n ≤ r)) d x →
  window_wf d → window_wf x.
Proof.
  induction 1 as [|d y x Hdy _ IH]; [auto|].
  intros Hok. apply IH. eapply handler_update_window_wf; eauto.
Qed.

Lemma steps_window_wf t t' :
  slots_rel (rtc (handler_update (fun n r => 0 ≤ n ≤ r))) t t' →
  slots_rel (fun d d' => window_wf d → window_wf d') t t'.
Proof.
  apply slots_rel_mono. intros d d'. apply handler_updates_window_wf.
Qed.

(** X2.  With a backend that reports counts between 0 and the number of
    bytes asked for, every entry point that returns keeps the buffer window
    of every descriptor well formed: position and length stay
    non-negative, their sum stays within PIPE_BUF, and an empty buffer
    starts at position 0 again. *)
Theorem windows_stay_well_formed fuel dev_m_in src minor w :
  transfers_within_request →
  let kept t t' := slots_rel (fun d d' => window_wf d → window_wf d') t t' in
  (∀ r w', uds_open dev_m_in w = Ret r w' → kept (tbl w) (tbl w')) ∧
  (∀ r w', uds_close fuel dev_m_in w = Ret r w' → kept (tbl w) (tbl w')) ∧
  (∀ r w', uds_read fuel dev_m_in w = Ret r w' → kept (tbl w) (tbl w')) ∧
  (∀ r w', uds_write fuel dev_m_in w = Ret r w' → kept (tbl w) (tbl w')) ∧
  (∀ r w', uds_select fuel dev_m_in w = Ret r w' → kept (tbl w) (tbl w')) ∧
  (∀ r w', uds_unsuspend fuel src minor w = Ret r w' →
           kept (tbl w) (tbl w')) ∧
  (∀ r w', uds_cancel dev_m_in w = Ret r w' → kept (tbl w) (tbl w')).
Proof.
  intros Hb kept.
  refine (conj _ (conj _ (conj _ (conj _ (conj _ (conj _ _))))));
    intros r w' H; apply steps_window_wf.
  - eapply uds_open_steps; eauto.
  - eapply uds_close_steps; eauto.
  - eapply uds_read_steps; eauto.
  - eapply uds_write_steps; eauto.
  - eapply uds_select_steps; eauto.
  - apply transfer_to_handler. eapply uds_unsuspend_steps; eauto.
  - eapply uds_cancel_steps; eauto.
Qed.

End Frames.


(** ** Transfers that go through *)

Section Complete.

Context `{C : Consts} `{B : Backend}.

Variable unsuspend : Z → Z → M Z.

Lemma bind_call {A A'} (f : fs_state → fs_state * A) (k : A → M A') w b a :
  f (fs w) = (b, a) →
  bind (call f) k w = k a (mk_world (tbl w) b (sent w)).
Proof. intros H. unfold bind, call. rewrite H. reflexivity. Qed.

Lemma revive_if_not_suspended s p w dp :
  lookup_fd p (tbl w) = Some dp →
  suspended dp = UDS_NOT_SUSPENDED →
  revive_if_suspended unsuspend s p w = Ret tt w.
Proof.
  intros Hp Hs. rewrite (revive_if_suspended_run _ _ _ _ _ Hp), Hs.
  reflexivity.
Qed.

(** A write that passes every test, up to the revival of the peer. *)
Lemma write_to_peer_goes minor src sz fd p dp w b n :
  lookup_fd minor (tbl w) = Some fd →
  lookup_fd p (tbl w) = Some dp →
  has_bit (mode dp) S_IRUSR = true →
  (type fd =? SOCK_DGRAM) && (size dp >? 0) = false →
  (type fd =? SOCK_SEQPACKET) && (size dp >? 0) = false →
  pos dp + size dp + sz ≤ PIPE_BUF →
  fs_readwrite (fs w)
    (mk_rw_request REQ_WRITE (inode_nr dp) (io_gr fd) (pos dp + size dp) sz)
    = (b, (OK, n)) →
  write_to_peer unsuspend minor src sz 0 fd p w =
  (revive_if_suspended unsuspend src p ;;;
   pfd' <- get_fd p ;;
   (if (selecting pfd' =? 1) && (n >? 0)
    then notify_select unsuspend src p SEL_RD
    else ret tt) ;;;
   ret n)
    (mk_world (store_fd p (written fd dp n) (tbl w)) b (sent w)).
Proof.
  intros Hfd Hp Hr Hdg Hsq Hfit Hio. unfold write_to_peer.
  replace (p =? -1) with false by (apply lookup_fd_Some in Hp; lia).
  rewrite (bind_get_fd _ _ _ _ Hp). rewrite Hr, Hdg, Hsq. cbn [negb].
  replace (pos dp + size dp + sz >? PIPE_BUF) with false by lia.
  cbn [orb truthy Z.eqb negb].
  erewrite bind_call by exact Hio. cbn [fst snd].
  rewrite Z.eqb_refl. cbn [negb].
  erewrite bind_upd_fd by exact Hp. cbn [tbl fs sent].
  set (dp1 := set_size (size dp + n) dp).
  assert (Hp1 : lookup_fd p (store_fd p dp1 (tbl w)) = Some dp1)
    by (eapply lookup_store_eq; exact Hp).
  assert (Hfd1 : ∃ fd1, lookup_fd minor (store_fd p dp1 (tbl w)) = Some fd1 ∧
                        type fd1 = type fd ∧ addr fd1 = addr fd).
  { rewrite (lookup_store _ _ _ _ _ Hp).
    destruct (Z.eq_dec p minor) as [->|_]; [|eauto].
    rewrite Hp in Hfd. injection Hfd as <-. eauto. }
  destruct Hfd1 as (fd1 & Hfd1 & Ht & Ha).
  erewrite bind_get_fd by exact Hfd1. rewrite Ht, Ha.
  unfold written. fold dp1.
  destruct (type fd =? SOCK_DGRAM).
  - erewrite bind_upd_fd by exact Hp1. cbn [tbl fs sent]. rewrite store_store.
    reflexivity.
  - rewrite bind_ret. reflexivity.
Qed.

Lemma write_to_peer_completes minor src sz fd p dp w b n :
  lookup_fd minor (tbl w) = Some fd →
  lookup_fd p (tbl w) = Some dp →
  has_bit (mode dp) S_IRUSR = true →
  (type fd =? SOCK_DGRAM) && (size dp >? 0) = false →
  (type fd =? SOCK_SEQPACKET) && (size dp >? 0) = false →
  pos dp + size dp + sz ≤ PIPE_BUF →
  fs_readwrite (fs w)
    (mk_rw_request REQ_WRITE (inode_nr dp) (io_gr fd) (pos dp + size dp) sz)
    = (b, (OK, n)) →
  suspended dp = UDS_NOT_SUSPENDED →
  selecting dp ≠ 1 →
  write_to_peer unsuspend minor src sz 0 fd p w =
  Ret n (mk_world (store_fd p (written fd dp n) (tbl w)) b (sent w)).
Proof.
  intros Hfd Hp Hr Hdg Hsq Hfit Hio Hsus Hsel.
  rewrite (write_to_peer_goes _ _ _ _ _ _ _ _ _ Hfd Hp Hr Hdg Hsq Hfit Hio).
  assert (Hp1 : lookup_fd p (store_fd p (written fd dp n) (tbl w))
                = Some (written fd dp n))
    by (eapply lookup_store_eq; exact Hp).
  assert (Hs1 : suspended (written fd dp n) = UDS_NOT_SUSPENDED)
    by (unfold written; cbv zeta; destruct (type fd =? SOCK_DGRAM);
        exact Hsus).
  assert (Hsel1 : (selecting (written fd dp n) =? 1) = false)
    by (unfold written; cbv zeta; destruct (type fd =? SOCK_DGRAM);
        simpl; lia).
  unfold bind at 1. erewrite revive_if_not_suspended; eauto.
  erewrite bind_get_fd by exact Hp1. rewrite Hsel1. reflexivity.
Qed.

(** A stream or seqpacket writer with a peer passes the head of
    uds_perform_write. *)
Lemma write_connected minor src sz pretend w fd :
  lookup_fd minor (tbl w) = Some fd → 0 < sz ≤ PIPE_BUF →
  has_bit (mode fd) S_IWUSR = true →
  connection_oriented fd → peer fd ≠ -1 →
  uds_perform_write_with unsuspend minor src sz pretend w =
  write_to_peer unsuspend minor src sz pretend fd (peer fd) w.
Proof.
  intros Hd Hsz Hm Ht Hp. unfold uds_perform_write_with.
  replace (sz <=? 0) with false by lia.
  rewrite (bind_get_fd _ _ _ _ Hd). rewrite Hm.
  replace (sz >? PIPE_BUF) with false by lia.
  rewrite (connection_oriented_true _ Ht).
  replace (peer fd =? -1) with false by lia. reflexivity.
Qed.

(** A read that finds data, up to the revival of the peer. *)
Lemma read_goes minor src sz fd w b n :
  lookup_fd minor (tbl w) = Some fd →
  0 < sz →
  has_bit (mode fd) S_IRUSR = true →
  size fd ≠ 0 →
  fs_readwrite (fs w)
    (mk_rw_request REQ_READ (inode_nr fd) (io_gr fd) (pos fd)
       (if sz >? size fd then size fd else sz))
    = (b, (OK, n)) →
  uds_perform_read_with unsuspend minor src sz 0 w =
  ((if peer fd =? -1 then ret tt
    else revive_if_suspended unsuspend src (peer fd)) ;;;
   (if peer fd =? -1 then ret tt else
      pfd <- get_fd (peer fd) ;;
      fd' <- get_fd minor ;;
      if (selecting pfd =? 1) && (size fd' + pos fd' + 1 <? PIPE_BUF)
      then notify_select unsuspend src (peer fd) SEL_WR
      else ret tt) ;;;
   ret n)
    (mk_world (store_fd minor (read_shift n fd) (tbl w)) b (sent w)).
Proof.
  intros Hfd Hsz Hr Hne Hio. unfold uds_perform_read_with.
  rewrite (bind_get_fd _ _ _ _ Hfd).
  replace (sz <=? 0) with false by lia. rewrite Hr. cbn [negb].
  replace (size fd =? 0) with false by lia. cbn [truthy Z.eqb negb].
  erewrite bind_call by exact Hio. cbn [fst snd].
  rewrite Z.eqb_refl. cbn [negb].
  erewrite bind_upd_fd by exact Hfd. cbn [tbl fs sent].
  erewrite bind_upd_fd by (eapply lookup_store_eq; exact Hfd).
  cbn [tbl fs sent]. rewrite store_store.
  erewrite bind_upd_fd by (eapply lookup_store_eq; exact Hfd).
  cbn [tbl fs sent]. rewrite store_store.
  reflexivity.
Qed.

Lemma read_completes minor src sz fd w b n :
  lookup_fd minor (tbl w) = Some fd →
  0 < sz →
  has_bit (mode fd) S_IRUSR = true →
  size fd ≠ 0 →
  fs_readwrite (fs w)
    (mk_rw_request REQ_READ (inode_nr fd) (io_gr fd) (pos fd)
       (if sz >? size fd then size fd else sz))
    = (b, (OK, n)) →
  (peer fd = -1 ∨
   ∃ dp, lookup_fd (peer fd) (tbl w) = Some dp ∧ peer fd ≠ minor ∧
         suspended dp = UDS_NOT_SUSPENDED ∧ selecting dp ≠ 1) →
  uds_perform_read_with unsuspend minor src sz 0 w =
  Ret n (mk_world (store_fd minor (read_shift n fd) (tbl w)) b (sent w)).
Proof.
  intros Hfd Hsz Hr Hne Hio Hpeer.
  rewrite (read_goes _ _ _ _ _ _ _ Hfd Hsz Hr Hne Hio).
  destruct Hpeer as [Hnone|(dp & Hdp & Hneq & Hsus & Hsel)].
  - rewrite Hnone. reflexivity.
  - replace (peer fd =? -1) with false by (apply lookup_fd_Some in Hdp; lia).
    assert (Hdp' : lookup_fd (peer fd)
                     (store_fd minor (read_shift n fd) (tbl w)) = Some dp).
    { rewrite lookup_store_ne; [exact Hdp | | congruence].
      apply (lookup_fd_Some _ _ _ Hfd). }
    unfold bind at 1. erewrite revive_if_not_suspended; eauto.
    unfold bind at 1. erewrite bind_get_fd by exact Hdp'.
    erewrite bind_get_fd by (eapply lookup_store_eq; exact Hfd).
    replace (selecting dp =? 1) with false by lia. reflexivity.
Qed.

End Complete.

Section Resume.

Context `{C : Consts} `{B : Backend}.

Variables perform_read perform_write : Z → Z → Z → Z → M Z.

(** The revival of a suspended transfer whose retry goes through. *)
Lemma unsuspend_retry_completes op src minor w d n w2 d2 :
  lookup_fd minor (tbl w) = Some d →
  status_updated d ≠ 1 →
  ready_to_revive d = 1 →
  suspended d = suspension_of op →
  match op with Read => perform_read | Write => perform_write end
    minor src (io_gr_size d) 0
    (mk_world (store_fd minor (set_ready_to_revive 0 d) (tbl w))
       (fs w) (sent w)) = Ret n w2 →
  n ≠ SUSPEND →
  lookup_fd minor (tbl w2) = Some d2 →
  uds_unsuspend_with perform_read perform_write src minor w =
  Ret OK
    (mk_world (store_fd minor (set_suspended UDS_NOT_SUSPENDED d2) (tbl w2))
       (fs w2)
       ((src, Some (uds_set_reply DEV_REVIVE (endpoint d2) (io_gr d2) n))
          :: sent w2)).
Proof.
  intros Hd Hs Hr Hsusp Hrun Hn Hd2. unfold uds_unsuspend_with.
  rewrite (bind_get_fd _ _ _ _ Hd).
  replace (status_updated d =? 1) with false by lia.
  rewrite Hr. simpl.
  rewrite (bind_upd_fd _ _ _ _ _ Hd). rewrite Hsusp.
  destruct op; simpl; unfold bind at 1; rewrite Hrun;
    replace (n =? SUSPEND) with false by lia;
    erewrite bind_upd_fd by exact Hd2;
    erewrite bind_get_fd by (eapply lookup_store_eq; exact Hd2);
    rewrite finish_OK; reflexivity.
Qed.

End Resume.

Section Compose.

Context `{C : Consts} `{B : Backend}.

Lemma read_shift_all d : read_shift (size d) d = drained d.
Proof.
  unfold read_shift, drained. cbv zeta. destruct d. simpl.
  rewrite Z.sub_diag. simpl. reflexivity.
Qed.

Lemma written_drained fd d n :
  (type fd =? SOCK_DGRAM) = false →
  written fd (drained d) n = set_pos 0 (set_size n d).
Proof.
  intros Ht. unfold written, drained. rewrite Ht. cbv zeta.
  destruct d. reflexivity.
Qed.

Lemma store_fd_commute i j x y (t : list uds_fd) :
  0 ≤ i → 0 ≤ j → i ≠ j →
  store_fd i x (store_fd j y t) = store_fd j y (store_fd i x t).
Proof.
  intros Hi Hj Hne. unfold store_fd. apply list_insert_insert_ne. lia.
Qed.

(** A read that drains the buffer completes the blocked write of the
    peer: the writer, suspended in a write of io_gr_size bytes that fits
    the empty pipe, is revived within the same call. *)
Lemma read_wakes_writer f a b src sz w da db b1 b2 n :
  lookup_fd a (tbl w) = Some da →
  lookup_fd b (tbl w) = Some db →
  a ≠ b →
  has_bit (mode db) S_IRUSR = true →
  0 < size db ≤ sz →
  peer db = a →
  suspended db = UDS_NOT_SUSPENDED → selecting db ≠ 1 →
  suspended da = UDS_SUSPENDED_WRITE →
  status_updated da ≠ 1 → selecting da ≠ 1 →
  has_bit (mode da) S_IWUSR = true →
  connection_oriented da → type da ≠ SOCK_DGRAM →
  peer da = b →
  0 < io_gr_size da ≤ PIPE_BUF →
  fs_readwrite (fs w)
    (mk_rw_request REQ_READ (inode_nr db) (io_gr db) (pos db) (size db))
    = (b1, (OK, size db)) →
  fs_readwrite b1
    (mk_rw_request REQ_WRITE (inode_nr db) (io_gr da) 0 (io_gr_size da))
    = (b2, (OK, n)) →
  n ≠ SUSPEND →
  uds_perform_read (S f) b src sz 0 w =
  Ret (size db)
    (mk_world
       (store_fd a
          (set_suspended UDS_NOT_SUSPENDED (set_ready_to_revive 0 da))
          (store_fd b (set_pos 0 (set_size n db)) (tbl w)))
       b2
       ((src, Some (uds_set_reply DEV_REVIVE (endpoint da) (io_gr da) n))
          :: sent w)).
Proof.
  intros Ha Hb Hab Hrb Hsize Hpb Hsb Hslb Hsa Hsta Hsla Hwa Hco Hnd Hpa Hk
    Hrd Hwr Hn.
  assert (Hdg : (type da =? SOCK_DGRAM) = false) by lia.
  assert (Ha0 : 0 ≤ a) by apply (lookup_fd_Some _ _ _ Ha).
  assert (Hb0 : 0 ≤ b) by apply (lookup_fd_Some _ _ _ Hb).
  unfold uds_perform_read.
  (* the read itself *)
  rewrite (read_goes _ b src sz db w b1 (size db) Hb); [| lia | exact Hrb | lia |].
  2: { replace (if sz >? size db then size db else sz) with (size db)
         by (destruct (sz >? size db) eqn:E; lia).
       exact Hrd. }
  rewrite read_shift_all, Hpb.
  replace (a =? -1) with false by lia.
  set (T1 := store_fd b (drained db) (tbl w)).
  assert (Ha1 : lookup_fd a T1 = Some da)
    by (unfold T1; rewrite lookup_store_ne; [exact Ha | exact Hb0 | congruence]).
  assert (Hb1 : lookup_fd b T1 = Some (drained db))
    by (eapply lookup_store_eq; exact Hb).
  (* the writer is suspended: it is revived *)
  unfold bind at 1.
  erewrite revive_if_suspended_run by exact Ha1.
  rewrite Hsa. cbn [is_suspended tbl fs sent].
  set (T2 := store_fd a (set_ready_to_revive 1 da) T1).
  assert (Ha2 : lookup_fd a T2 = Some (set_ready_to_revive 1 da))
    by (eapply lookup_store_eq; exact Ha1).
  set (da3 := set_ready_to_revive 0 da).
  set (T3 := store_fd a da3 T1).
  assert (Ha3 : lookup_fd a T3 = Some da3)
    by (eapply lookup_store_eq; exact Ha1).
  assert (Hb3 : lookup_fd b T3 = Some (drained db))
    by (unfold T3; rewrite lookup_store_ne; [exact Hb1 | exact Ha0 | congruence]).
  set (T4 := store_fd b (written da3 (drained db) n) T3).
  assert (Ha4 : lookup_fd a T4 = Some da3)
    by (unfold T4; rewrite lookup_store_ne; [exact Ha3 | exact Hb0 | congruence]).
  (* its write goes through *)
  assert (Hwrite :
    uds_perform_write_with (uds_unsuspend f) a src (io_gr_size da) 0
      (mk_world T3 b1 (sent w)) = Ret n (mk_world T4 b2 (sent w))).
  { rewrite (write_connected _ a src (io_gr_size da) 0
               (mk_world T3 b1 (sent w)) da3 Ha3 Hk Hwa Hco)
      by (change (peer da3) with (peer da); rewrite Hpa; lia).
    change (peer da3) with (peer da). rewrite Hpa.
    apply (write_to_peer_completes _ a src (io_gr_size da) da3 b (drained db)
             (mk_world T3 b1 (sent w)) b2 n Ha3 Hb3 Hrb).
    - change (type da3) with (type da). rewrite Hdg. reflexivity.
    - apply andb_false_r.
    - simpl. lia.
    - exact Hwr.
    - exact Hsb.
    - exact Hslb. }
  assert (Hrev :
    uds_unsuspend (S f) src a (mk_world T2 b1 (sent w)) =
    Ret OK
      (mk_world (store_fd a (set_suspended UDS_NOT_SUSPENDED da3) T4) b2
         ((src, Some (uds_set_reply DEV_REVIVE (endpoint da) (io_gr da) n))
            :: sent w))).
  { cbn [uds_unsuspend].
    apply (unsuspend_retry_completes _ _ Write src a (mk_world T2 b1 (sent w))
             (set_ready_to_revive 1 da) n (mk_world T4 b2 (sent w)) da3).
    - exact Ha2.
    - exact Hsta.
    - reflexivity.
    - exact Hsa.
    - cbn [tbl fs sent]. unfold T2. rewrite store_store. exact Hwrite.
    - exact Hn.
    - exact Ha4. }
  unfold bind at 1. rewrite Hrev. cbv beta iota. unfold ret at 1.
  (* back in the read: the writer is not selecting *)
  set (T5 := store_fd a (set_suspended UDS_NOT_SUSPENDED da3) T4).
  assert (Ha5 : lookup_fd a T5 = Some (set_suspended UDS_NOT_SUSPENDED da3))
    by (eapply lookup_store_eq; exact Ha4).
  assert (Hb5 : is_Some (lookup_fd b T5)).
  { unfold T5. rewrite lookup_store_ne; [|exact Ha0|congruence].
    unfold T4. rewrite lookup_store_eq_is_Some; eauto. }
  destruct Hb5 as [db5 Hb5].
  unfold bind at 1. erewrite bind_get_fd by exact Ha5.
  erewrite bind_get_fd by exact Hb5.
  replace (selecting (set_suspended UDS_NOT_SUSPENDED da3) =? 1) with false
    by (simpl; lia).
  cbn [andb]. unfold ret at 1. unfold ret.
  f_equal. f_equal.
  unfold T5, T4, T3, T1.
  rewrite written_drained by exact Hdg.
  rewrite (store_fd_commute b a (set_pos 0 (set_size n db)) da3
             (store_fd b (drained db) (tbl w)) Hb0 Ha0 (not_eq_sym Hab)).
  rewrite !store_store. reflexivity.
Qed.

(** A write completes the blocked read of the peer: the reader,
    suspended in a read on an empty buffer, is revived within the same
    call and reads from the position the write stored at. *)
Lemma write_wakes_reader f a b src sz w da db b1 b2 n m :
  lookup_fd a (tbl w) = Some da →
  lookup_fd b (tbl w) = Some db →
  a ≠ b →
  has_bit (mode da) S_IWUSR = true →
  connection_oriented da → type da ≠ SOCK_DGRAM →
  peer da = b →
  suspended da = UDS_NOT_SUSPENDED → selecting da ≠ 1 →
  0 < sz ≤ PIPE_BUF →
  has_bit (mode db) S_IRUSR = true →
  size db = 0 → pos db + sz ≤ PIPE_BUF →
  peer db = a →
  suspended db = UDS_SUSPENDED_READ →
  status_updated db ≠ 1 → selecting db ≠ 1 →
  0 < io_gr_size db →
  fs_readwrite (fs w)
    (mk_rw_request REQ_WRITE (inode_nr db) (io_gr da) (pos db) sz)
    = (b1, (OK, n)) →
  0 < n →
  fs_readwrite b1
    (mk_rw_request REQ_READ (inode_nr db) (io_gr db) (pos db)
       (if io_gr_size db >? n then n else io_gr_size db))
    = (b2, (OK, m)) →
  m ≠ SUSPEND →
  uds_perform_write (S f) a src sz 0 w =
  Ret n
    (mk_world
       (store_fd b
          (set_suspended UDS_NOT_SUSPENDED
             (read_shift m (set_ready_to_revive 0 (set_size n db))))
          (tbl w))
       b2
       ((src, Some (uds_set_reply DEV_REVIVE (endpoint db) (io_gr db) m))
          :: sent w)).
Proof.
  intros Ha Hb Hab Hwa Hco Hnd Hpa Hsa Hsla Hsz Hrb Hsize Hfit Hpb Hsb Hstb
    Hslb Hk Hwr Hn Hrd Hm.
  assert (Hdg : (type da =? SOCK_DGRAM) = false) by lia.
  assert (Ha0 : 0 ≤ a) by apply (lookup_fd_Some _ _ _ Ha).
  assert (Hb0 : 0 ≤ b) by apply (lookup_fd_Some _ _ _ Hb).
  assert (Hwritten : written da db n = set_size n db).
  { unfold written. rewrite Hdg. cbv zeta. rewrite Hsize. reflexivity. }
  unfold uds_perform_write.
  rewrite (write_connected _ a src sz 0 w da Ha Hsz Hwa Hco)
    by (rewrite Hpa; lia).
  rewrite Hpa.
  rewrite (write_to_peer_goes _ a src sz da b db w b1 n Ha Hb Hrb).
  2: { rewrite Hdg. reflexivity. }
  2: { rewrite Hsize. apply andb_false_r. }
  2: { lia. }
  2: { rewrite Hsize, Z.add_0_r. exact Hwr. }
  rewrite Hwritten.
  set (db1 := set_size n db).
  set (T1 := store_fd b db1 (tbl w)).
  assert (Hb1 : lookup_fd b T1 = Some db1)
    by (eapply lookup_store_eq; exact Hb).
  (* the reader is suspended: it is revived *)
  unfold bind at 1.
  erewrite revive_if_suspended_run by exact Hb1.
  change (suspended db1) with (suspended db). rewrite Hsb.
  cbn [is_suspended tbl fs sent].
  set (T2 := store_fd b (set_ready_to_revive 1 db1) T1).
  assert (Hb2 : lookup_fd b T2 = Some (set_ready_to_revive 1 db1))
    by (eapply lookup_store_eq; exact Hb1).
  set (db3 := set_ready_to_revive 0 db1).
  set (T3 := store_fd b db3 (tbl w)).
  assert (Hb3 : lookup_fd b T3 = Some db3)
    by (eapply lookup_store_eq; exact Hb).
  assert (Ha3 : lookup_fd a T3 = Some da)
    by (unfold T3; rewrite lookup_store_ne; [exact Ha | exact Hb0 | congruence]).
  set (T4 := store_fd b (read_shift m db3) T3).
  assert (Hb4 : lookup_fd b T4 = Some (read_shift m db3))
    by (eapply lookup_store_eq; exact Hb3).
  (* its read goes through *)
  assert (Hread :
    uds_perform_read_with (uds_unsuspend f) b src (io_gr_size db) 0
      (mk_world T3 b1 (sent w)) = Ret m (mk_world T4 b2 (sent w))).
  { apply (read_completes _ b src (io_gr_size db) db3
             (mk_world T3 b1 (sent w)) b2 m Hb3 Hk Hrb).
    - simpl. lia.
    - exact Hrd.
    - right. exists da. change (peer db3) with (peer db). rewrite Hpb.
      refine (conj Ha3 (conj Hab (conj Hsa Hsla))). }
  assert (Hrev :
    uds_unsuspend (S f) src b (mk_world T2 b1 (sent w)) =
    Ret OK
      (mk_world
         (store_fd b (set_suspended UDS_NOT_SUSPENDED (read_shift m db3)) T4)
         b2
         ((src, Some (uds_set_reply DEV_REVIVE (endpoint db) (io_gr db) m))
            :: sent w))).
  { cbn [uds_unsuspend].
    assert (He : endpoint (read_shift m db3) = endpoint db ∧
                 io_gr (read_shift m db3) = io_gr db).
    { unfold read_shift. cbv zeta. destruct (size _ =? 0); split; reflexivity. }
    destruct He as [He1 He2]. rewrite <- He1, <- He2.
    apply (unsuspend_retry_completes _ _ Read src b (mk_world T2 b1 (sent w))
             (set_ready_to_revive 1 db1) m (mk_world T4 b2 (sent w))
             (read_shift m db3)).
    - exact Hb2.
    - exact Hstb.
    - reflexivity.
    - exact Hsb.
    - cbn [tbl fs sent]. unfold T2, T1. rewrite !store_store. exact Hread.
    - exact Hm.
    - exact Hb4. }
  unfold bind at 1. rewrite Hrev. cbv beta iota. unfold ret at 1.
  (* back in the write: the reader is not selecting *)
  set (T5 := store_fd b (set_suspended UDS_NOT_SUSPENDED (read_shift m db3)) T4).
  assert (Hb5 : lookup_fd b T5
                = Some (set_suspended UDS_NOT_SUSPENDED (read_shift m db3)))
    by (eapply lookup_store_eq; exact Hb4).
  erewrite bind_get_fd by exact Hb5.
  assert (Hsel5 : (selecting (set_suspended UDS_NOT_SUSPENDED
                                (read_shift m db3)) =? 1) = false).
  { unfold read_shift. cbv zeta. destruct (size _ =? 0); simpl; lia. }
  rewrite Hsel5. cbn [andb]. unfold bind, ret.
  f_equal. f_equal.
  unfold T5, T4, T3. rewrite !store_store. reflexivity.
Qed.

End Compose.


(** ** Refusals, blocking and end of file *)

Section Edges.

Context `{C : Consts} `{B : Backend}.

(** X3.  On a slot of the table that is not in use, uds_read and uds_write
    answer EINVAL in a DEV_REVIVE reply to the caller, uds_select answers
    EINVAL in a select reply, and uds_cancel returns SUSPEND with no reply;
    none of them changes the state. *)
Theorem free_slot_is_refused fuel dev_m_in w d :
  lookup_fd (uds_minor dev_m_in) (tbl w) = Some d →
  state d ≠ UDS_INUSE →
  let refusal :=
    Some (uds_set_reply DEV_REVIVE (USER_ENDPT dev_m_in) (IO_GRANT dev_m_in)
            EINVAL) in
  uds_read fuel dev_m_in w = Ret (EINVAL, refusal) w ∧
  uds_write fuel dev_m_in w = Ret (EINVAL, refusal) w ∧
  uds_select fuel dev_m_in w =
    Ret (EINVAL,
         Some (uds_sel_reply DEV_SEL_REPL1 (uds_minor dev_m_in) EINVAL)) w ∧
  uds_cancel dev_m_in w = Ret (SUSPEND, None) w.
Proof.
  intros Hd Hs refusal.
  assert (Hu : negb (in_use d) = true)
    by (unfold in_use; destruct (state d); [reflexivity | congruence]).
  unfold uds_read, uds_write, uds_select, uds_cancel.
  rewrite !(bind_get_fd _ _ _ _ Hd), Hu. auto.
Qed.

Lemma not_connection_oriented d :
  ¬ connection_oriented d →
  (type d =? SOCK_STREAM) || (type d =? SOCK_SEQPACKET) = false.
Proof.
  intros Hn. unfold connection_oriented in Hn.
  apply orb_false_intro; apply Z.eqb_neq; intros E; apply Hn; auto.
Qed.

(** A read with an empty buffer on a socket whose peer is open for
    writing and not suspended. *)
Lemma read_blocks_connected (u : Z → Z → M Z) minor src sz w d dp :
  lookup_fd minor (tbl w) = Some d →
  0 < sz → has_bit (mode d) S_IRUSR = true → size d = 0 →
  peer d ≠ -1 →
  lookup_fd (peer d) (tbl w) = Some dp →
  has_bit (mode dp) S_IWUSR = true →
  suspended dp = UDS_NOT_SUSPENDED →
  uds_perform_read_with u minor src sz 0 w =
  Ret SUSPEND
    (mk_world (store_fd minor (set_suspended UDS_SUSPENDED_READ d) (tbl w))
       (fs w) (sent w)).
Proof.
  intros Hd Hsz Hm Hs Hp Hdp Hw Hsus.
  unfold uds_perform_read_with.
  rewrite (bind_get_fd _ _ _ _ Hd).
  replace (sz <=? 0) with false by lia. rewrite Hm, Hs. cbn [negb Z.eqb].
  replace (peer d =? -1) with false by lia. cbn [andb].
  fwd. rewrite (bind_get_fd _ _ _ _ Hdp). fwd. rewrite Hw.
  cbn [negb truthy Z.eqb]. fwd.
  unfold bind at 1. erewrite revive_if_suspended_run by exact Hdp.
  rewrite Hsus. cbn [is_suspended].
  rewrite (bind_upd_fd _ _ _ _ _ Hd). reflexivity.
Qed.

(** X4.  A read with an empty buffer blocks: on a readable socket whose
    peer is still open for writing and not itself suspended (or, for a
    socket that is not connection oriented, with no peer at all), it
    returns SUSPEND, marks the reader suspended in a read and does nothing
    else: no byte is moved and no reply is sent. *)
Theorem read_blocks_on_empty_buffer fuel minor src sz w d :
  lookup_fd minor (tbl w) = Some d →
  0 < sz → has_bit (mode d) S_IRUSR = true → size d = 0 →
  (peer d = -1 ∧ ¬ connection_oriented d) ∨
  (peer d ≠ -1 ∧
   ∃ dp, lookup_fd (peer d) (tbl w) = Some dp ∧
         has_bit (mode dp) S_IWUSR = true ∧
         suspended dp = UDS_NOT_SUSPENDED) →
  uds_perform_read fuel minor src sz 0 w =
  Ret SUSPEND
    (mk_world (store_fd minor (set_suspended UDS_SUSPENDED_READ d) (tbl w))
       (fs w) (sent w)).
Proof.
  intros Hd Hsz Hm Hs Hp. unfold uds_perform_read.
  destruct Hp as [[Hp Hn] | (Hp & dp & Hdp & Hw & Hsus)].
  - unfold uds_perform_read_with.
    rewrite (bind_get_fd _ _ _ _ Hd).
    replace (sz <=? 0) with false by lia. rewrite Hm, Hs. cbn [negb Z.eqb].
    rewrite Hp, (not_connection_oriented _ Hn). cbn [Z.eqb Pos.eqb andb].
    fwd. cbn [truthy Z.eqb negb]. fwd.
    rewrite (bind_upd_fd _ _ _ _ _ Hd). reflexivity.
  - eapply read_blocks_connected; eauto.
Qed.

(** X5.  End of file: a read with an empty buffer on a socket whose peer
    has shut down writing returns 0 and leaves the state as it is, in
    probe mode or not. *)
Theorem read_end_of_file fuel minor src sz pretend w d dp :
  lookup_fd minor (tbl w) = Some d →
  0 < sz → has_bit (mode d) S_IRUSR = true → size d = 0 →
  peer d ≠ -1 →
  lookup_fd (peer d) (tbl w) = Some dp →
  has_bit (mode dp) S_IWUSR = false →
  uds_perform_read fuel minor src sz pretend w = Ret 0 w.
Proof.
  intros Hd Hsz Hm Hs Hp Hdp Hw.
  unfold uds_perform_read, uds_perform_read_with.
  rewrite (bind_get_fd _ _ _ _ Hd).
  replace (sz <=? 0) with false by lia. rewrite Hm, Hs. cbn [negb Z.eqb].
  replace (peer d =? -1) with false by lia. cbn [andb].
  fwd. rewrite (bind_get_fd _ _ _ _ Hdp). fwd. rewrite Hw. reflexivity.
Qed.

(** A write within the pipe on a writable socket goes to the peer it
    resolves, when there is one. *)
Lemma write_resolved (u : Z → Z → M Z) minor src sz pretend w d :
  lookup_fd minor (tbl w) = Some d → 0 < sz ≤ PIPE_BUF →
  has_bit (mode d) S_IWUSR = true →
  resolved_peer d (tbl w) ≠ -1 →
  uds_perform_write_with u minor src sz pretend w =
  write_to_peer u minor src sz pretend d (resolved_peer d (tbl w)) w.
Proof.
  intros Hd Hsz Hm Hp. unfold uds_perform_write_with, resolved_peer in *.
  replace (sz <=? 0) with false by lia.
  rewrite (bind_get_fd _ _ _ _ Hd). rewrite Hm.
  replace (sz >? PIPE_BUF) with false by lia. cbn [negb].
  destruct ((type d =? SOCK_STREAM) || (type d =? SOCK_SEQPACKET)).
  - replace (peer d =? -1) with false by lia. reflexivity.
  - rewrite bind_get_tbl. reflexivity.
Qed.

(** A write that does not fit the pipe of a peer that is not suspended. *)
Lemma write_to_peer_blocks (u : Z → Z → M Z) minor src sz w d p dp :
  lookup_fd minor (tbl w) = Some d →
  lookup_fd p (tbl w) = Some dp →
  has_bit (mode dp) S_IRUSR = true →
  (type d = SOCK_DGRAM → size dp ≤ 0) →
  PIPE_BUF < pos dp + size dp + sz ∨
  (type d = SOCK_SEQPACKET ∧ 0 < size dp) →
  suspended dp = UDS_NOT_SUSPENDED →
  write_to_peer u minor src sz 0 d p w =
  Ret SUSPEND
    (mk_world (store_fd minor (set_suspended UDS_SUSPENDED_WRITE d) (tbl w))
       (fs w) (sent w)).
Proof.
  intros Hd Hdp Hr Hdg Hfull Hsus. unfold write_to_peer.
  replace (p =? -1) with false by (apply lookup_fd_Some in Hdp; lia).
  rewrite (bind_get_fd _ _ _ _ Hdp). rewrite Hr. cbn [negb].
  assert (E1 : (type d =? SOCK_DGRAM) && (size dp >? 0) = false).
  { destruct (Z.eqb_spec (type d) SOCK_DGRAM) as [E|E]; [|reflexivity].
    specialize (Hdg E). cbn [andb]. lia. }
  rewrite E1.
  assert (E2 : (pos dp + size dp + sz >? PIPE_BUF) ||
               (type d =? SOCK_SEQPACKET) && (size dp >? 0) = true).
  { destruct Hfull as [Hf | [Ht Hs]].
    - replace (pos dp + size dp + sz >? PIPE_BUF) with true by lia.
      reflexivity.
    - rewrite Ht, Z.eqb_refl.
      replace (size dp >? 0) with true by lia. apply orb_true_r. }
  rewrite E2. cbn [truthy Z.eqb negb]. fwd.
  unfold bind at 1. erewrite revive_if_suspended_run by exact Hdp.
  rewrite Hsus. cbn [is_suspended].
  rewrite (bind_upd_fd _ _ _ _ _ Hd). reflexivity.
Qed.

(** X6.  A write that does not fit blocks: when the bytes would pass the
    end of the pipe of the peer, or the peer of a seqpacket socket still
    holds a packet, and the peer is not itself suspended, the write returns
    SUSPEND, marks the writer suspended in a write and does nothing else. *)
Theorem write_blocks_on_full_pipe fuel minor src sz w d dp :
  lookup_fd minor (tbl w) = Some d →
  0 < sz ≤ PIPE_BUF → has_bit (mode d) S_IWUSR = true →
  resolved_peer d (tbl w) ≠ -1 →
  lookup_fd (resolved_peer d (tbl w)) (tbl w) = Some dp →
  has_bit (mode dp) S_IRUSR = true →
  (type d = SOCK_DGRAM → size dp ≤ 0) →
  PIPE_BUF < pos dp + size dp + sz ∨
  (type d = SOCK_SEQPACKET ∧ 0 < size dp) →
  suspended dp = UDS_NOT_SUSPENDED →
  uds_perform_write fuel minor src sz 0 w =
  Ret SUSPEND
    (mk_world (store_fd minor (set_suspended UDS_SUSPENDED_WRITE d) (tbl w))
       (fs w) (sent w)).
Proof.
  intros Hd Hsz Hm Hp Hdp Hr Hdg Hfull Hsus.
  unfold uds_perform_write.
  rewrite (write_resolved _ _ _ _ _ _ _ Hd Hsz Hm Hp).
  eapply write_to_peer_blocks; eauto.
Qed.

(** X7.  The refusals of a write change nothing: a size above PIPE_BUF is
    answered EMSGSIZE, a peer that has shut down reading EPIPE, and a
    datagram whose target address no socket is bound to ENOENT; each leaves
    the descriptors, the stored bytes and the replies as they were. *)
Theorem write_refusals fuel minor src sz w d :
  lookup_fd minor (tbl w) = Some d →
  0 < sz → has_bit (mode d) S_IWUSR = true →
  (PIPE_BUF < sz →
   ∀ pretend,
     uds_perform_write fuel minor src sz pretend w = Ret EMSGSIZE w) ∧
  (sz ≤ PIPE_BUF → resolved_peer d (tbl w) ≠ -1 →
   ∀ dp pretend,
     lookup_fd (resolved_peer d (tbl w)) (tbl w) = Some dp →
     has_bit (mode dp) S_IRUSR = false →
     uds_perform_write fuel minor src sz pretend w = Ret EPIPE w) ∧
  (sz ≤ PIPE_BUF → ¬ connection_oriented d →
   no_hit (dgram_bound_to (target d)) (tbl w) →
   uds_perform_write fuel minor src sz 0 w = Ret ENOENT w).
Proof.
  intros Hd Hsz Hm. refine (conj _ (conj _ _)).
  - intros Hbig pretend. apply (write_too_big _ _ _ _ _ _ d); auto.
  - intros Hle Hp dp pretend Hdp Hr. unfold uds_perform_write.
    rewrite (write_resolved _ _ _ _ _ _ _ Hd (conj Hsz Hle) Hm Hp).
    unfold write_to_peer.
    replace (resolved_peer d (tbl w) =? -1) with false by lia.
    rewrite (bind_get_fd _ _ _ _ Hdp). rewrite Hr. reflexivity.
  - intros Hle Hn Hno. unfold uds_perform_write, uds_perform_write_with.
    replace (sz <=? 0) with false by lia.
    rewrite (bind_get_fd _ _ _ _ Hd). rewrite Hm.
    replace (sz >? PIPE_BUF) with false by lia. cbn [negb].
    rewrite (not_connection_oriented _ Hn). rewrite bind_get_tbl.
    rewrite (scan_from_no_hit _ _ Hno). reflexivity.
Qed.

End Edges.

(** ** Opening and closing *)

Section Open.

Context `{C : Consts} `{B : Backend}.

(** The loop of uds_open, which starts at slot 1. *)
Lemma scan_from_1 test (t : list uds_fd) :
  let minor := scan_from test 1 (drop 1 t) in
  (minor = -1 ∧
   ∀ i d, 1 ≤ i → lookup_fd i t = Some d → test d = false) ∨
  (1 ≤ minor ∧
   (∃ d, lookup_fd minor t = Some d ∧ test d = true) ∧
   ∀ j dj, 1 ≤ j < minor → lookup_fd j t = Some dj → test dj = false).
Proof.
  intros minor. subst minor.
  destruct (scan_from_cases test (drop 1 t) 1)
    as [[Hr Hall]|(n & d & Hr & Hn & Hd & Hlow)].
  - left. split; [exact Hr|]. intros i d Hi Hl.
    destruct (lookup_fd_Some _ _ _ Hl) as [_ Hl'].
    apply (Hall (Z.to_nat i - 1)%nat d). rewrite lookup_drop.
    replace (1 + (Z.to_nat i - 1))%nat with (Z.to_nat i) by lia. exact Hl'.
  - right. rewrite Hr. rewrite lookup_drop in Hn.
    refine (conj _ (conj _ _)); [lia | |].
    + exists d. split; [|exact Hd]. unfold lookup_fd.
      replace (0 <=? 1 + Z.of_nat n) with true by lia.
      replace (Z.to_nat (1 + Z.of_nat n)) with (1 + n)%nat by lia. exact Hn.
    + intros j dj Hj Hl. destruct (lookup_fd_Some _ _ _ Hl) as [_ Hl'].
      apply (Hlow (Z.to_nat j - 1)%nat dj); [lia|]. rewrite lookup_drop.
      replace (1 + (Z.to_nat j - 1))%nat with (Z.to_nat j) by lia. exact Hl'.
Qed.

Lemma state_free_eqb d :
  UDS_STATE_eqb (state d) UDS_FREE = true ↔ state d = UDS_FREE.
Proof. destruct (state d); simpl; split; congruence. Qed.

Lemma state_not_free_eqb d :
  UDS_STATE_eqb (state d) UDS_FREE = false ↔ state d ≠ UDS_FREE.
Proof. destruct (state d); simpl; split; congruence. Qed.

(** X8.  uds_open always returns, and what it returns follows from the
    table and from the answers of the two collaborators.  When no slot from
    1 on is free it answers ENFILE and changes nothing.  Otherwise it picks
    the lowest free slot from 1 on and asks getnucred for the credentials
    of the caller.  If getnucred answers -1, the slot is zeroed again and
    the error number of getnucred is returned.  Otherwise fs_newnode is
    asked for a container with these credentials: if it answers OK, the
    index of the slot is returned and the slot holds the initialised
    descriptor with the inode number fs_newnode gave; if not, the slot is
    zeroed again and the answer of fs_newnode is returned.  In each case
    the backend is left in the state of the last collaborator that was
    called, no other slot is written, no reply is sent, and the reply that
    is prepared carries the value returned. *)
Theorem open_takes_lowest_free_slot dev_m_in w :
  let answer r :=
    (r, Some (uds_set_reply DEV_OPEN_REPL (USER_ENDPT dev_m_in)
                (IO_GRANT dev_m_in) r)) in
  ((∀ i d, 1 ≤ i → lookup_fd i (tbl w) = Some d → state d ≠ UDS_FREE) ∧
   uds_open dev_m_in w = Ret (answer ENFILE) w) ∨
  (∃ minor d,
     1 ≤ minor ∧ lookup_fd minor (tbl w) = Some d ∧ state d = UDS_FREE ∧
     (∀ j dj, 1 ≤ j < minor → lookup_fd j (tbl w) = Some dj →
              state dj ≠ UDS_FREE) ∧
     uds_open dev_m_in w =
       let '(b1, (rc, (uid, gid), errno)) :=
         getnucred (fs w) (USER_ENDPT dev_m_in) in
       if rc =? -1 then
         Ret (answer errno)
           (mk_world (store_fd minor zero_fd (tbl w)) b1 (sent w))
       else
         let '(b2, (rc2, ino)) := fs_newnode b1 uid gid in
         if rc2 =? OK then
           Ret (answer minor)
             (mk_world
                (store_fd minor
                   (set_syscall_done 1
                      (set_inode_nr ino (open_init dev_m_in d)))
                   (tbl w))
                b2 (sent w))
         else
           Ret (answer rc2)
             (mk_world (store_fd minor zero_fd (tbl w)) b2 (sent w))).
Proof.
  intros answer. unfold uds_open. rewrite bind_get_tbl.
  destruct (scan_from_1 (fun d => UDS_STATE_eqb (state d) UDS_FREE) (tbl w))
    as [[Hr Hall] | (Hge & (d & Hd & Hfree) & Hlow)].
  - left. rewrite Hr. cbn [Z.eqb]. split; [|reflexivity].
    intros i d Hi Hl. apply state_not_free_eqb. eapply Hall; eauto.
  - right.
    set (minor := scan_from _ 1 (drop 1 (tbl w))) in *.
    exists minor, d.
    refine (conj Hge (conj Hd (conj _ (conj _ _)))).
    { apply state_free_eqb, Hfree. }
    { intros j dj Hj Hl. apply state_not_free_eqb. eapply Hlow; eauto. }
    replace (minor =? -1) with false by lia.
    rewrite (bind_upd_fd _ _ _ _ _ Hd).
    erewrite bind_get_fd by (eapply lookup_store_eq; exact Hd).
    unfold bind at 1. unfold call at 1. cbn [tbl fs sent].
    change (endpoint (open_init dev_m_in d)) with (USER_ENDPT dev_m_in).
    destruct (getnucred (fs w) (USER_ENDPT dev_m_in))
      as [b1 [[rc [uid gid]] errno]]. cbn [fst snd].
    destruct (rc =? -1).
    { erewrite bind_upd_fd by (eapply lookup_store_eq; exact Hd).
      cbn [tbl fs sent]. rewrite store_store. reflexivity. }
    unfold bind at 1. unfold call at 1. cbn [tbl fs sent].
    destruct (fs_newnode b1 uid gid) as [b2 [rc2 ino]]. cbn [fst snd].
    destruct (rc2 =? OK); cbn [negb].
    + erewrite bind_upd_fd by (eapply lookup_store_eq; exact Hd).
      cbn [tbl fs sent]. rewrite store_store.
      erewrite bind_upd_fd by (eapply lookup_store_eq; exact Hd).
      cbn [tbl fs sent]. rewrite store_store. reflexivity.
    + erewrite bind_upd_fd by (eapply lookup_store_eq; exact Hd).
      cbn [tbl fs sent]. rewrite store_store. reflexivity.
Qed.

(** The slot the loop of uds_open stops at. *)
Lemma scan_from_1_lowest test (t : list uds_fd) minor d :
  1 ≤ minor → lookup_fd minor t = Some d → test d = true →
  (∀ j dj, 1 ≤ j < minor → lookup_fd j t = Some dj → test dj = false) →
  scan_from test 1 (drop 1 t) = minor.
Proof.
  intros Hge Hd Ht Hlow.
  destruct (scan_from_1 test t) as [[_ Hall] | (Hge' & (d' & Hd' & Ht') & Hlow')].
  - rewrite (Hall _ _ Hge Hd) in Ht. discriminate.
  - set (q := scan_from test 1 (drop 1 t)) in *.
    destruct (Z.lt_trichotomy q minor) as [Hlt | [Heq | Hgt]]; [|exact Heq|].
    + rewrite (Hlow _ _ (conj Hge' Hlt) Hd') in Ht'. discriminate.
    + rewrite (Hlow' _ _ (conj Hge Hgt) Hd) in Ht. discriminate.
Qed.

(** X9.  Opening and closing again: when the collaborators accept the
    open, uds_open returns the lowest free slot from 1 on, and uds_close on
    that slot hands the very inode of the open back to the file system,
    returns what the file system answers and leaves the slot zeroed, with
    every other slot, and the replies, as they were before the open.  When
    the slot was a zeroed one, the table is what it was. *)
Theorem open_then_close fuel m m' w minor d b1 rc uid gid errno b2 ino :
  1 ≤ minor →
  lookup_fd minor (tbl w) = Some d → state d = UDS_FREE →
  (∀ j dj, 1 ≤ j < minor → lookup_fd j (tbl w) = Some dj →
           state dj ≠ UDS_FREE) →
  getnucred (fs w) (USER_ENDPT m) = (b1, (rc, (uid, gid), errno)) →
  rc ≠ -1 →
  fs_newnode b1 uid gid = (b2, (OK, ino)) →
  uds_minor m' = minor →
  ∃ w1,
    uds_open m w =
      Ret (minor, Some (uds_set_reply DEV_OPEN_REPL (USER_ENDPT m)
                          (IO_GRANT m) minor)) w1 ∧
    fs w1 = b2 ∧
    uds_close fuel m' w1 =
      Ret (snd (fs_putnode b2 ino),
           if snd (fs_putnode b2 ino) =? OK
           then Some (uds_set_reply DEV_CLOSE_REPL (USER_ENDPT m')
                        (IO_GRANT m') OK)
           else None)
          (mk_world (store_fd minor zero_fd (tbl w))
             (fst (fs_putnode b2 ino)) (sent w)) ∧
    (d = zero_fd → store_fd minor zero_fd (tbl w) = tbl w).
Proof.
  intros Hge Hd Hfree Hlow Hcred Hrc Hnode Hm'.
  assert (Hscan : scan_from (fun d => UDS_STATE_eqb (state d) UDS_FREE) 1
                    (drop 1 (tbl w)) = minor).
  { apply (scan_from_1_lowest _ _ _ d Hge Hd).
    - apply state_free_eqb, Hfree.
    - intros j dj Hj Hl. apply state_not_free_eqb. eapply Hlow; eauto. }
  set (d1 := set_syscall_done 1 (set_inode_nr ino (open_init m d))).
  exists (mk_world (store_fd minor d1 (tbl w)) b2 (sent w)).
  refine (conj _ (conj eq_refl (conj _ _))).
  - unfold uds_open. rewrite bind_get_tbl, Hscan.
    replace (minor =? -1) with false by lia.
    rewrite (bind_upd_fd _ _ _ _ _ Hd).
    erewrite bind_get_fd by (eapply lookup_store_eq; exact Hd).
    unfold bind at 1. unfold call at 1. cbn [tbl fs sent].
    change (endpoint (open_init m d)) with (USER_ENDPT m).
    rewrite Hcred. cbn [fst snd].
    replace (rc =? -1) with false by lia.
    unfold bind at 1. unfold call at 1. cbn [tbl fs sent].
    rewrite Hnode. cbn [fst snd]. rewrite Z.eqb_refl. cbn [negb].
    erewrite bind_upd_fd by (eapply lookup_store_eq; exact Hd).
    cbn [tbl fs sent]. rewrite store_store.
    erewrite bind_upd_fd by (eapply lookup_store_eq; exact Hd).
    cbn [tbl fs sent]. rewrite store_store. reflexivity.
  - assert (H1 : lookup_fd minor (store_fd minor d1 (tbl w)) = Some d1)
      by (eapply lookup_store_eq; exact Hd).
    unfold uds_close. rewrite Hm'.
    erewrite bind_get_fd by exact H1.
    change (in_use d1) with true. change (peer d1) with (-1).
    cbn [negb Z.eqb Pos.eqb]. rewrite bind_ret.
    erewrite bind_get_fd by exact H1.
    change (nfiledes (ancillary_data d1)) with 0. cbn [Z.gtb Z.compare].
    rewrite bind_ret.
    erewrite bind_get_fd by exact H1.
    erewrite bind_upd_fd by exact H1. cbn [tbl fs sent].
    rewrite store_store.
    unfold bind at 1. unfold call at 1. cbn [tbl fs sent].
    change (inode_nr d1) with ino.
    destruct (fs_putnode b2 ino) as [b3 rc3]. cbn [fst snd].
    destruct (Z.eqb_spec rc3 OK) as [-> | _]; reflexivity.
  - intros ->. apply store_same, Hd.
Qed.

End Open.

(** ** Cancelling a connect() *)

Section Cancel_connect.

Context `{C : Consts} `{B : Backend}.

Lemma unlisted_facts minor d d' :
  minor ≠ -1 →
  unlisted minor d d' →
  state d' = state d ∧
  (state d = UDS_INUSE → ¬ in_backlog minor d') ∧
  (∀ j x, backlog d !! j = Some x → x ≠ minor → backlog d' !! j = Some x).
Proof.
  intros Hm [[Hs ->] | (Hs & bl & Hbl & ->)].
  - refine (conj eq_refl (conj _ _)); [contradiction | auto].
  - refine (conj eq_refl (conj _ _)).
    + intros _ (j & Hj & Hin). simpl in Hj, Hin.
      exact (backlog_remove_gone _ _ _ _ _ Hm Hbl Hj Hin).
    + intros j x Hl Hx. simpl. eapply backlog_remove_other; eauto.
Qed.

(** X10.  Cancelling a connect() that is in flight takes the socket out of
    every backlog: uds_cancel answers EINTR, and afterwards no socket in
    use has the slot among the pending connections of its backlog, while
    every other pending connection stays queued and no slot changes its
    state.  The address of the cancelled socket is zeroed, it is neither
    suspended nor selecting, and its call is marked done; no byte is moved
    and no reply is sent. *)
Theorem cancel_connect_unlists dev_m_in w d :
  let minor := uds_minor dev_m_in in
  lookup_fd minor (tbl w) = Some d →
  state d = UDS_INUSE →
  call_nr d = DEV_IOCTL_S → DEV_IOCTL_S ≠ 0 →
  ioctl d = NWIOSUDSCONN → NWIOSUDSCONN ≠ NWIOSUDSACCEPT →
  syscall_done d = 0 →
  backlogs_in_bounds (tbl w) →
  ∃ w',
    uds_cancel dev_m_in w =
      Ret (EINTR, Some (uds_set_reply DEV_REVIVE (USER_ENDPT dev_m_in)
                          (IO_GRANT dev_m_in) EINTR)) w' ∧
    fs w' = fs w ∧ sent w' = sent w ∧
    (∀ i di, lookup_fd i (tbl w) = Some di →
       ∃ di', lookup_fd i (tbl w') = Some di' ∧
              state di' = state di ∧
              (state di = UDS_INUSE → ¬ in_backlog minor di') ∧
              (∀ j x, backlog di !! j = Some x → x ≠ minor →
                      backlog di' !! j = Some x)) ∧
    (∃ dm, lookup_fd minor (tbl w') = Some dm ∧
           addr dm = zero_sockaddr ∧
           suspended dm = UDS_NOT_SUSPENDED ∧ selecting dm = 0 ∧
           syscall_done dm = 1).
Proof.
  intros minor Hd Hst Hc Hnz Hi Hne Hdone Hb.
  assert (Hm : minor ≠ -1) by (apply lookup_fd_Some in Hd; lia).
  assert (Hm0 : 0 ≤ minor) by (apply lookup_fd_Some in Hd; lia).
  set (d1 := set_suspended UDS_NOT_SUSPENDED
               (set_selecting 0 (set_endpoint (USER_ENDPT dev_m_in) d))).
  set (T1 := store_fd minor d1 (tbl w)).
  assert (Hd1 : lookup_fd minor T1 = Some d1)
    by (eapply lookup_store_eq; exact Hd).
  destruct (cancel_backlogs_total minor T1) as [t' Ht'].
  { eapply backlogs_in_bounds_store; eauto. }
  destruct (cancel_backlogs_lookup _ _ _ _ _ Ht' Hd1) as (d2 & Hd2 & Hu2).
  set (dm := set_syscall_done 1 (set_addr zero_sockaddr d2)).
  exists (mk_world (store_fd minor dm t') (fs w) (sent w)).
  refine (conj _ (conj eq_refl (conj eq_refl (conj _ _)))); cbn [tbl].
  - unfold uds_cancel. fold minor. rewrite (bind_get_fd _ _ _ _ Hd).
    unfold in_use. rewrite Hst. cbn [UDS_STATE_eqb negb].
    rewrite (bind_upd_fd _ _ _ _ _ Hd). fold d1. fold T1.
    erewrite bind_get_fd by exact Hd1.
    change (call_nr d1) with (call_nr d).
    change (syscall_done d1) with (syscall_done d).
    unfold truthy. rewrite Hc, Hdone.
    replace (DEV_IOCTL_S =? 0) with false by lia. cbn [Z.eqb negb andb].
    unfold cancel_rollback.
    change (call_nr d1) with (call_nr d). change (ioctl d1) with (ioctl d).
    rewrite Hc, Hi, !Z.eqb_refl.
    replace (NWIOSUDSCONN =? NWIOSUDSACCEPT) with false by lia.
    fwd. rewrite Ht'. unfold lift_opt at 1. unfold bind at 1. fwd.
    erewrite bind_upd_fd by exact Hd2. cbn [tbl fs sent].
    erewrite bind_upd_fd by (eapply lookup_store_eq; exact Hd2).
    cbn [tbl fs sent]. rewrite store_store. reflexivity.
  - intros i di Hl.
    destruct (Z.eq_dec i minor) as [-> | Hne'].
    + rewrite Hd in Hl. injection Hl as <-.
      exists dm. split; [eapply lookup_store_eq; exact Hd2|].
      destruct (unlisted_facts _ _ _ Hm Hu2) as (E1 & E2 & E3).
      refine (conj _ (conj _ _)).
      * exact E1.
      * intros Hs (j & Hj & Hin). apply (E2 Hs). exists j. auto.
      * intros j x Hx Hxm. apply (E3 j x Hx Hxm).
    + assert (Hl1 : lookup_fd i T1 = Some di).
      { unfold T1. rewrite lookup_store_ne; [exact Hl | exact Hm0 | congruence]. }
      destruct (cancel_backlogs_lookup _ _ _ _ _ Ht' Hl1) as (di' & Hdi' & Hu).
      exists di'. split.
      * rewrite lookup_store_ne; [exact Hdi' | exact Hm0 | congruence].
      * exact (unlisted_facts _ _ _ Hm Hu).
  - exists dm. split; [eapply lookup_store_eq; exact Hd2|].
    destruct Hu2 as [[_ ->] | (_ & bl & _ & ->)]; repeat split.
Qed.

End Cancel_connect.

(** ** select() *)

Section Select.

Context `{C : Consts} `{B : Backend}.

Lemma backlog_pending_total n : ∀ l,
  (n ≤ length l)%nat → is_Some (backlog_pending n l).
Proof.
  induction n as [|n IH]; intros l Hl; simpl; [eauto|].
  destruct l as [|x l]; simpl in Hl; [lia|].
  destruct (negb (x =? -1)); [eauto|]. apply IH. lia.
Qed.

(** A probe returns, and changes at most the error latch of its slot. *)
Lemma probe_outcome op fuel minor src sz pretend w d :
  lookup_fd minor (tbl w) = Some d →
  truthy pretend = true →
  peer_in_table d (tbl w) →
  ∃ r d', perform op fuel minor src sz pretend w =
          Ret r (mk_world (store_fd minor d' (tbl w)) (fs w) (sent w)) ∧
          (d' = d ∨ d' = set_err 0 d).
Proof.
  intros Hd Hpr Hp.
  assert (Hsame : mk_world (store_fd minor d (tbl w)) (fs w) (sent w) = w)
    by (rewrite (store_same _ _ _ Hd); apply world_eta).
  destruct op; cbn [perform].
  - destruct (read_probe (uds_unsuspend fuel) minor src sz pretend w d Hd Hpr Hp)
      as [r [Hr | [_ Hr]]].
    + exists r, d. rewrite Hsame. auto.
    + exists r, (set_err 0 d). auto.
  - destruct (write_probe (uds_unsuspend fuel) minor src sz pretend w d Hd Hpr Hp)
      as [r [Hr | [_ Hr]]].
    + exists r, d. rewrite Hsame. auto.
    + exists r, (set_err 0 d). auto.
Qed.

Lemma peer_in_table_store d x i y t :
  0 ≤ i → peer x = peer d →
  peer_in_table d t → peer_in_table x (store_fd i y t).
Proof.
  intros Hi Hx [Hp | [dp Hp]]; [left; congruence | right].
  rewrite Hx. destruct (Z.eq_dec i (peer d)) as [-> | Hne].
  - erewrite lookup_store_eq by exact Hp. eauto.
  - rewrite lookup_store_ne by auto. eauto.
Qed.

(** X11.  uds_select on a slot in use always answers, and moves no data:
    it returns the readiness mask it also stores in the slot and in its
    reply, a combination of SEL_RD and SEL_WR, and leaves the stored bytes,
    the replies sent and every other slot as they were.  Of the slot itself
    the state, the peer, the buffer window, the suspension and the backlog
    are unchanged; the slot is marked as selecting for the caller with the
    operations asked for, the call is marked done, and the error latch is
    as it was or consumed. *)
Theorem select_reports_without_transfer fuel dev_m_in w d :
  let minor := uds_minor dev_m_in in
  lookup_fd minor (tbl w) = Some d →
  state d = UDS_INUSE →
  peer_in_table d (tbl w) →
  (Z.to_nat (backlog_size d) ≤ length (backlog d))%nat →
  ∃ rd wr dm,
    uds_select fuel dev_m_in w =
      Ret (select_mask rd wr,
           Some (uds_sel_reply DEV_SEL_REPL1 minor (select_mask rd wr)))
          (mk_world (store_fd minor dm (tbl w)) (fs w) (sent w)) ∧
    select_marked dev_m_in d dm ∧
    sel_ops_out dm = select_mask rd wr ∧
    syscall_done dm = 1.
Proof.
  intros minor Hd Hst Hp Hbl.
  assert (Hm0 : 0 ≤ minor) by (apply lookup_fd_Some in Hd; lia).
  unfold uds_select. fold minor.
  rewrite (bind_get_fd _ _ _ _ Hd).
  unfold in_use. rewrite Hst. cbn [UDS_STATE_eqb negb].
  rewrite (bind_upd_fd _ _ _ _ _ Hd).
  set (d0 := set_sel_ops_out 0 _).
  assert (I0 : select_marked dev_m_in d d0 ∧ sel_ops_out d0 = select_mask false false)
    by (unfold select_marked; repeat split; auto).
  clearbody d0.
  (* the probe for reading *)
  assert (H0 : lookup_fd minor (store_fd minor d0 (tbl w)) = Some d0)
    by (eapply lookup_store_eq; exact Hd).
  destruct (probe_outcome Read fuel minor (m_source dev_m_in) 1 1
              (mk_world (store_fd minor d0 (tbl w)) (fs w) (sent w)) d0 H0
              eq_refl)
    as (r1 & d1 & Hr1 & Hd1).
  { eapply peer_in_table_store; [exact Hm0 | | exact Hp]. apply I0. }
  cbn [perform tbl fs sent] in Hr1. rewrite store_store in Hr1.
  unfold bind at 1. rewrite Hr1.
  assert (I1 : select_marked dev_m_in d d1 ∧ sel_ops_out d1 = select_mask false false).
  { destruct I0 as [I0 M0]. unfold select_marked in *.
    destruct Hd1 as [-> | ->]; [auto|].
    cbn. intuition auto. }
  clear Hr1 Hd1 I0 H0. clear d0.
  assert (H1 : lookup_fd minor (store_fd minor d1 (tbl w)) = Some d1)
    by (eapply lookup_store_eq; exact Hd).
  erewrite bind_get_fd by exact H1.
  (* the readiness for reading *)
  assert (Hmid : ∃ rd d2,
    (if r1 >? 0
     then upd_fd minor (λ d, set_sel_ops_out (Z.lor (sel_ops_out d) SEL_RD) d)
     else if listening d1 =? 1
          then bind (lift_opt (backlog_pending (Z.to_nat (backlog_size d1))
                                 (backlog d1)))
                 (λ pending, when pending
                    (upd_fd minor
                       (λ d, set_sel_ops_out (Z.lor (sel_ops_out d) SEL_RD) d)))
          else when (negb (r1 =? SUSPEND))
                 (upd_fd minor
                    (λ d, set_sel_ops_out (Z.lor (sel_ops_out d) SEL_RD) d)))
      (mk_world (store_fd minor d1 (tbl w)) (fs w) (sent w)) =
    Ret tt (mk_world (store_fd minor d2 (tbl w)) (fs w) (sent w)) ∧
    select_marked dev_m_in d d2 ∧ sel_ops_out d2 = select_mask rd false).
  { assert (Hyes :
      upd_fd minor (λ d, set_sel_ops_out (Z.lor (sel_ops_out d) SEL_RD) d)
        (mk_world (store_fd minor d1 (tbl w)) (fs w) (sent w)) =
      Ret tt (mk_world
                (store_fd minor
                   (set_sel_ops_out (Z.lor (sel_ops_out d1) SEL_RD) d1)
                   (tbl w)) (fs w) (sent w))).
    { unfold upd_fd. cbn [tbl fs sent]. rewrite H1, store_store. reflexivity. }
    assert (Iyes :
      select_marked dev_m_in d
        (set_sel_ops_out (Z.lor (sel_ops_out d1) SEL_RD) d1) ∧
      sel_ops_out (set_sel_ops_out (Z.lor (sel_ops_out d1) SEL_RD) d1)
      = select_mask true false).
    { destruct I1 as [I1 M1]. split; [exact I1|].
      change (Z.lor (sel_ops_out d1) SEL_RD = select_mask true false).
      rewrite M1. unfold select_mask.
      rewrite !Z.lor_0_r, ?Z.lor_0_l. reflexivity. }
    destruct (r1 >? 0).
    { exists true, (set_sel_ops_out (Z.lor (sel_ops_out d1) SEL_RD) d1).
      split; [exact Hyes | exact Iyes]. }
    destruct (listening d1 =? 1).
    { destruct (backlog_pending_total (Z.to_nat (backlog_size d1)) (backlog d1))
        as [pending Hpend].
      { destruct I1 as [I1 _]. unfold select_marked in I1.
        destruct I1 as (_ & _ & _ & _ & _ & _ & Eb & Es & _).
        rewrite Eb, Es. exact Hbl. }
      rewrite Hpend. unfold lift_opt at 1. unfold bind at 1.
      destruct pending; cbn [when].
      - exists true, (set_sel_ops_out (Z.lor (sel_ops_out d1) SEL_RD) d1).
      split; [exact Hyes | exact Iyes].
      - exists false, d1. split; [reflexivity | exact I1]. }
    destruct (negb (r1 =? SUSPEND)); cbn [when].
    - exists true, (set_sel_ops_out (Z.lor (sel_ops_out d1) SEL_RD) d1).
      split; [exact Hyes | exact Iyes].
    - exists false, d1. split; [reflexivity | exact I1]. }
  destruct Hmid as (rd & d2 & Hmid & I2).
  unfold bind at 1. rewrite Hmid. clear Hmid I1 H1. clear d1.
  (* the probe for writing *)
  assert (H2 : lookup_fd minor (store_fd minor d2 (tbl w)) = Some d2)
    by (eapply lookup_store_eq; exact Hd).
  destruct (probe_outcome Write fuel minor (m_source dev_m_in) PIPE_BUF 1
              (mk_world (store_fd minor d2 (tbl w)) (fs w) (sent w)) d2 H2
              eq_refl)
    as (r2 & d3 & Hr2 & Hd3).
  { eapply peer_in_table_store; [exact Hm0 | | exact Hp]. apply I2. }
  cbn [perform tbl fs sent] in Hr2. rewrite store_store in Hr2.
  unfold bind at 1. rewrite Hr2.
  assert (I3 : select_marked dev_m_in d d3 ∧ sel_ops_out d3 = select_mask rd false).
  { destruct I2 as [I2 M2]. unfold select_marked in *.
    destruct Hd3 as [-> | ->]; [auto|].
    cbn. intuition auto. }
  clear Hr2 Hd3 I2 H2. clear d2.
  assert (H3 : lookup_fd minor (store_fd minor d3 (tbl w)) = Some d3)
    by (eapply lookup_store_eq; exact Hd).
  assert (Hend : ∃ wr d4,
    when (negb (r2 =? 0) && negb (r2 =? SUSPEND))
      (upd_fd minor (λ d, set_sel_ops_out (Z.lor (sel_ops_out d) SEL_WR) d))
      (mk_world (store_fd minor d3 (tbl w)) (fs w) (sent w)) =
    Ret tt (mk_world (store_fd minor d4 (tbl w)) (fs w) (sent w)) ∧
    select_marked dev_m_in d d4 ∧ sel_ops_out d4 = select_mask rd wr).
  { destruct (negb (r2 =? 0) && negb (r2 =? SUSPEND)); cbn [when].
    - exists true, (set_sel_ops_out (Z.lor (sel_ops_out d3) SEL_WR) d3).
      split.
      + unfold upd_fd. cbn [tbl fs sent]. rewrite H3, store_store. reflexivity.
      + destruct I3 as [I3 M3]. split; [exact I3|].
        change (Z.lor (sel_ops_out d3) SEL_WR = select_mask rd true).
        rewrite M3. unfold select_mask. rewrite Z.lor_0_r. reflexivity.
    - exists false, d3. split; [reflexivity | exact I3]. }
  destruct Hend as (wr & d4 & Hend & I4 & M4).
  unfold bind at 1. rewrite Hend. clear Hend I3 H3. clear d3.
  assert (H4 : lookup_fd minor (store_fd minor d4 (tbl w)) = Some d4)
    by (eapply lookup_store_eq; exact Hd).
  erewrite bind_upd_fd by exact H4. cbn [tbl fs sent]. rewrite store_store.
  erewrite bind_get_fd by (eapply lookup_store_eq; exact Hd).
  exists rd, wr, (set_syscall_done 1 d4).
  change (sel_ops_out (set_syscall_done 1 d4)) with (sel_ops_out d4).
  rewrite M4. refine (conj eq_refl (conj _ (conj eq_refl eq_refl))).
  exact I4.
Qed.

(** X12.  uds_select consumes the connection-reset latch.  On a stream
    or seqpacket socket whose peer has closed (no peer, empty buffer, the
    latch set), a read would return ECONNRESET; a select() instead reports
    the socket readable and writable and clears the latch with its probe,
    so that the read that follows returns ENOTCONN. *)
Theorem select_consumes_reset_latch fuel dev_m_in w d :
  let minor := uds_minor dev_m_in in
  lookup_fd minor (tbl w) = Some d →
  state d = UDS_INUSE →
  connection_oriented d → peer d = -1 → size d = 0 →
  err d = ECONNRESET →
  has_bit (mode d) S_IRUSR = true → has_bit (mode d) S_IWUSR = true →
  listening d ≠ 1 →
  0 < PIPE_BUF →
  ECONNRESET < 0 → ECONNRESET ≠ SUSPEND →
  ENOTCONN ≠ 0 → ENOTCONN ≠ SUSPEND →
  (∀ src sz, 0 < sz →
     uds_perform_read fuel minor src sz 0 w =
     Ret ECONNRESET (clear_err minor d w)) ∧
  ∃ dm,
    let w' := mk_world (store_fd minor dm (tbl w)) (fs w) (sent w) in
    uds_select fuel dev_m_in w =
      Ret (select_mask true true,
           Some (uds_sel_reply DEV_SEL_REPL1 minor (select_mask true true)))
          w' ∧
    err dm = 0 ∧
    ∀ src sz, 0 < sz →
      uds_perform_read fuel minor src sz 0 w' = Ret ENOTCONN w'.
Proof.
  intros minor Hd Hst Hco Hp Hsz He Hr Hw Hl Hpipe Hneg Hns Hn0 Hnn.
  split.
  { intros src sz Hpos. unfold uds_perform_read.
    rewrite (read_unconnected _ _ _ _ _ _ d Hd Hpos Hr Hsz Hp Hco).
    rewrite He, Z.eqb_refl. reflexivity. }
  unfold uds_select. fold minor.
  rewrite (bind_get_fd _ _ _ _ Hd).
  unfold in_use. rewrite Hst. cbn [UDS_STATE_eqb negb].
  rewrite (bind_upd_fd _ _ _ _ _ Hd).
  set (d0 := set_sel_ops_out 0 _).
  assert (H0 : lookup_fd minor (store_fd minor d0 (tbl w)) = Some d0)
    by (eapply lookup_store_eq; exact Hd).
  (* the probe for reading takes the latch *)
  unfold bind at 1. unfold uds_perform_read.
  erewrite (read_unconnected _ minor _ 1 1 _ d0)
    by first [exact H0 | exact Hr | exact Hsz | exact Hp | exact Hco | lia].
  change (err d0) with (err d). rewrite He, Z.eqb_refl.
  unfold clear_err. cbn [tbl fs sent]. rewrite store_store.
  set (d1 := set_err 0 d0).
  erewrite bind_get_fd by (eapply lookup_store_eq; exact Hd).
  replace (ECONNRESET >? 0) with false by lia.
  change (listening d1) with (listening d).
  replace (listening d =? 1) with false by lia.
  replace (ECONNRESET =? SUSPEND) with false by lia. cbn [negb when].
  erewrite bind_upd_fd by (eapply lookup_store_eq; exact Hd).
  cbn [tbl fs sent]. rewrite store_store.
  set (d2 := set_sel_ops_out _ d1).
  assert (H2 : lookup_fd minor (store_fd minor d2 (tbl w)) = Some d2)
    by (eapply lookup_store_eq; exact Hd).
  (* the probe for writing finds no latch *)
  unfold bind at 1. unfold uds_perform_write.
  erewrite (write_unconnected _ minor _ PIPE_BUF 1 _ d2)
    by first [exact H2 | exact Hw | exact Hp | exact Hco | lia].
  change (err d2) with 0.
  replace (0 =? ECONNRESET) with false by lia.
  replace (ENOTCONN =? 0) with false by lia.
  replace (ENOTCONN =? SUSPEND) with false by lia. cbn [negb andb when].
  erewrite bind_upd_fd by exact H2.
  cbn [tbl fs sent]. rewrite store_store.
  erewrite bind_upd_fd by (eapply lookup_store_eq; exact Hd).
  cbn [tbl fs sent]. rewrite store_store.
  set (dm := set_syscall_done 1 _).
  assert (Hm : lookup_fd minor (store_fd minor dm (tbl w)) = Some dm)
    by (eapply lookup_store_eq; exact Hd).
  erewrite bind_get_fd by exact Hm.
  exists dm. cbv zeta.
  assert (Hmask : sel_ops_out dm = select_mask true true).
  { change (Z.lor (Z.lor 0 SEL_RD) SEL_WR = select_mask true true).
    rewrite Z.lor_0_l. reflexivity. }
  rewrite Hmask. refine (conj eq_refl (conj eq_refl _)).
  intros src sz Hpos. unfold uds_perform_read.
  erewrite (read_unconnected _ minor _ sz 0 _ dm)
    by first [exact Hm | exact Hr | exact Hsz | exact Hp | exact Hco | lia].
  change (err dm) with 0.
  replace (0 =? ECONNRESET) with false by lia. reflexivity.
Qed.

End Select.

(** ** Closing one end *)

Section Hangup.

Context `{C : Consts} `{B : Backend}.

(** X13.  Closing one end of a connection wakes the transfer blocked at the
    other end with ECONNRESET.  The peer is suspended in a read on an empty
    buffer, or in a write; uds_close unlinks it, and within the same call
    its transfer is retried, finds the connection gone and is answered
    ECONNRESET in a DEV_REVIVE reply.  The peer is left with no peer, not
    suspended and with the latch consumed; the closed slot is zeroed and
    its container released. *)
Theorem close_wakes_blocked_peer fuel dev_m_in w op da db :
  let a := uds_minor dev_m_in in
  let b := peer da in
  lookup_fd a (tbl w) = Some da →
  state da = UDS_INUSE →
  b ≠ -1 → a ≠ b →
  lookup_fd b (tbl w) = Some db →
  suspended db = suspension_of op →
  status_updated db ≠ 1 →
  connection_oriented db →
  reaches_connection_test op (io_gr_size db) db →
  ECONNRESET ≠ SUSPEND →
  let woken :=
    set_suspended UDS_NOT_SUSPENDED
      (set_err 0
         (set_ready_to_revive 0 (set_err ECONNRESET (set_peer (-1) db)))) in
  let rc := snd (release a da (fs w)) in
  uds_close (S fuel) dev_m_in w =
  Ret (rc, if rc =? OK
           then Some (uds_set_reply DEV_CLOSE_REPL (USER_ENDPT dev_m_in)
                        (IO_GRANT dev_m_in) OK)
           else None)
      (mk_world (store_fd a zero_fd (store_fd b woken (tbl w)))
         (fst (release a da (fs w)))
         ((m_source dev_m_in,
           Some (uds_set_reply DEV_REVIVE (endpoint db) (io_gr db) ECONNRESET))
            :: sent w)).
Proof.
  intros a b Ha Hst Hb Hab Hdb Hsus Hstat Hco Hreach Hne woken rc.
  assert (Hb0 : 0 ≤ b) by (apply lookup_fd_Some in Hdb; lia).
  set (db2 := set_ready_to_revive 0 (set_err ECONNRESET (set_peer (-1) db))).
  set (w3 := mk_world (store_fd b db2 (tbl w)) (fs w) (sent w)).
  assert (H3 : lookup_fd b (tbl w3) = Some db2)
    by (eapply lookup_store_eq; exact Hdb).
  (* the retried transfer finds the connection gone *)
  assert (Hretry :
    match op with
    | Read => uds_perform_read_with (uds_unsuspend fuel)
    | Write => uds_perform_write_with (uds_unsuspend fuel)
    end b (m_source dev_m_in) (io_gr_size db) 0 w3 =
    Ret ECONNRESET (clear_err b db2 w3)).
  { destruct op; cbn [reaches_connection_test] in Hreach.
    - destruct Hreach as (Hsz & Hm & Hsize).
      erewrite (read_unconnected _ b _ _ 0 w3 db2)
        by first [exact H3 | exact Hm | exact Hsize | exact Hco
                 | reflexivity | lia].
      change (err db2) with ECONNRESET. rewrite Z.eqb_refl. reflexivity.
    - destruct Hreach as (Hsz & Hm).
      erewrite (write_unconnected _ b _ _ 0 w3 db2)
        by first [exact H3 | exact Hm | exact Hco | reflexivity | lia].
      change (err db2) with ECONNRESET. rewrite Z.eqb_refl. reflexivity. }
  set (w2 := mk_world (store_fd b woken (tbl w)) (fs w)
               ((m_source dev_m_in,
                 Some (uds_set_reply DEV_REVIVE (endpoint db) (io_gr db)
                         ECONNRESET)) :: sent w)).
  assert (Hblock :
    (if negb (peer da =? -1) then
       bind (upd_fd (peer da) (set_peer (-1))) (fun _ =>
       bind (upd_fd (peer da) (set_err ECONNRESET)) (fun _ =>
       revive_if_suspended (uds_unsuspend (S fuel)) (m_source dev_m_in)
         (peer da)))
     else ret tt) w = Ret tt w2).
  { fold b. replace (b =? -1) with false by lia. cbn [negb].
    rewrite (bind_upd_fd _ _ _ _ _ Hdb).
    erewrite bind_upd_fd by (eapply lookup_store_eq; exact Hdb).
    cbn [tbl fs sent]. rewrite store_store.
    erewrite revive_if_suspended_run by (eapply lookup_store_eq; exact Hdb).
    change (suspended (set_err ECONNRESET (set_peer (-1) db)))
      with (suspended db).
    rewrite Hsus.
    replace (is_suspended (suspension_of op)) with true
      by (destruct op; reflexivity).
    cbn [tbl fs sent]. rewrite store_store.
    unfold bind. cbn [uds_unsuspend].
    erewrite (unsuspend_retry_completes _ _ op (m_source dev_m_in) b _
                _ ECONNRESET (clear_err b db2 w3) (set_err 0 db2)).
    - unfold ret, w2, woken, clear_err, w3. cbn [tbl fs sent].
      rewrite !store_store. reflexivity.
    - eapply lookup_store_eq; exact Hdb.
    - exact Hstat.
    - reflexivity.
    - exact Hsus.
    - cbn [tbl fs sent]. rewrite store_store. exact Hretry.
    - exact Hne.
    - apply lookup_clear_err. exact H3. }
  assert (Ha2 : lookup_fd a (tbl w2) = Some da).
  { unfold w2. cbn [tbl]. rewrite lookup_store_ne; [exact Ha | exact Hb0 |].
    congruence. }
  rewrite (close_in_use (S fuel) dev_m_in w da w2 da Ha Hst Hblock Ha2).
  reflexivity.
Qed.

End Hangup.

(** ** Revivals without a transfer *)

Section Revive_edges.

Context `{C : Consts} `{B : Backend}.

(** X14.  The revivals that retry no transfer.  A descriptor suspended in
    a connect() or an accept() and ready to be revived is unblocked with a
    DEV_REVIVE reply of OK, the connection having been made by the other
    side.  A descriptor ready to be revived that is not suspended only
    loses the flag, and nothing is sent.  When neither status_updated nor
    ready_to_revive is set, uds_unsuspend changes nothing and hands its
    local message to reply() without having filled it in. *)
Theorem revive_without_transfer f src minor w d :
  lookup_fd minor (tbl w) = Some d →
  status_updated d ≠ 1 →
  (ready_to_revive d = 1 →
   suspended d = UDS_SUSPENDED_CONNECT ∨ suspended d = UDS_SUSPENDED_ACCEPT →
   uds_unsuspend (S f) src minor w =
   Ret OK
     (mk_world
        (store_fd minor
           (set_suspended UDS_NOT_SUSPENDED (set_ready_to_revive 0 d))
           (tbl w))
        (fs w)
        ((src, Some (uds_set_reply DEV_REVIVE (endpoint d) (io_gr d) OK))
           :: sent w))) ∧
  (ready_to_revive d = 1 → suspended d = UDS_NOT_SUSPENDED →
   uds_unsuspend (S f) src minor w =
   Ret OK
     (mk_world (store_fd minor (set_ready_to_revive 0 d) (tbl w))
        (fs w) (sent w))) ∧
  (ready_to_revive d ≠ 1 →
   uds_unsuspend (S f) src minor w =
   Ret OK (mk_world (tbl w) (fs w) ((src, None) :: sent w))).
Proof.
  intros Hd Hs.
  assert (H1 : lookup_fd minor (store_fd minor (set_ready_to_revive 0 d) (tbl w))
               = Some (set_ready_to_revive 0 d))
    by (eapply lookup_store_eq; exact Hd).
  refine (conj _ (conj _ _)).
  - intros Hr Hsus. cbn [uds_unsuspend]. unfold uds_unsuspend_with.
    rewrite (bind_get_fd _ _ _ _ Hd).
    replace (status_updated d =? 1) with false by lia.
    rewrite Hr. cbn [Z.eqb Pos.eqb].
    rewrite (bind_upd_fd _ _ _ _ _ Hd).
    destruct Hsus as [-> | ->];
      erewrite bind_upd_fd by exact H1; cbn [tbl fs sent];
      rewrite store_store;
      erewrite bind_get_fd by (eapply lookup_store_eq; exact Hd);
      rewrite finish_OK; reflexivity.
  - intros Hr Hsus. cbn [uds_unsuspend]. unfold uds_unsuspend_with.
    rewrite (bind_get_fd _ _ _ _ Hd).
    replace (status_updated d =? 1) with false by lia.
    rewrite Hr. cbn [Z.eqb Pos.eqb].
    rewrite (bind_upd_fd _ _ _ _ _ Hd). rewrite Hsus. reflexivity.
  - intros Hr. cbn [uds_unsuspend]. unfold uds_unsuspend_with.
    rewrite (bind_get_fd _ _ _ _ Hd).
    replace (status_updated d =? 1) with false by lia.
    replace (ready_to_revive d =? 1) with false by lia.
    rewrite finish_OK. reflexivity.
Qed.

End Revive_edges.

(** ** A write and a read through the entry points *)

Section Calls.

Context `{C : Consts} `{B : Backend}.

Lemma read_shift_tracked m n d :
  pos d = 0 → size d = 0 →
  read_shift n (track_io m (set_size n d)) = track_io m d.
Proof.
  intros Hp Hs. unfold read_shift. cbv zeta.
  destruct d. simpl in *. subst.
  replace (n - n =? 0) with true by lia.
  unfold track_io, set_pos, set_size. simpl.
  replace (n - n) with 0 by lia. reflexivity.
Qed.

(** X15.  A write and a read through the entry points.  On a connected
    stream or seqpacket pair in use, with the receiving buffer empty,
    nobody suspended and the receiver not selecting, and a backend that
    stores and returns what it is asked for: uds_write of COUNT bytes on
    one end returns COUNT and prepares the DEV_REVIVE reply for the writer,
    and uds_read of at least as many bytes on the other end then returns
    the same count in the reply for the reader, having asked the backend
    for the bytes the write stored.  Afterwards the two slots differ from
    what they were only in the record of the calls, and nothing was sent
    by either call itself. *)
Theorem socket_write_then_read fuel ma mb w da db b1 b2 :
  let a := uds_minor ma in
  let b := uds_minor mb in
  let n := COUNT ma in
  lookup_fd a (tbl w) = Some da →
  lookup_fd b (tbl w) = Some db →
  a ≠ b →
  state da = UDS_INUSE → state db = UDS_INUSE →
  connection_oriented da → type da ≠ SOCK_DGRAM →
  peer da = b → peer db = a →
  has_bit (mode da) S_IWUSR = true →
  has_bit (mode db) S_IRUSR = true →
  pos db = 0 → size db = 0 →
  suspended da = UDS_NOT_SUSPENDED → suspended db = UDS_NOT_SUSPENDED →
  selecting db ≠ 1 →
  0 < n ≤ PIPE_BUF → n ≤ COUNT mb →
  fs_readwrite (fs w)
    (mk_rw_request REQ_WRITE (inode_nr db) (IO_GRANT ma) 0 n)
    = (b1, (OK, n)) →
  fs_readwrite b1
    (mk_rw_request REQ_READ (inode_nr db) (IO_GRANT mb) 0 n)
    = (b2, (OK, n)) →
  let w1 :=
    mk_world
      (store_fd b (set_size n db) (store_fd a (track_io ma da) (tbl w)))
      b1 (sent w) in
  uds_write fuel ma w =
    Ret (n, Some (uds_set_reply DEV_REVIVE (USER_ENDPT ma) (IO_GRANT ma) n))
        w1 ∧
  uds_read fuel mb w1 =
    Ret (n, Some (uds_set_reply DEV_REVIVE (USER_ENDPT mb) (IO_GRANT mb) n))
        (mk_world
           (store_fd b (track_io mb db) (store_fd a (track_io ma da) (tbl w)))
           b2 (sent w)).
Proof.
  intros a b n Ha Hb Hab Hsta Hstb Hco Hnd Hpa Hpb Hwa Hrb Hpos Hsize
    Hsa Hsb Hslb Hn Hn' Hwr Hrd w1.
  assert (Hdg : (type da =? SOCK_DGRAM) = false) by lia.
  assert (Ha0 : 0 ≤ a) by apply (lookup_fd_Some _ _ _ Ha).
  assert (Hb0 : 0 ≤ b) by apply (lookup_fd_Some _ _ _ Hb).
  set (da1 := track_io ma da).
  set (Ta := store_fd a da1 (tbl w)).
  assert (Ha1 : lookup_fd a Ta = Some da1)
    by (eapply lookup_store_eq; exact Ha).
  assert (Hb1 : lookup_fd b Ta = Some db)
    by (unfold Ta; rewrite lookup_store_ne; [exact Hb | exact Ha0 | exact Hab]).
  set (Tb := store_fd b (set_size n db) Ta).
  assert (Ha2 : lookup_fd a Tb = Some da1).
  { unfold Tb. rewrite lookup_store_ne; [exact Ha1 | exact Hb0 | congruence]. }
  assert (Hb2 : lookup_fd b Tb = Some (set_size n db))
    by (eapply lookup_store_eq; exact Hb1).
  split.
  - unfold uds_write. fold a. rewrite (bind_get_fd _ _ _ _ Ha).
    unfold in_use. rewrite Hsta. cbn [UDS_STATE_eqb negb].
    rewrite (bind_upd_fd _ _ _ _ _ Ha). fold da1. fold Ta.
    erewrite bind_get_fd by exact Ha1.
    change (io_gr_size da1) with n.
    unfold bind at 1. unfold uds_perform_write.
    erewrite (write_connected _ a _ n 0 _ da1)
      by first [exact Ha1 | exact Hwa | exact Hco | exact Hn
               | change (peer da1) with (peer da); lia].
    change (peer da1) with (peer da). rewrite Hpa.
    erewrite (write_to_peer_completes _ a _ n da1 b db _ b1 n)
      by first [ exact Ha1 | exact Hb1 | exact Hrb | exact Hsb | exact Hslb
               | rewrite Hsize; apply andb_false_r
               | rewrite Hpos, Hsize; first [exact Hwr | lia] ].
    replace (written da1 db n) with (set_size n db).
    2: { unfold written. change (type da1) with (type da). rewrite Hdg.
         cbv zeta. rewrite Hsize. reflexivity. }
    cbn [tbl fs sent]. fold Tb.
    erewrite bind_get_fd by exact Ha2. reflexivity.
  - unfold uds_read. fold b. unfold w1. fold Ta. fold Tb.
    erewrite bind_get_fd by exact Hb2.
    unfold in_use. change (state (set_size n db)) with (state db).
    rewrite Hstb. cbn [UDS_STATE_eqb negb].
    erewrite bind_upd_fd by exact Hb2. cbn [tbl fs sent].
    unfold Tb. rewrite store_store.
    set (db1 := track_io mb (set_size n db)).
    set (Tc := store_fd b db1 Ta).
    assert (Hb3 : lookup_fd b Tc = Some db1)
      by (eapply lookup_store_eq; exact Hb1).
    assert (Ha3 : lookup_fd a Tc = Some da1).
    { unfold Tc. rewrite lookup_store_ne; [exact Ha1 | exact Hb0 | congruence]. }
    erewrite bind_get_fd by exact Hb3.
    change (io_gr_size db1) with (COUNT mb).
    unfold bind at 1. unfold uds_perform_read.
    erewrite (read_completes _ b _ (COUNT mb) db1 _ b2 n).
    + cbn [tbl fs sent]. unfold Tc. rewrite store_store.
      unfold db1. rewrite (read_shift_tracked _ _ _ Hpos Hsize).
      erewrite bind_get_fd by (eapply lookup_store_eq; exact Hb1).
      reflexivity.
    + exact Hb3.
    + lia.
    + exact Hrb.
    + change (size db1) with n. lia.
    + change (size db1) with n. change (pos db1) with (pos db).
      change (io_gr db1) with (IO_GRANT mb).
      change (inode_nr db1) with (inode_nr db).
      replace (if COUNT mb >? n then n else COUNT mb) with n
        by (destruct (COUNT mb >? n) eqn:E; lia).
      rewrite Hpos. exact Hrd.
    + right. exists da1. change (peer db1) with (peer db). rewrite Hpb.
      refine (conj Ha3 (conj Hab (conj Hsa _))).
      change (selecting da1) with 0. lia.
Qed.

End Calls.

(** ** The replies that are sent *)

Section Replies.

Context `{C : Consts} `{B : Backend}.

Lemma filled_refl l : filled_since l l.
Proof. exists []. split; [reflexivity | constructor]. Qed.

Lemma filled_trans l1 l2 l3 :
  filled_since l1 l2 → filled_since l2 l3 → filled_since l1 l3.
Proof.
  intros (a & -> & Ha) (b & -> & Hb). exists (b ++ a).
  split; [apply app_assoc | apply Forall_app; auto].
Qed.

Lemma filled_cons dst m l : filled_since l ((dst, Some m) :: l).
Proof.
  exists [(dst, Some m)]. split; [reflexivity|].
  constructor; [simpl; eauto | constructor].
Qed.

Lemma flagged_store p d t :
  is_Some (lookup_fd p t) →
  status_updated d = 1 ∨ ready_to_revive d = 1 →
  flagged p (store_fd p d t).
Proof.
  intros Hp Hd. exists d. split; [|exact Hd].
  apply lookup_store_eq_is_Some, Hp.
Qed.

End Replies.

Ltac sent_solve :=
  cbn [tbl fs sent] in *;
  repeat first [ eassumption
               | apply filled_refl
               | apply filled_cons
               | eapply filled_trans; [eassumption|] ].

Section Replies_engine.

Context `{C : Consts} `{B : Backend}.

Variable unsuspend : Z → Z → M Z.
Hypothesis unsuspend_filled : ∀ s p w r w',
  unsuspend s p w = Ret r w' → flagged p (tbl w) →
  filled_since (sent w) (sent w').

Lemma revive_if_suspended_filled s p w a w' :
  revive_if_suspended unsuspend s p w = Ret a w' →
  filled_since (sent w) (sent w').
Proof.
  intros H. unfold revive_if_suspended in H. run_all; [|apply filled_refl].
  match goal with
  | H : unsuspend _ _ _ = Ret _ _ |- _ => apply unsuspend_filled in H
  end.
  - sent_solve.
  - cbn [tbl]. apply flagged_store; [eauto|]. right. reflexivity.
Qed.

Lemma notify_select_filled s p sel w a w' :
  notify_select unsuspend s p sel w = Ret a w' →
  filled_since (sent w) (sent w').
Proof.
  intros H. unfold notify_select in H. run_all; [|apply filled_refl].
  match goal with
  | H : unsuspend _ _ _ = Ret _ _ |- _ => apply unsuspend_filled in H
  end.
  - sent_solve.
  - cbn [tbl]. apply flagged_store; [|left; reflexivity].
    rewrite lookup_store_eq_is_Some; eauto.
Qed.

Ltac sub_filled :=
  repeat match goal with
  | H : revive_if_suspended _ _ _ _ = Ret _ _ |- _ =>
      apply revive_if_suspended_filled in H
  | H : notify_select _ _ _ _ _ = Ret _ _ |- _ =>
      apply notify_select_filled in H
  end.

Lemma read_filled minor s sz pretend w a w' :
  uds_perform_read_with unsuspend minor s sz pretend w = Ret a w' →
  filled_since (sent w) (sent w').
Proof.
  intros H. unfold uds_perform_read_with in H.
  run_all; sub_filled; sent_solve.
Qed.

Lemma write_to_peer_filled minor s sz pretend fd p w a w' :
  write_to_peer unsuspend minor s sz pretend fd p w = Ret a w' →
  filled_since (sent w) (sent w').
Proof.
  intros H. unfold write_to_peer in H.
  run_all; sub_filled; sent_solve.
Qed.

Lemma write_filled minor s sz pretend w a w' :
  uds_perform_write_with unsuspend minor s sz pretend w = Ret a w' →
  filled_since (sent w) (sent w').
Proof.
  intros H. unfold uds_perform_write_with in H.
  run_all;
    repeat match goal with
    | H : write_to_peer _ _ _ _ _ _ _ _ = Ret _ _ |- _ =>
        apply write_to_peer_filled in H
    end; sent_solve.
Qed.

End Replies_engine.

Section Replies_revive.

Context `{C : Consts} `{B : Backend}.

Hypothesis suspend_not_ok : SUSPEND ≠ OK.

Variables pr pw : Z → Z → Z → Z → M Z.
Hypothesis pr_filled : ∀ m s sz p w a w',
  pr m s sz p w = Ret a w' → filled_since (sent w) (sent w').
Hypothesis pw_filled : ∀ m s sz p w a w',
  pw m s sz p w = Ret a w' → filled_since (sent w) (sent w').

Lemma unsuspend_with_filled s minor w r w' :
  uds_unsuspend_with pr pw s minor w = Ret r w' →
  flagged minor (tbl w) →
  filled_since (sent w) (sent w').
Proof.
  intros H (d & Hd & Hflag). unfold uds_unsuspend_with, finish in H.
  run_all; same_lookup;
    repeat match goal with
    | H : pr _ _ _ _ _ = Ret _ _ |- _ => apply pr_filled in H
    | H : pw _ _ _ _ _ = Ret _ _ |- _ => apply pw_filled in H
    end;
    try lia; sent_solve.
Qed.

End Replies_revive.

Section Replies_handlers.

Context `{C : Consts} `{B : Backend}.

Hypothesis suspend_not_ok : SUSPEND ≠ OK.

Lemma uds_unsuspend_filled fuel : ∀ s p w r w',
  uds_unsuspend fuel s p w = Ret r w' → flagged p (tbl w) →
  filled_since (sent w) (sent w').
Proof.
  induction fuel as [|n IH]; intros s p w r w' H Hf; [discriminate|].
  cbn [uds_unsuspend] in H.
  eapply unsuspend_with_filled; [exact suspend_not_ok | | | exact H | exact Hf].
  - intros. eapply read_filled; [exact IH | eassumption].
  - intros. eapply write_filled; [exact IH | eassumption].
Qed.

Lemma uds_perform_read_filled fuel minor s sz pretend w a w' :
  uds_perform_read fuel minor s sz pretend w = Ret a w' →
  filled_since (sent w) (sent w').
Proof. apply read_filled, uds_unsuspend_filled. Qed.

Lemma uds_perform_write_filled fuel minor s sz pretend w a w' :
  uds_perform_write fuel minor s sz pretend w = Ret a w' →
  filled_since (sent w) (sent w').
Proof. apply write_filled, uds_unsuspend_filled. Qed.

Ltac engine_filled :=
  repeat match goal with
  | H : uds_perform_read _ _ _ _ _ _ = Ret _ _ |- _ =>
      apply uds_perform_read_filled in H
  | H : uds_perform_write _ _ _ _ _ _ = Ret _ _ |- _ =>
      apply uds_perform_write_filled in H
  | H : revive_if_suspended (uds_unsuspend ?f) _ _ _ = Ret _ _ |- _ =>
      apply (revive_if_suspended_filled _ (uds_unsuspend_filled f)) in H
  end.

(** X16.  No entry point sends a reply it has not filled in.  Where
    SUSPEND differs from OK, every message that uds_open, uds_close,
    uds_read, uds_write, uds_select or uds_cancel hands to reply() in a run
    that returns, through however many revivals, carries a message that
    was filled in, and the messages sent before are kept; the same holds
    for uds_unsuspend itself on a descriptor with status_updated or
    ready_to_revive set. *)
Theorem no_unfilled_reply fuel dev_m_in src minor w :
  let kept (w' : world) := filled_since (sent w) (sent w') in
  (∀ r w', uds_open dev_m_in w = Ret r w' → kept w') ∧
  (∀ r w', uds_close fuel dev_m_in w = Ret r w' → kept w') ∧
  (∀ r w', uds_read fuel dev_m_in w = Ret r w' → kept w') ∧
  (∀ r w', uds_write fuel dev_m_in w = Ret r w' → kept w') ∧
  (∀ r w', uds_select fuel dev_m_in w = Ret r w' → kept w') ∧
  (∀ r w', uds_cancel dev_m_in w = Ret r w' → kept w') ∧
  (∀ r w', flagged minor (tbl w) →
           uds_unsuspend fuel src minor w = Ret r w' → kept w').
Proof.
  intros kept. unfold kept.
  refine (conj _ (conj _ (conj _ (conj _ (conj _ (conj _ _)))))).
  - intros r w' H. unfold uds_open in H. run_all; sent_solve.
  - intros r w' H. unfold uds_close in H. run_all; engine_filled; sent_solve.
  - intros r w' H. unfold uds_read in H. run_all; engine_filled; sent_solve.
  - intros r w' H. unfold uds_write in H. run_all; engine_filled; sent_solve.
  - intros r w' H. unfold uds_select in H. run_all; engine_filled; sent_solve.
  - intros r w' H. unfold uds_cancel, cancel_rollback in H.
    run_all; sent_solve.
  - intros r w' Hf H. eapply uds_unsuspend_filled; eauto.
Qed.

End Replies_handlers.

(** ** Array bounds *)

Section Bounds.

Context `{C : Consts} `{B : Backend}.

Variable n : nat.

Lemma in_bounds_weaken {A} (m : M A) (Q Q' : A → Prop) :
  in_bounds n m Q → (∀ a, Q a → Q' a) → in_bounds n m Q'.
Proof.
  intros Hm HQ w Hw. destruct (Hm w Hw) as [H1 H2]. split; [exact H1|].
  intros a w' Hr. destruct (H2 a w' Hr). auto.
Qed.

Lemma in_bounds_top {A} (m : M A) (Q : A → Prop) :
  in_bounds n m Q → in_bounds n m (fun _ => True).
Proof. intros Hm. eapply in_bounds_weaken; [exact Hm | auto]. Qed.

Lemma in_bounds_ret {A} (a : A) (Q : A → Prop) :
  Q a → in_bounds n (ret a) Q.
Proof.
  intros Ha w Hw. split; [discriminate|].
  intros a' w' Hr. injection Hr as <- <-. auto.
Qed.

Lemma in_bounds_bind {A A'} (m : M A) (k : A → M A') Q R :
  in_bounds n m Q → (∀ a, Q a → in_bounds n (k a) R) →
  in_bounds n (bind m k) R.
Proof.
  intros Hm Hk w Hw. destruct (Hm w Hw) as [H1 H2]. unfold bind.
  destruct (m w) as [a w1| |] eqn:E; [|contradiction|].
  - destruct (H2 a w1 eq_refl) as [Hw1 Ha]. exact (Hk a Ha w1 Hw1).
  - split; [discriminate|]. intros ? ? Hr. discriminate.
Qed.

Lemma in_bounds_get_fd i :
  0 ≤ i < Z.of_nat n → in_bounds n (get_fd i) (desc_ok n).
Proof.
  intros Hi w [Hlen Hall]. unfold get_fd.
  destruct (lookup_fd_is_Some i (tbl w)) as [d Hd]; [lia|].
  rewrite Hd. split; [discriminate|].
  intros a w' Hr. injection Hr as <- <-. split; [split; assumption|].
  eapply Hall; eauto.
Qed.

Lemma table_ok_store i x t :
  table_ok n t → desc_ok n x → table_ok n (store_fd i x t).
Proof.
  intros [Hlen Hall] Hx. split; [rewrite length_store; exact Hlen|].
  intros j d Hj. unfold lookup_fd, store_fd in Hj.
  destruct (0 <=? j) eqn:E; [|discriminate].
  apply list_lookup_insert_Some in Hj as [(_ & <- & _) | [_ Hj]];
    [exact Hx|].
  apply (Hall j d). unfold lookup_fd. rewrite E. exact Hj.
Qed.

Lemma in_bounds_upd_fd i f :
  0 ≤ i < Z.of_nat n → (∀ d, desc_ok n d → desc_ok n (f d)) →
  in_bounds n (upd_fd i f) (fun _ => True).
Proof.
  intros Hi Hf w [Hlen Hall]. unfold upd_fd.
  destruct (lookup_fd_is_Some i (tbl w)) as [d Hd]; [lia|].
  rewrite Hd. split; [discriminate|].
  intros a w' Hr. injection Hr as <- <-. split; [|exact I].
  cbn [tbl]. apply table_ok_store; [split; assumption|].
  apply Hf. eapply Hall; eauto.
Qed.

Lemma in_bounds_get_tbl : in_bounds n get_tbl (table_ok n).
Proof.
  intros w Hw. split; [discriminate|].
  intros a w' Hr. injection Hr as <- <-. auto.
Qed.

Lemma in_bounds_put_tbl t : table_ok n t → in_bounds n (put_tbl t) (fun _ => True).
Proof.
  intros Ht w Hw. split; [discriminate|].
  intros a w' Hr. injection Hr as <- <-. auto.
Qed.

Lemma in_bounds_reply dst m : in_bounds n (reply dst m) (fun _ => True).
Proof.
  intros w Hw. split; [discriminate|].
  intros a w' Hr. injection Hr as <- <-. auto.
Qed.

Lemma in_bounds_call {A} (f : fs_state → fs_state * A) :
  in_bounds n (call f) (fun _ => True).
Proof.
  intros w Hw. unfold call. destruct (f (fs w)) as [b a].
  split; [discriminate|].
  intros a' w' Hr. injection Hr as <- <-. auto.
Qed.

Lemma in_bounds_lift_opt {A} (o : option A) :
  is_Some o → in_bounds n (lift_opt o) (fun a => o = Some a).
Proof.
  intros [a ->] w Hw. split; [discriminate|].
  intros a' w' Hr. injection Hr as <- <-. auto.
Qed.

Lemma in_bounds_when c m :
  in_bounds n m (fun _ => True) → in_bounds n (when c m) (fun _ => True).
Proof. intros Hm. destruct c; [exact Hm | apply in_bounds_ret; exact I]. Qed.

Lemma desc_ok_zero : (0 < n)%nat → desc_ok n zero_fd.
Proof. intros Hn. split; [right; simpl; lia | simpl; lia]. Qed.

Lemma desc_ok_open m d : desc_ok n (open_init m d).
Proof.
  split; [left; reflexivity|]. simpl.
  rewrite Nat2Z.id, length_replicate. lia.
Qed.

End Bounds.

(** One step of a proof that a computation stays within the arrays. *)
Ltac ib_idx := cbn [tbl fs sent] in *; first [assumption | lia].

Ltac ib_kept :=
  first [ intros ? [? ?]; split; assumption
        | intros ? [? ?]; split; [left; reflexivity | assumption]
        | intros ? [? ?];
          match goal with
          | |- desc_ok _ (if ?c then _ else _) => destruct c
          end; split; assumption
        | intros ? _; apply desc_ok_zero; lia
        | intros ? _; apply desc_ok_open ].

Ltac ib_step :=
  lazymatch goal with
  | |- in_bounds _ (bind (get_fd _) _) _ =>
      eapply in_bounds_bind;
        [apply in_bounds_get_fd; ib_idx | intros ? [? ?]]
  | |- in_bounds _ (bind get_tbl _) _ =>
      eapply in_bounds_bind; [apply in_bounds_get_tbl | intros ? ?]
  | |- in_bounds _ (bind (ret _) _) _ =>
      eapply in_bounds_bind; [apply in_bounds_ret; exact I | intros ? _]
  | |- in_bounds _ (bind _ _) _ =>
      eapply in_bounds_bind with (Q := fun _ => True); [|intros ? _]
  | |- in_bounds _ (if ?c then _ else _) _ => destruct c eqn:?
  | |- in_bounds _ (match ?s with UDS_NOT_SUSPENDED => _ | _ => _ end) _ =>
      destruct s eqn:?
  | |- in_bounds _ (when _ _) _ => apply in_bounds_when
  | |- in_bounds _ (ret _) _ => apply in_bounds_ret; exact I
  | |- in_bounds _ (get_fd _) _ =>
      eapply in_bounds_top; apply in_bounds_get_fd; ib_idx
  | |- in_bounds _ (upd_fd _ _) _ =>
      apply in_bounds_upd_fd; [ib_idx | ib_kept]
  | |- in_bounds _ (reply _ _) _ => apply in_bounds_reply
  | |- in_bounds _ (call _) _ => apply in_bounds_call
  end.

Section Bounds_engine.

Context `{C : Consts} `{B : Backend}.

Variable n : nat.

Variable unsuspend : Z → Z → M Z.
Hypothesis unsuspend_in_bounds : ∀ s p,
  0 ≤ p < Z.of_nat n → in_bounds n (unsuspend s p) (fun _ => True).

Lemma revive_if_suspended_in_bounds s p :
  0 ≤ p < Z.of_nat n →
  in_bounds n (revive_if_suspended unsuspend s p) (fun _ => True).
Proof.
  intros Hp. unfold revive_if_suspended.
  repeat first [ib_step | apply unsuspend_in_bounds; exact Hp].
Qed.

Lemma notify_select_in_bounds s p sel :
  0 ≤ p < Z.of_nat n →
  in_bounds n (notify_select unsuspend s p sel) (fun _ => True).
Proof.
  intros Hp. unfold notify_select.
  repeat first [ib_step | apply unsuspend_in_bounds; exact Hp].
Qed.

Ltac ib_engine :=
  repeat first
    [ ib_step
    | apply revive_if_suspended_in_bounds; ib_idx
    | apply notify_select_in_bounds; ib_idx ].

Lemma read_in_bounds minor s sz pretend :
  0 ≤ minor < Z.of_nat n →
  in_bounds n (uds_perform_read_with unsuspend minor s sz pretend)
    (fun _ => True).
Proof.
  intros Hm. unfold uds_perform_read_with. cbv zeta. ib_engine.
Qed.

Lemma write_to_peer_in_bounds minor s sz pretend fd p :
  0 ≤ minor < Z.of_nat n →
  p = -1 ∨ 0 ≤ p < Z.of_nat n →
  in_bounds n (write_to_peer unsuspend minor s sz pretend fd p)
    (fun _ => True).
Proof.
  intros Hm Hp. unfold write_to_peer. ib_engine.
Qed.

Lemma scan_from_in_table test (t : list uds_fd) :
  scan_from test 0 t = -1 ∨
  0 ≤ scan_from test 0 t < Z.of_nat (length t).
Proof.
  destruct (scan_from_0 test t) as [[Hr _] | [(dp & Hl & _) _]];
    [left; exact Hr | right]. eapply lookup_fd_lt; eauto.
Qed.

Lemma write_in_bounds minor s sz pretend :
  0 ≤ minor < Z.of_nat n →
  in_bounds n (uds_perform_write_with unsuspend minor s sz pretend)
    (fun _ => True).
Proof.
  intros Hm. unfold uds_perform_write_with.
  repeat first
    [ apply write_to_peer_in_bounds; [exact Hm|]
    | ib_step ].
  - right. lia.
  - match goal with
    | H : table_ok n ?t |- _ =>
        destruct H as [<- _]; apply scan_from_in_table
    end.
Qed.

End Bounds_engine.

Section Bounds_revive.

Context `{C : Consts} `{B : Backend}.

Variable n : nat.

Variables pr pw : Z → Z → Z → Z → M Z.
Hypothesis pr_in_bounds : ∀ m s sz p,
  0 ≤ m < Z.of_nat n → in_bounds n (pr m s sz p) (fun _ => True).
Hypothesis pw_in_bounds : ∀ m s sz p,
  0 ≤ m < Z.of_nat n → in_bounds n (pw m s sz p) (fun _ => True).

Lemma unsuspend_with_in_bounds s minor :
  0 ≤ minor < Z.of_nat n →
  in_bounds n (uds_unsuspend_with pr pw s minor) (fun _ => True).
Proof.
  intros Hm. unfold uds_unsuspend_with, finish.
  repeat first
    [ ib_step
    | apply pr_in_bounds; exact Hm
    | apply pw_in_bounds; exact Hm ].
Qed.

End Bounds_revive.

Section Bounds_handlers.

Context `{C : Consts} `{B : Backend}.

Variable n : nat.

Lemma uds_unsuspend_in_bounds fuel : ∀ s p,
  0 ≤ p < Z.of_nat n → in_bounds n (uds_unsuspend fuel s p) (fun _ => True).
Proof.
  induction fuel as [|f IH]; intros s p Hp.
  - intros w Hw. split; [discriminate|]. intros ? ? Hr. discriminate.
  - cbn [uds_unsuspend]. apply unsuspend_with_in_bounds; [| |exact Hp].
    + intros. apply read_in_bounds; [exact IH | assumption].
    + intros. apply write_in_bounds; [exact IH | assumption].
Qed.

Lemma uds_perform_read_in_bounds fuel minor s sz pretend :
  0 ≤ minor < Z.of_nat n →
  in_bounds n (uds_perform_read fuel minor s sz pretend) (fun _ => True).
Proof. apply read_in_bounds, uds_unsuspend_in_bounds. Qed.

Lemma uds_perform_write_in_bounds fuel minor s sz pretend :
  0 ≤ minor < Z.of_nat n →
  in_bounds n (uds_perform_write fuel minor s sz pretend) (fun _ => True).
Proof. apply write_in_bounds, uds_unsuspend_in_bounds. Qed.

Lemma table_ok_cancel_children minor t :
  table_ok n t → table_ok n (cancel_children minor t).
Proof.
  intros [Hlen Hall]. split.
  - unfold cancel_children. rewrite length_map. exact Hlen.
  - intros i d Hi. unfold cancel_children in Hi.
    rewrite lookup_fd_map in Hi.
    destruct (lookup_fd i t) as [x|] eqn:Ex; [|discriminate].
    injection Hi as <-. specialize (Hall i x Ex).
    destruct (child x =? minor); [|exact Hall].
    destruct Hall. split; assumption.
Qed.

Lemma table_ok_backlogs_in_bounds t : table_ok n t → backlogs_in_bounds t.
Proof. intros [_ Hall] i d Hi _. apply (Hall i d Hi). Qed.

Lemma table_ok_cancel_backlogs minor t t' :
  table_ok n t → cancel_backlogs minor t = Some t' → table_ok n t'.
Proof.
  intros [Hlen Hall] Hc.
  pose proof (cancel_backlogs_length _ _ _ Hc) as Hl.
  split; [congruence|]. intros i d' Hi.
  destruct (lookup_fd_is_Some i t) as [d Hd].
  { rewrite <- Hl. eapply lookup_fd_lt; eauto. }
  destruct (cancel_backlogs_lookup _ _ _ _ _ Hc Hd) as (d'' & Hd'' & Hu).
  rewrite Hi in Hd''. injection Hd'' as <-.
  specialize (Hall i d Hd). destruct Hall as [Hp Hb].
  destruct Hu as [[_ ->] | (_ & bl & Hbl & ->)]; [split; assumption|].
  split; [exact Hp|]. simpl.
  rewrite (backlog_remove_length _ _ _ _ Hbl). exact Hb.
Qed.

Ltac ib_bools :=
  repeat match goal with
  | H : negb _ = true |- _ => apply negb_true_iff in H
  | H : negb _ = false |- _ => apply negb_false_iff in H
  end.

Ltac ib_handler fuel :=
  repeat first
    [ ib_step
    | apply revive_if_suspended_in_bounds;
        [apply uds_unsuspend_in_bounds | ib_bools; ib_idx]
    | apply uds_perform_read_in_bounds; ib_idx
    | apply uds_perform_write_in_bounds; ib_idx ].

Lemma uds_open_in_bounds dev_m_in :
  in_bounds n (uds_open dev_m_in) (fun _ => True).
Proof.
  unfold uds_open. eapply in_bounds_bind; [apply in_bounds_get_tbl|].
  intros t [Hlen _]. cbv zeta.
  destruct (scan_from_1 (fun d => UDS_STATE_eqb (state d) UDS_FREE) t)
    as [[-> _] | (Hge & (d & Hd & _) & _)].
  - cbn [Z.eqb]. apply in_bounds_ret. exact I.
  - apply lookup_fd_lt in Hd. rewrite Hlen in Hd.
    set (minor := scan_from _ 1 (drop 1 t)) in *. clearbody minor.
    ib_handler 0%nat.
Qed.

Lemma uds_close_in_bounds fuel dev_m_in :
  0 ≤ uds_minor dev_m_in < Z.of_nat n →
  in_bounds n (uds_close fuel dev_m_in) (fun _ => True).
Proof.
  intros Hm. unfold uds_close. cbv zeta.
  eapply in_bounds_bind; [apply in_bounds_get_fd; exact Hm|].
  intros fd [Hp Hb].
  destruct (negb (in_use fd)); [apply in_bounds_ret; exact I|].
  eapply in_bounds_bind with (Q := fun _ => True).
  { destruct (peer fd =? -1) eqn:E; cbn [negb];
      [apply in_bounds_ret; exact I|].
    assert (Hp' : 0 ≤ peer fd < Z.of_nat n) by lia.
    ib_handler fuel. }
  intros _ _. ib_handler fuel.
Qed.

Lemma uds_read_in_bounds fuel dev_m_in :
  0 ≤ uds_minor dev_m_in < Z.of_nat n →
  in_bounds n (uds_read fuel dev_m_in) (fun _ => True).
Proof. intros Hm. unfold uds_read. cbv zeta. ib_handler fuel. Qed.

Lemma uds_write_in_bounds fuel dev_m_in :
  0 ≤ uds_minor dev_m_in < Z.of_nat n →
  in_bounds n (uds_write fuel dev_m_in) (fun _ => True).
Proof. intros Hm. unfold uds_write. cbv zeta. ib_handler fuel. Qed.

Lemma uds_select_in_bounds fuel dev_m_in :
  0 ≤ uds_minor dev_m_in < Z.of_nat n →
  in_bounds n (uds_select fuel dev_m_in) (fun _ => True).
Proof.
  intros Hm. unfold uds_select. cbv zeta.
  repeat first
    [ match goal with
      | |- in_bounds _ (bind (lift_opt _) _) _ =>
          eapply in_bounds_bind;
            [apply in_bounds_lift_opt, backlog_pending_total; assumption
            | intros ? _]
      end
    | ib_step
    | apply uds_perform_read_in_bounds; ib_idx
    | apply uds_perform_write_in_bounds; ib_idx ].
Qed.

Lemma uds_cancel_in_bounds dev_m_in :
  0 ≤ uds_minor dev_m_in < Z.of_nat n →
  in_bounds n (uds_cancel dev_m_in) (fun _ => True).
Proof.
  intros Hm. unfold uds_cancel, cancel_rollback. cbv zeta.
  repeat first
    [ match goal with
      | Ht : table_ok n ?t
        |- in_bounds _ (bind (lift_opt (cancel_backlogs ?m ?t)) _) _ =>
          eapply in_bounds_bind;
            [apply in_bounds_lift_opt, cancel_backlogs_total,
               table_ok_backlogs_in_bounds; exact Ht
            | intros ? ?; cbv beta in * ]
      | Ht : table_ok n ?t |- in_bounds _ (put_tbl (cancel_children _ ?t)) _ =>
          apply in_bounds_put_tbl, table_ok_cancel_children; exact Ht
      | Ht : table_ok n ?t, Hc : cancel_backlogs _ ?t = Some ?t'
        |- in_bounds _ (put_tbl ?t') _ =>
          apply in_bounds_put_tbl;
          exact (table_ok_cancel_backlogs _ _ _ Ht Hc)
      end
    | ib_step ].
Qed.

Lemma in_bounds_stays {A} (m : M A) w :
  n = length (tbl w) →
  well_linked (tbl w) →
  in_bounds n m (fun _ => True) → stays_in_bounds m w.
Proof.
  intros -> Hw Hm. destruct (Hm w Hw) as [H1 H2]. split; [exact H1|].
  intros r w' Hr. destruct (H2 r w' Hr) as [[Hlen Hall] _].
  split; [|exact Hlen]. unfold well_linked. rewrite Hlen.
  split; [exact Hlen | exact Hall].
Qed.

End Bounds_handlers.

Section Bounds_closed.

Context `{C : Consts} `{B : Backend}.

Lemma table_ok_Forall n (t : list uds_fd) :
  length t = n → Forall (desc_ok n) t → table_ok n t.
Proof.
  intros Hlen Hall. split; [exact Hlen|]. intros i d Hi.
  apply lookup_fd_Some in Hi as [_ Hi].
  rewrite Forall_lookup in Hall. eapply Hall; eauto.
Qed.

(** X17.  No entry point indexes an array outside its bounds.  In a table
    where every peer link is -1 or a slot of the table and every backlog
    lies within its array, and for a request that names a slot of the
    table, uds_open, uds_close, uds_read, uds_write, uds_select,
    uds_cancel and uds_unsuspend never read or write uds_fd_table or a
    backlog outside their bounds, through however many revivals; and when
    they return, the table has as many slots and is linked as well as
    before. *)
Theorem no_out_of_bounds_access fuel dev_m_in src w :
  well_linked (tbl w) →
  0 ≤ uds_minor dev_m_in < Z.of_nat (length (tbl w)) →
  stays_in_bounds (uds_open dev_m_in) w ∧
  stays_in_bounds (uds_close fuel dev_m_in) w ∧
  stays_in_bounds (uds_read fuel dev_m_in) w ∧
  stays_in_bounds (uds_write fuel dev_m_in) w ∧
  stays_in_bounds (uds_select fuel dev_m_in) w ∧
  stays_in_bounds (uds_cancel dev_m_in) w ∧
  stays_in_bounds (uds_unsuspend fuel src (uds_minor dev_m_in)) w.
Proof.
  intros Hw Hm.
  refine (conj _ (conj _ (conj _ (conj _ (conj _ (conj _ _))))));
    apply (in_bounds_stays (length (tbl w)) _ w eq_refl Hw).
  - apply uds_open_in_bounds.
  - apply uds_close_in_bounds, Hm.
  - apply uds_read_in_bounds, Hm.
  - apply uds_write_in_bounds, Hm.
  - apply uds_select_in_bounds, Hm.
  - apply uds_cancel_in_bounds, Hm.
  - apply uds_unsuspend_in_bounds, Hm.
Qed.

End Bounds_closed.

(** ** Blocking and waking through the entry points *)

Section Wake.

Context `{C : Consts} `{B : Backend}.

(** X18.  A blocked read is completed by the write of the peer.  On a
    connected stream or seqpacket pair in use with the receiving buffer
    empty: uds_read returns SUSPEND and leaves the reader suspended in a
    read, with the request on record; the uds_write of the peer that
    follows stores its bytes, and within the same call the read is retried
    and its DEV_REVIVE reply is sent, addressed with the endpoint and the
    grant of the read request and carrying the count the backend
    delivered.  The write returns the count it stored, and the reader is no
    longer suspended. *)
Theorem blocked_read_is_completed_by_write fuel ma mb w da db b1 b2 k m :
  let a := uds_minor ma in
  let b := uds_minor mb in
  lookup_fd a (tbl w) = Some da →
  lookup_fd b (tbl w) = Some db →
  a ≠ b →
  state da = UDS_INUSE → state db = UDS_INUSE →
  connection_oriented da → type da ≠ SOCK_DGRAM →
  peer da = b → peer db = a →
  has_bit (mode da) S_IWUSR = true →
  has_bit (mode db) S_IRUSR = true →
  pos db = 0 → size db = 0 →
  suspended da = UDS_NOT_SUSPENDED →
  status_updated db ≠ 1 →
  0 < COUNT mb → 0 < COUNT ma ≤ PIPE_BUF →
  fs_readwrite (fs w)
    (mk_rw_request REQ_WRITE (inode_nr db) (IO_GRANT ma) 0 (COUNT ma))
    = (b1, (OK, k)) →
  0 < k →
  fs_readwrite b1
    (mk_rw_request REQ_READ (inode_nr db) (IO_GRANT mb) 0
       (if COUNT mb >? k then k else COUNT mb))
    = (b2, (OK, m)) →
  m ≠ SUSPEND →
  let blocked := set_suspended UDS_SUSPENDED_READ (track_io mb db) in
  let w1 := mk_world (store_fd b blocked (tbl w)) (fs w) (sent w) in
  uds_read fuel mb w =
    Ret (SUSPEND,
         Some (uds_set_reply DEV_REVIVE (USER_ENDPT mb) (IO_GRANT mb) SUSPEND))
        w1 ∧
  uds_write (S fuel) ma w1 =
    Ret (k, Some (uds_set_reply DEV_REVIVE (USER_ENDPT ma) (IO_GRANT ma) k))
        (mk_world
           (store_fd b
              (set_suspended UDS_NOT_SUSPENDED
                 (read_shift m (set_ready_to_revive 0 (set_size k blocked))))
              (store_fd a (track_io ma da) (tbl w)))
           b2
           ((m_source ma,
             Some (uds_set_reply DEV_REVIVE (USER_ENDPT mb) (IO_GRANT mb) m))
              :: sent w)).
Proof.
  intros a b Ha Hb Hab Hsta Hstb Hco Hnd Hpa Hpb Hwa Hrb Hpos Hsize
    Hsa Hstat Hnb Hna Hwr Hk Hrd Hm blocked w1.
  assert (Ha0 : 0 ≤ a) by apply (lookup_fd_Some _ _ _ Ha).
  assert (Hb0 : 0 ≤ b) by apply (lookup_fd_Some _ _ _ Hb).
  split.
  - (* the read blocks *)
    unfold uds_read. fold b. rewrite (bind_get_fd _ _ _ _ Hb).
    unfold in_use. rewrite Hstb. cbn [UDS_STATE_eqb negb].
    rewrite (bind_upd_fd _ _ _ _ _ Hb).
    set (db1 := track_io mb db).
    set (T1 := store_fd b db1 (tbl w)).
    assert (Hb1 : lookup_fd b T1 = Some db1)
      by (eapply lookup_store_eq; exact Hb).
    assert (Ha1 : lookup_fd a T1 = Some da).
    { unfold T1. rewrite lookup_store_ne; [exact Ha | exact Hb0 | congruence]. }
    erewrite bind_get_fd by exact Hb1.
    change (io_gr_size db1) with (COUNT mb).
    unfold bind at 1. unfold uds_perform_read.
    erewrite (read_blocks_connected _ b _ (COUNT mb) _ db1 da)
      by first [ exact Hb1 | exact Hnb | exact Hrb | exact Hsize | exact Hwa
               | exact Hsa
               | change (peer db1) with (peer db); rewrite Hpb;
                 first [exact Ha1 | lia] ].
    cbn [tbl fs sent]. unfold T1. rewrite store_store.
    erewrite bind_get_fd by (eapply lookup_store_eq; exact Hb).
    reflexivity.
  - (* the write wakes the reader *)
    assert (Hbw : lookup_fd b (tbl w1) = Some blocked)
      by (eapply lookup_store_eq; exact Hb).
    assert (Haw : lookup_fd a (tbl w1) = Some da).
    { unfold w1. cbn [tbl].
      rewrite lookup_store_ne; [exact Ha | exact Hb0 | congruence]. }
    unfold uds_write. fold a. rewrite (bind_get_fd _ _ _ _ Haw).
    unfold in_use. rewrite Hsta. cbn [UDS_STATE_eqb negb].
    rewrite (bind_upd_fd _ _ _ _ _ Haw).
    set (da1 := track_io ma da).
    set (w2 := mk_world (store_fd a da1 (tbl w1)) (fs w1) (sent w1)).
    assert (Ha2 : lookup_fd a (tbl w2) = Some da1)
      by (eapply lookup_store_eq; exact Haw).
    assert (Hb2 : lookup_fd b (tbl w2) = Some blocked).
    { unfold w2. cbn [tbl].
      rewrite lookup_store_ne; [exact Hbw | exact Ha0 | exact Hab]. }
    erewrite bind_get_fd by exact Ha2.
    change (io_gr_size da1) with (COUNT ma).
    unfold bind at 1.
    erewrite (write_wakes_reader fuel a b (m_source ma) (COUNT ma) w2 da1
                blocked b1 b2 k m)
      by first [ exact Ha2 | exact Hb2 | exact Hab | exact Hwa | exact Hco
               | exact Hnd | exact Hpa | exact Hsa | exact Hna | exact Hrb
               | exact Hsize | exact Hpb | exact Hstat | exact Hnb
               | exact Hk | exact Hm | reflexivity
               | change (selecting da1) with 0; lia
               | change (selecting blocked) with 0; lia
               | change (pos blocked) with (pos db); rewrite Hpos; lia
               | change (pos blocked) with (pos db); rewrite Hpos;
                 first [exact Hwr | exact Hrd] ].
    cbn [tbl fs sent].
    set (woken := set_suspended UDS_NOT_SUSPENDED _).
    assert (Hfin : store_fd b woken (tbl w2)
                   = store_fd b woken (store_fd a da1 (tbl w))).
    { unfold w2, w1. cbn [tbl].
      rewrite (store_fd_commute a b da1 blocked (tbl w) Ha0 Hb0 Hab).
      apply store_store. }
    rewrite Hfin.
    erewrite bind_get_fd.
    2: { cbn [tbl]. rewrite lookup_store_ne; [|exact Hb0 | congruence].
         eapply lookup_store_eq; exact Ha. }
    reflexivity.
Qed.

(** X19.  A blocked write is completed by the read of the peer.  On a
    connected stream or seqpacket pair in use whose receiving buffer is too
    full for the write: uds_write returns SUSPEND and leaves the writer
    suspended in a write, with the request on record; the uds_read of the
    peer that follows takes all the buffered bytes, and within the same
    call the write is retried at position 0 of the emptied pipe and its
    DEV_REVIVE reply is sent, addressed with the endpoint and the grant of
    the write request and carrying the count the backend stored.  The read
    returns the bytes it took, and the writer is no longer suspended. *)
Theorem blocked_write_is_completed_by_read fuel ma mb w da db b1 b2 k :
  let a := uds_minor ma in
  let b := uds_minor mb in
  lookup_fd a (tbl w) = Some da →
  lookup_fd b (tbl w) = Some db →
  a ≠ b →
  state da = UDS_INUSE → state db = UDS_INUSE →
  connection_oriented da → type da ≠ SOCK_DGRAM →
  peer da = b → peer db = a →
  has_bit (mode da) S_IWUSR = true →
  has_bit (mode db) S_IRUSR = true →
  0 < size db ≤ COUNT mb →
  0 < COUNT ma ≤ PIPE_BUF →
  PIPE_BUF < pos db + size db + COUNT ma →
  suspended db = UDS_NOT_SUSPENDED →
  status_updated da ≠ 1 →
  fs_readwrite (fs w)
    (mk_rw_request REQ_READ (inode_nr db) (IO_GRANT mb) (pos db) (size db))
    = (b1, (OK, size db)) →
  fs_readwrite b1
    (mk_rw_request REQ_WRITE (inode_nr db) (IO_GRANT ma) 0 (COUNT ma))
    = (b2, (OK, k)) →
  k ≠ SUSPEND →
  let blocked := set_suspended UDS_SUSPENDED_WRITE (track_io ma da) in
  let w1 := mk_world (store_fd a blocked (tbl w)) (fs w) (sent w) in
  uds_write fuel ma w =
    Ret (SUSPEND,
         Some (uds_set_reply DEV_REVIVE (USER_ENDPT ma) (IO_GRANT ma) SUSPEND))
        w1 ∧
  uds_read (S fuel) mb w1 =
    Ret (size db,
         Some (uds_set_reply DEV_REVIVE (USER_ENDPT mb) (IO_GRANT mb)
                 (size db)))
        (mk_world
           (store_fd a
              (set_suspended UDS_NOT_SUSPENDED
                 (set_ready_to_revive 0 blocked))
              (store_fd b (set_pos 0 (set_size k (track_io mb db))) (tbl w)))
           b2
           ((m_source mb,
             Some (uds_set_reply DEV_REVIVE (USER_ENDPT ma) (IO_GRANT ma) k))
              :: sent w)).
Proof.
  intros a b Ha Hb Hab Hsta Hstb Hco Hnd Hpa Hpb Hwa Hrb Hsize Hna Hfull
    Hsb Hstat Hrd Hwr Hk blocked w1.
  assert (Ha0 : 0 ≤ a) by apply (lookup_fd_Some _ _ _ Ha).
  assert (Hb0 : 0 ≤ b) by apply (lookup_fd_Some _ _ _ Hb).
  split.
  - (* the write blocks *)
    unfold uds_write. fold a. rewrite (bind_get_fd _ _ _ _ Ha).
    unfold in_use. rewrite Hsta. cbn [UDS_STATE_eqb negb].
    rewrite (bind_upd_fd _ _ _ _ _ Ha).
    set (da1 := track_io ma da).
    set (T1 := store_fd a da1 (tbl w)).
    assert (Ha1 : lookup_fd a T1 = Some da1)
      by (eapply lookup_store_eq; exact Ha).
    assert (Hb1 : lookup_fd b T1 = Some db).
    { unfold T1. rewrite lookup_store_ne; [exact Hb | exact Ha0 | exact Hab]. }
    erewrite bind_get_fd by exact Ha1.
    change (io_gr_size da1) with (COUNT ma).
    unfold bind at 1. unfold uds_perform_write.
    erewrite (write_connected _ a _ (COUNT ma) 0 _ da1)
      by first [exact Ha1 | exact Hwa | exact Hco | exact Hna
               | change (peer da1) with (peer da); lia].
    change (peer da1) with (peer da). rewrite Hpa.
    erewrite (write_to_peer_blocks _ a _ (COUNT ma) _ da1 b db)
      by first [ exact Ha1 | exact Hb1 | exact Hrb | exact Hsb
               | left; exact Hfull
               | change (type da1) with (type da); intros; contradiction ].
    cbn [tbl fs sent]. unfold T1. rewrite store_store.
    erewrite bind_get_fd by (eapply lookup_store_eq; exact Ha).
    reflexivity.
  - (* the read wakes the writer *)
    assert (Haw : lookup_fd a (tbl w1) = Some blocked)
      by (eapply lookup_store_eq; exact Ha).
    assert (Hbw : lookup_fd b (tbl w1) = Some db).
    { unfold w1. cbn [tbl].
      rewrite lookup_store_ne; [exact Hb | exact Ha0 | exact Hab]. }
    unfold uds_read. fold b. rewrite (bind_get_fd _ _ _ _ Hbw).
    unfold in_use. rewrite Hstb. cbn [UDS_STATE_eqb negb].
    rewrite (bind_upd_fd _ _ _ _ _ Hbw).
    set (db1 := track_io mb db).
    set (w2 := mk_world (store_fd b db1 (tbl w1)) (fs w1) (sent w1)).
    assert (Hb2 : lookup_fd b (tbl w2) = Some db1)
      by (eapply lookup_store_eq; exact Hbw).
    assert (Ha2 : lookup_fd a (tbl w2) = Some blocked).
    { unfold w2. cbn [tbl].
      rewrite lookup_store_ne; [exact Haw | exact Hb0 | congruence]. }
    erewrite bind_get_fd by exact Hb2.
    change (io_gr_size db1) with (COUNT mb).
    unfold bind at 1.
    erewrite (read_wakes_writer fuel a b (m_source mb) (COUNT mb) w2 blocked
                db1 b1 b2 k)
      by first [ exact Ha2 | exact Hb2 | exact Hab | exact Hrb | exact Hsize
               | exact Hpb | exact Hsb | exact Hstat | exact Hwa | exact Hco
               | exact Hnd | exact Hpa | exact Hna | exact Hrd | exact Hwr
               | exact Hk | reflexivity
               | change (selecting db1) with 0; lia
               | change (selecting blocked) with 0; lia ].
    cbn [tbl fs sent].
    change (size db1) with (size db).
    set (woken := set_suspended UDS_NOT_SUSPENDED _).
    set (filled := set_pos 0 _).
    assert (Hfin : store_fd a woken (store_fd b filled (tbl w2))
                   = store_fd a woken (store_fd b filled (tbl w))).
    { unfold w2, w1. cbn [tbl]. rewrite store_store.
      rewrite (store_fd_commute b a filled blocked (tbl w) Hb0 Ha0)
        by congruence.
      rewrite store_store. reflexivity. }
    rewrite Hfin.
    erewrite bind_get_fd.
    2: { cbn [tbl]. rewrite lookup_store_ne; [|exact Ha0 | exact Hab].
         eapply lookup_store_eq; exact Hb. }
    reflexivity.
Qed.

End Wake.

(** ** Datagrams *)

Section Datagram.

Context `{C : Consts} `{B : Backend}.

Lemma first_hit_store test (t : list uds_fd) p i d x :
  first_hit test t p →
  lookup_fd i t = Some d → test x = test d →
  first_hit test (store_fd i x t) p.
Proof.
  intros [(dp & Hp & Tp) Hlow] Hd Hx. split.
  - rewrite (lookup_store _ _ _ _ _ Hd).
    destruct (Z.eq_dec i p) as [-> | _]; [|eauto].
    exists x. split; [reflexivity|]. rewrite Hx.
    rewrite Hd in Hp. injection Hp as ->. exact Tp.
  - intros j dj Hj Hl. rewrite (lookup_store _ _ _ _ _ Hd) in Hl.
    destruct (Z.eq_dec i j) as [-> | _]; [|eauto].
    injection Hl as <-. rewrite Hx. eauto.
Qed.

(** X20.  A datagram carries the address of its sender.  uds_write on a
    datagram socket delivers to the lowest slot bound to the target
    address: the bytes go to the empty buffer of that socket and the
    address of the sender is recorded as its source; the count stored is
    returned.  The uds_read of the receiver that follows asks the backend
    for the bytes of the datagram, returns the count delivered, and leaves
    the recorded source in place. *)
Theorem datagram_records_sender fuel ma mb w da db b1 b2 k m :
  let a := uds_minor ma in
  let b := uds_minor mb in
  lookup_fd a (tbl w) = Some da →
  lookup_fd b (tbl w) = Some db →
  a ≠ b →
  state da = UDS_INUSE → state db = UDS_INUSE →
  type da = SOCK_DGRAM →
  SOCK_DGRAM ≠ SOCK_STREAM → SOCK_DGRAM ≠ SOCK_SEQPACKET →
  first_hit (dgram_bound_to (target da)) (tbl w) b →
  has_bit (mode da) S_IWUSR = true →
  has_bit (mode db) S_IRUSR = true →
  pos db = 0 → size db = 0 → peer db = -1 →
  suspended db = UDS_NOT_SUSPENDED → selecting db ≠ 1 →
  0 < COUNT ma ≤ PIPE_BUF → 0 < COUNT mb →
  fs_readwrite (fs w)
    (mk_rw_request REQ_WRITE (inode_nr db) (IO_GRANT ma) 0 (COUNT ma))
    = (b1, (OK, k)) →
  0 < k →
  fs_readwrite b1
    (mk_rw_request REQ_READ (inode_nr db) (IO_GRANT mb) 0
       (if COUNT mb >? k then k else COUNT mb))
    = (b2, (OK, m)) →
  let delivered := set_source (addr da) (set_size k db) in
  let w1 :=
    mk_world (store_fd b delivered (store_fd a (track_io ma da) (tbl w)))
      b1 (sent w) in
  let received := read_shift m (track_io mb delivered) in
  uds_write fuel ma w =
    Ret (k, Some (uds_set_reply DEV_REVIVE (USER_ENDPT ma) (IO_GRANT ma) k))
        w1 ∧
  uds_read fuel mb w1 =
    Ret (m, Some (uds_set_reply DEV_REVIVE (USER_ENDPT mb) (IO_GRANT mb) m))
        (mk_world
           (store_fd b received (store_fd a (track_io ma da) (tbl w)))
           b2 (sent w)) ∧
  source received = addr da.
Proof.
  intros a b Ha Hb Hab Hsta Hstb Hty Hns Hnq Hhit Hwa Hrb Hpos Hsize Hpb
    Hsb Hslb Hna Hnb Hwr Hk Hrd delivered w1 received.
  assert (Ha0 : 0 ≤ a) by apply (lookup_fd_Some _ _ _ Ha).
  assert (Hb0 : 0 ≤ b) by apply (lookup_fd_Some _ _ _ Hb).
  set (da1 := track_io ma da).
  set (Ta := store_fd a da1 (tbl w)).
  assert (Ha1 : lookup_fd a Ta = Some da1)
    by (eapply lookup_store_eq; exact Ha).
  assert (Hb1 : lookup_fd b Ta = Some db)
    by (unfold Ta; rewrite lookup_store_ne; [exact Hb | exact Ha0 | exact Hab]).
  assert (Hb2 : lookup_fd b (tbl w1) = Some delivered)
    by (eapply lookup_store_eq; exact Hb1).
  refine (conj _ (conj _ _)).
  - unfold uds_write. fold a. rewrite (bind_get_fd _ _ _ _ Ha).
    unfold in_use. rewrite Hsta. cbn [UDS_STATE_eqb negb].
    rewrite (bind_upd_fd _ _ _ _ _ Ha). fold da1. fold Ta.
    erewrite bind_get_fd by exact Ha1.
    change (io_gr_size da1) with (COUNT ma).
    unfold bind at 1. unfold uds_perform_write.
    erewrite (write_dgram _ a _ (COUNT ma) 0 _ da1)
      by first [exact Ha1 | exact Hwa | exact Hna | exact Hty
               | exact Hns | exact Hnq].
    cbn [tbl]. change (target da1) with (target da).
    assert (Hscan : scan_from (dgram_bound_to (target da)) 0 Ta = b)
      by (apply scan_from_first_hit;
          exact (first_hit_store _ _ _ _ _ da1 Hhit Ha eq_refl)).
    rewrite Hscan.
    erewrite (write_to_peer_completes _ a _ (COUNT ma) da1 b db _ b1 k)
      by first [ exact Ha1 | exact Hb1 | exact Hrb | exact Hsb | exact Hslb
               | rewrite Hsize; apply andb_false_r
               | rewrite Hpos, Hsize; first [exact Hwr | lia] ].
    replace (written da1 db k) with delivered.
    2: { unfold written, delivered. change (type da1) with (type da).
         rewrite Hty, Z.eqb_refl. cbv zeta. rewrite Hsize. reflexivity. }
    cbn [tbl fs sent].
    erewrite bind_get_fd.
    2: { cbn [tbl]. rewrite lookup_store_ne; [exact Ha1 | exact Hb0 |].
         congruence. }
    reflexivity.
  - unfold uds_read. fold b. erewrite bind_get_fd by exact Hb2.
    unfold in_use. change (state delivered) with (state db).
    rewrite Hstb. cbn [UDS_STATE_eqb negb].
    erewrite bind_upd_fd by exact Hb2. unfold w1. cbn [tbl fs sent].
    fold Ta. rewrite store_store.
    set (db1 := track_io mb delivered).
    assert (Hb3 : lookup_fd b (store_fd b db1 Ta) = Some db1)
      by (eapply lookup_store_eq; exact Hb1).
    erewrite bind_get_fd by exact Hb3.
    change (io_gr_size db1) with (COUNT mb).
    unfold bind at 1. unfold uds_perform_read.
    erewrite (read_completes _ b _ (COUNT mb) db1 _ b2 m)
      by first [ exact Hb3 | exact Hnb | exact Hrb
               | change (size db1) with k; lia
               | change (pos db1) with (pos db); rewrite Hpos; exact Hrd
               | left; exact Hpb ].
    cbn [tbl fs sent]. rewrite store_store.
    erewrite bind_get_fd by (eapply lookup_store_eq; exact Hb1).
    unfold received, read_shift. cbv zeta.
    destruct (size _ =? 0); reflexivity.
  - unfold received, read_shift. cbv zeta.
    destruct (size _ =? 0); reflexivity.
Qed.

End Datagram.

(** ** The order of the bytes *)

Section Order.

Context `{C : Consts} `{B : Backend}.

Lemma read_shift_part n1 n2 d :
  pos d = 0 → 0 < n2 →
  read_shift n1 (set_size (n1 + n2) d) = set_size n2 (set_pos n1 d).
Proof.
  intros Hp Hn. unfold read_shift. cbv zeta.
  change (size (set_pos (pos (set_size (n1 + n2) d) + n1) (set_size (n1 + n2) d)))
    with (n1 + n2).
  change (pos (set_size (n1 + n2) d)) with (pos d). rewrite Hp.
  replace (n1 + n2 - n1) with n2 by lia.
  change (size (set_size n2 (set_pos (0 + n1) (set_size (n1 + n2) d)))) with n2.
  replace (n2 =? 0) with false by lia.
  destruct d; reflexivity.
Qed.

Lemma read_shift_rest n1 n2 d :
  read_shift n2 (set_size n2 (set_pos n1 d)) = set_size 0 (set_pos 0 d).
Proof.
  unfold read_shift. cbv zeta.
  change (size (set_pos (pos (set_size n2 (set_pos n1 d)) + n2)
                  (set_size n2 (set_pos n1 d)))) with n2.
  rewrite Z.sub_diag.
  change (size (set_size 0 _)) with 0. cbn [Z.eqb].
  destruct d; reflexivity.
Qed.
(** X21.  Bytes leave a stream in the order they came.  On a connected
    stream pair with an empty receiving buffer, nobody suspended or
    selecting, and a backend that stores and returns what it is asked for:
    a second write is stored behind the first (at the offset where the
    first ended), a read of the length of the first write takes the
    bytes from offset 0 and leaves the rest, and the read that follows
    continues at the offset where the first read stopped; after it the
    buffer is empty at position 0 and the table is what it was. *)
Theorem bytes_leave_in_the_order_they_came
    fuel a b src n1 n2 sz w da db b1 b2 b3 b4 :
  lookup_fd a (tbl w) = Some da →
  lookup_fd b (tbl w) = Some db →
  a ≠ b →
  type da = SOCK_STREAM →
  SOCK_STREAM ≠ SOCK_DGRAM → SOCK_STREAM ≠ SOCK_SEQPACKET →
  peer da = b → peer db = a →
  has_bit (mode da) S_IWUSR = true →
  has_bit (mode db) S_IRUSR = true →
  pos db = 0 → size db = 0 →
  suspended da = UDS_NOT_SUSPENDED → suspended db = UDS_NOT_SUSPENDED →
  selecting da ≠ 1 → selecting db ≠ 1 →
  0 < n1 → 0 < n2 → n1 + n2 ≤ PIPE_BUF → n2 ≤ sz →
  fs_readwrite (fs w)
    (mk_rw_request REQ_WRITE (inode_nr db) (io_gr da) 0 n1) = (b1, (OK, n1)) →
  fs_readwrite b1
    (mk_rw_request REQ_WRITE (inode_nr db) (io_gr da) n1 n2) = (b2, (OK, n2)) →
  fs_readwrite b2
    (mk_rw_request REQ_READ (inode_nr db) (io_gr db) 0 n1) = (b3, (OK, n1)) →
  fs_readwrite b3
    (mk_rw_request REQ_READ (inode_nr db) (io_gr db) n1 n2) = (b4, (OK, n2)) →
  let holding (d : uds_fd) (bk : fs_state) :=
    mk_world (store_fd b d (tbl w)) bk (sent w) in
  let w1 := holding (set_size n1 db) b1 in
  let w2 := holding (set_size (n1 + n2) db) b2 in
  let w3 := holding (set_size n2 (set_pos n1 db)) b3 in
  uds_perform_write fuel a src n1 0 w = Ret n1 w1 ∧
  uds_perform_write fuel a src n2 0 w1 = Ret n2 w2 ∧
  uds_perform_read fuel b src n1 0 w2 = Ret n1 w3 ∧
  uds_perform_read fuel b src sz 0 w3 = Ret n2 (mk_world (tbl w) b4 (sent w)).
Proof.
  intros Ha Hb Hab Hty Hnd Hnq Hpa Hpb Hwa Hrb Hpos Hsize Hsa Hsb Hsla Hslb
    Hn1 Hn2 Hfit Hsz Hw1 Hw2 Hr1 Hr2 holding w1 w2 w3.
  assert (Ha0 : 0 ≤ a) by apply (lookup_fd_Some _ _ _ Ha).
  assert (Hb0 : 0 ≤ b) by apply (lookup_fd_Some _ _ _ Hb).
  assert (Hco : connection_oriented da) by (left; exact Hty).
  assert (Hdg : (type da =? SOCK_DGRAM) = false) by lia.
  assert (Hsq : (type da =? SOCK_SEQPACKET) = false) by lia.
  assert (Hat : ∀ d bk, lookup_fd a (tbl (holding d bk)) = Some da).
  { intros d bk. cbn [holding tbl].
    rewrite lookup_store_ne; [exact Ha | exact Hb0 | congruence]. }
  assert (Hbt : ∀ d bk, lookup_fd b (tbl (holding d bk)) = Some d).
  { intros d bk. cbn [holding tbl]. eapply lookup_store_eq; exact Hb. }
  assert (Hwritten : ∀ d k, written da d k = set_size (size d + k) d).
  { intros d k. unfold written. rewrite Hdg. reflexivity. }
  assert (Ha1 : lookup_fd a (tbl w1) = Some da) by apply Hat.
  assert (Ha2 : lookup_fd a (tbl w2) = Some da) by apply Hat.
  assert (Ha3 : lookup_fd a (tbl w3) = Some da) by apply Hat.
  assert (Hb1 : lookup_fd b (tbl w1) = Some (set_size n1 db)) by apply Hbt.
  assert (Hb2 : lookup_fd b (tbl w2) = Some (set_size (n1 + n2) db))
    by apply Hbt.
  assert (Hb3 : lookup_fd b (tbl w3) = Some (set_size n2 (set_pos n1 db)))
    by apply Hbt.
  assert (Hs1 : 0 < n1 ≤ PIPE_BUF) by lia.
  assert (Hs2 : 0 < n2 ≤ PIPE_BUF) by lia.
  refine (conj _ (conj _ (conj _ _))).
  - unfold uds_perform_write.
    rewrite (write_connected _ _ _ _ _ _ _ Ha Hs1 Hwa Hco)
      by (rewrite Hpa; lia).
    rewrite Hpa.
    erewrite (write_to_peer_completes _ a src n1 da b db w b1 n1)
      by first [ exact Ha | exact Hb | exact Hrb | exact Hsb | exact Hslb
               | rewrite Hdg; reflexivity | rewrite Hsq; reflexivity
               | rewrite Hpos, Hsize; first [exact Hw1 | lia] ].
    rewrite Hwritten, Hsize. reflexivity.
  - unfold uds_perform_write.
    rewrite (write_connected _ _ _ _ _ _ _ Ha1 Hs2 Hwa Hco)
      by (rewrite Hpa; lia).
    rewrite Hpa.
    erewrite (write_to_peer_completes _ a src n2 da b (set_size n1 db) w1 b2 n2)
      by first [ exact Ha1 | exact Hb1 | exact Hrb | exact Hsb | exact Hslb
               | rewrite Hdg; reflexivity | rewrite Hsq; reflexivity
               | cbn [pos size set_size]; rewrite Hpos;
                 first [exact Hw2 | lia] ].
    rewrite Hwritten. unfold w1, w2, holding. cbn [tbl fs sent size set_size].
    rewrite store_store. reflexivity.
  - unfold uds_perform_read.
    erewrite (read_completes _ b src n1 (set_size (n1 + n2) db) w2 b3 n1)
      by first [ exact Hb2 | exact Hn1 | exact Hrb
               | cbn [size set_size]; lia
               | cbn [pos size set_size inode_nr io_gr]; rewrite Hpos;
                 replace (if n1 >? n1 + n2 then n1 + n2 else n1) with n1
                   by (destruct (n1 >? n1 + n2) eqn:E; lia);
                 exact Hr1
               | right; exists da; cbn [peer set_size]; rewrite Hpb;
                 refine (conj Ha2 (conj Hab (conj Hsa Hsla))) ].
    rewrite (read_shift_part _ _ _ Hpos Hn2).
    unfold w2, w3, holding. cbn [tbl fs sent]. rewrite store_store.
    reflexivity.
  - unfold uds_perform_read.
    erewrite (read_completes _ b src sz (set_size n2 (set_pos n1 db)) w3 b4 n2)
      by first [ exact Hb3 | lia | exact Hrb
               | cbn [size set_size]; lia
               | cbn [pos size set_size set_pos inode_nr io_gr];
                 replace (if sz >? n2 then n2 else sz) with n2
                   by (destruct (sz >? n2) eqn:E; lia);
                 exact Hr2
               | right; exists da; cbn [peer set_size set_pos]; rewrite Hpb;
                 refine (conj Ha3 (conj Hab (conj Hsa Hsla))) ].
    rewrite read_shift_rest.
    unfold w3, holding. cbn [tbl fs sent]. rewrite store_store.
    f_equal. f_equal. apply store_same. rewrite Hb. f_equal.
    destruct db. simpl in *. subst. reflexivity.
Qed.

End Order.

(** ** What select() reports *)

Section Readiness.

Context `{C : Consts} `{B : Backend}.

Lemma backlog_pending_spec n : ∀ l b,
  backlog_pending n l = Some b →
  (b = true ↔
   ∃ j x, (j < n)%nat ∧ l !! j = Some x ∧ x ≠ -1).
Proof.
  induction n as [|n IH]; intros l b H; simpl in H.
  - injection H as <-. split; [discriminate|]. intros (j & x & Hj & _). lia.
  - destruct l as [|y l]; [discriminate|].
    destruct (Z.eqb_spec y (-1)) as [-> | Hy]; cbn [negb] in H.
    + destruct (IH l b H) as [I1 I2]. split.
      * intros Hb. destruct (I1 Hb) as (j & x & Hj & Hl & Hx).
        exists (S j), x. refine (conj _ (conj Hl Hx)). lia.
      * intros (j & x & Hj & Hl & Hx). apply I2.
        destruct j as [|j]; simpl in Hl; [injection Hl as <-; lia|].
        exists j, x. refine (conj _ (conj Hl Hx)). lia.
    + injection H as <-. split; [|reflexivity]. intros _.
      exists 0%nat, y. refine (conj _ (conj eq_refl Hy)). lia.
Qed.

(** X22.  What uds_select reports for a connection.  On a stream or
    seqpacket socket in use that is not listening, with both ends open
    for reading and writing and buffer windows that are not negative,
    uds_select reports SEL_RD exactly when the socket holds unread bytes,
    and SEL_WR exactly when the pipe of the peer is empty: the probe for
    writing asks for room for PIPE_BUF bytes.  The error latch is left as
    it was. *)
Theorem select_readiness_of_a_connection fuel dev_m_in w d dp :
  let minor := uds_minor dev_m_in in
  lookup_fd minor (tbl w) = Some d →
  state d = UDS_INUSE →
  connection_oriented d → type d ≠ SOCK_DGRAM →
  peer d ≠ -1 → peer d ≠ minor →
  lookup_fd (peer d) (tbl w) = Some dp →
  has_bit (mode d) S_IRUSR = true → has_bit (mode d) S_IWUSR = true →
  has_bit (mode dp) S_IRUSR = true → has_bit (mode dp) S_IWUSR = true →
  0 ≤ size d → 0 ≤ pos dp → 0 ≤ size dp →
  listening d ≠ 1 →
  0 < PIPE_BUF → SUSPEND < 0 →
  let mask := select_mask (0 <? size d) (pos dp + size dp =? 0) in
  ∃ dm,
    uds_select fuel dev_m_in w =
      Ret (mask, Some (uds_sel_reply DEV_SEL_REPL1 minor mask))
          (mk_world (store_fd minor dm (tbl w)) (fs w) (sent w)) ∧
    select_marked dev_m_in d dm ∧ err dm = err d.
Proof.
  intros minor Hd Hst Hco Hnd Hp Hpm Hdp Hr Hw Hrp Hwp Hsize Hposp Hsizep
    Hl Hpipe Hsus mask.
  assert (Hm0 : 0 ≤ minor) by apply (lookup_fd_Some _ _ _ Hd).
  (* the two probes, on any descriptor that is [d] but for the select()
     bookkeeping *)
  assert (Hread : ∀ dx,
    mode dx = mode d → size dx = size d → peer dx = peer d →
    uds_perform_read fuel minor (m_source dev_m_in) 1 1
      (mk_world (store_fd minor dx (tbl w)) (fs w) (sent w)) =
    Ret (if 0 <? size d then 1 else SUSPEND)
      (mk_world (store_fd minor dx (tbl w)) (fs w) (sent w))).
  { intros dx Emode Esize Epeer.
    assert (Hx : lookup_fd minor (store_fd minor dx (tbl w)) = Some dx)
      by (eapply lookup_store_eq; exact Hd).
    assert (Hpx : lookup_fd (peer d) (store_fd minor dx (tbl w)) = Some dp)
      by (rewrite lookup_store_ne; [exact Hdp | exact Hm0 | congruence]).
    unfold uds_perform_read, uds_perform_read_with.
    erewrite bind_get_fd by exact Hx. cbv zeta.
    cbn [Z.leb Z.compare]. rewrite Emode, Hr, Esize, Epeer. cbn [negb].
    destruct (Z.eqb_spec (size d) 0) as [E | E].
    - rewrite E. cbn [Z.ltb Z.compare].
      replace (peer d =? -1) with false by lia. cbn [andb].
      fwd. erewrite bind_get_fd by exact Hpx. fwd. rewrite Hwp.
      reflexivity.
    - replace (0 <? size d) with true by lia.
      replace (1 >? size d) with false by lia. reflexivity. }
  assert (Hwrite : ∀ dx,
    mode dx = mode d → type dx = type d → peer dx = peer d →
    uds_perform_write fuel minor (m_source dev_m_in) PIPE_BUF 1
      (mk_world (store_fd minor dx (tbl w)) (fs w) (sent w)) =
    Ret (if pos dp + size dp =? 0 then PIPE_BUF else SUSPEND)
      (mk_world (store_fd minor dx (tbl w)) (fs w) (sent w))).
  { intros dx Emode Etype Epeer.
    assert (Hx : lookup_fd minor (store_fd minor dx (tbl w)) = Some dx)
      by (eapply lookup_store_eq; exact Hd).
    assert (Hpx : lookup_fd (peer d) (store_fd minor dx (tbl w)) = Some dp)
      by (rewrite lookup_store_ne; [exact Hdp | exact Hm0 | congruence]).
    unfold uds_perform_write.
    erewrite (write_connected _ minor _ PIPE_BUF 1 _ dx)
      by first [ exact Hx | lia | rewrite Emode; exact Hw
               | rewrite Epeer; exact Hp
               | unfold connection_oriented; rewrite Etype; exact Hco ].
    unfold write_to_peer. rewrite Epeer, Etype.
    replace (peer d =? -1) with false by lia.
    erewrite bind_get_fd by exact Hpx. rewrite Hrp. cbn [negb].
    replace (type d =? SOCK_DGRAM) with false by lia. cbn [andb].
    destruct (Z.eqb_spec (pos dp + size dp) 0) as [E | E].
    - replace (pos dp + size dp + PIPE_BUF >? PIPE_BUF) with false by lia.
      replace (size dp >? 0) with false by lia.
      rewrite andb_false_r. reflexivity.
    - replace (pos dp + size dp + PIPE_BUF >? PIPE_BUF) with true by lia.
      reflexivity. }
  unfold uds_select. fold minor.
  rewrite (bind_get_fd _ _ _ _ Hd).
  unfold in_use. rewrite Hst. cbn [UDS_STATE_eqb negb].
  rewrite (bind_upd_fd _ _ _ _ _ Hd).
  set (d0 := set_sel_ops_out 0 _).
  unfold bind at 1. rewrite (Hread d0 eq_refl eq_refl eq_refl).
  erewrite bind_get_fd by (eapply lookup_store_eq; exact Hd).
  change (listening d0) with (listening d).
  replace (listening d =? 1) with false by lia.
  (* the readiness for reading *)
  set (d1 := if 0 <? size d
             then set_sel_ops_out (Z.lor (sel_ops_out d0) SEL_RD) d0
             else d0).
  assert (Hmid :
    (if (if 0 <? size d then 1 else SUSPEND) >? 0
     then upd_fd minor
            (λ d, set_sel_ops_out (Z.lor (sel_ops_out d) SEL_RD) d)
     else when (negb ((if 0 <? size d then 1 else SUSPEND) =? SUSPEND))
            (upd_fd minor
               (λ d, set_sel_ops_out (Z.lor (sel_ops_out d) SEL_RD) d)))
      (mk_world (store_fd minor d0 (tbl w)) (fs w) (sent w)) =
    Ret tt (mk_world (store_fd minor d1 (tbl w)) (fs w) (sent w))).
  { unfold d1. destruct (0 <? size d).
    - cbn [Z.gtb Z.compare]. unfold upd_fd. cbn [tbl fs sent].
      erewrite lookup_store_eq by exact Hd. rewrite store_store.
      reflexivity.
    - replace (SUSPEND >? 0) with false by lia.
      rewrite Z.eqb_refl. reflexivity. }
  unfold bind at 1. rewrite Hmid.
  assert (E1 : mode d1 = mode d ∧ type d1 = type d ∧ peer d1 = peer d)
    by (unfold d1; destruct (0 <? size d); repeat split).
  destruct E1 as (Em & Et & Ep).
  unfold bind at 1. rewrite (Hwrite d1 Em Et Ep).
  set (d2 := if pos dp + size dp =? 0
             then set_sel_ops_out (Z.lor (sel_ops_out d1) SEL_WR) d1
             else d1).
  assert (Hend :
    when (negb ((if pos dp + size dp =? 0 then PIPE_BUF else SUSPEND) =? 0)
          && negb ((if pos dp + size dp =? 0 then PIPE_BUF else SUSPEND)
                   =? SUSPEND))
      (upd_fd minor (λ d, set_sel_ops_out (Z.lor (sel_ops_out d) SEL_WR) d))
      (mk_world (store_fd minor d1 (tbl w)) (fs w) (sent w)) =
    Ret tt (mk_world (store_fd minor d2 (tbl w)) (fs w) (sent w))).
  { unfold d2. destruct (pos dp + size dp =? 0).
    - replace (PIPE_BUF =? 0) with false by lia.
      replace (PIPE_BUF =? SUSPEND) with false by lia.
      cbn [negb andb when]. unfold upd_fd. cbn [tbl fs sent].
      erewrite lookup_store_eq by exact Hd. rewrite store_store.
      reflexivity.
    - rewrite Z.eqb_refl. cbn [negb]. rewrite andb_false_r. reflexivity. }
  unfold bind at 1. rewrite Hend.
  erewrite bind_upd_fd by (eapply lookup_store_eq; exact Hd).
  cbn [tbl fs sent]. rewrite store_store.
  erewrite bind_get_fd by (eapply lookup_store_eq; exact Hd).
  exists (set_syscall_done 1 d2).
  assert (Hmask : sel_ops_out (set_syscall_done 1 d2) = mask).
  { change (sel_ops_out d2 = mask). unfold d2, d1, mask, select_mask.
    destruct (pos dp + size dp =? 0), (0 <? size d); cbn [sel_ops_out set_sel_ops_out d0];
      rewrite ?Z.lor_0_l, ?Z.lor_0_r; reflexivity. }
  rewrite Hmask. refine (conj eq_refl (conj _ _)).
  - unfold select_marked, d2, d1.
    destruct (pos dp + size dp =? 0), (0 <? size d); cbn; intuition auto.
  - unfold d2, d1.
    destruct (pos dp + size dp =? 0), (0 <? size d); reflexivity.
Qed.

(** X23.  What uds_select reports for a listening socket.  On a stream or
    seqpacket socket in use that is listening (no peer, empty buffer, no
    reset latched, backlog within its array), uds_select reports SEL_RD
    exactly when one of the first backlog_size entries of the backlog is a
    pending connection (differs from -1); it always reports SEL_WR, the
    probe for writing having failed with ENOTCONN.  The descriptor is
    changed in the select() bookkeeping only. *)
Theorem select_reports_pending_connections fuel dev_m_in w d :
  let minor := uds_minor dev_m_in in
  lookup_fd minor (tbl w) = Some d →
  state d = UDS_INUSE →
  listening d = 1 →
  connection_oriented d → peer d = -1 → size d = 0 →
  err d ≠ ECONNRESET →
  has_bit (mode d) S_IRUSR = true → has_bit (mode d) S_IWUSR = true →
  (Z.to_nat (backlog_size d) ≤ length (backlog d))%nat →
  0 < PIPE_BUF →
  ENOTCONN < 0 → ENOTCONN ≠ SUSPEND →
  ∃ pending dm,
    (pending = true ↔
     ∃ j x, (j < Z.to_nat (backlog_size d))%nat ∧
            backlog d !! j = Some x ∧ x ≠ -1) ∧
    uds_select fuel dev_m_in w =
      Ret (select_mask pending true,
           Some (uds_sel_reply DEV_SEL_REPL1 minor (select_mask pending true)))
          (mk_world (store_fd minor dm (tbl w)) (fs w) (sent w)) ∧
    select_marked dev_m_in d dm ∧ err dm = err d.
Proof.
  intros minor Hd Hst Hl Hco Hp Hsz He Hr Hw Hbl Hpipe Hneg Hns.
  destruct (backlog_pending_total _ _ Hbl) as [pending Hpend].
  exists pending.
  unfold uds_select. fold minor.
  rewrite (bind_get_fd _ _ _ _ Hd).
  unfold in_use. rewrite Hst. cbn [UDS_STATE_eqb negb].
  rewrite (bind_upd_fd _ _ _ _ _ Hd).
  set (d0 := set_sel_ops_out 0 _).
  assert (H0 : lookup_fd minor (store_fd minor d0 (tbl w)) = Some d0)
    by (eapply lookup_store_eq; exact Hd).
  unfold bind at 1. unfold uds_perform_read.
  erewrite (read_unconnected _ minor _ 1 1 _ d0)
    by first [exact H0 | exact Hr | exact Hsz | exact Hp | exact Hco | lia].
  change (err d0) with (err d).
  replace (err d =? ECONNRESET) with false by lia.
  erewrite bind_get_fd by exact H0.
  replace (ENOTCONN >? 0) with false by lia.
  change (listening d0) with (listening d). rewrite Hl, Z.eqb_refl.
  change (backlog_size d0) with (backlog_size d).
  change (backlog d0) with (backlog d). rewrite Hpend.
  unfold lift_opt at 1. rewrite bind_bind. unfold bind at 1.
  set (d1 := if pending
             then set_sel_ops_out (Z.lor (sel_ops_out d0) SEL_RD) d0
             else d0).
  assert (Hmid :
    when pending
      (upd_fd minor (λ d, set_sel_ops_out (Z.lor (sel_ops_out d) SEL_RD) d))
      (mk_world (store_fd minor d0 (tbl w)) (fs w) (sent w)) =
    Ret tt (mk_world (store_fd minor d1 (tbl w)) (fs w) (sent w))).
  { unfold d1. destruct pending; [|reflexivity].
    cbn [when]. unfold upd_fd. cbn [tbl fs sent].
    rewrite H0, store_store. reflexivity. }
  unfold bind at 1. rewrite Hmid.
  assert (H1 : lookup_fd minor (store_fd minor d1 (tbl w)) = Some d1)
    by (eapply lookup_store_eq; exact Hd).
  assert (E1 : mode d1 = mode d ∧ type d1 = type d ∧ peer d1 = peer d ∧
               err d1 = err d)
    by (unfold d1; destruct pending; repeat split).
  destruct E1 as (Em & Et & Ep & Ee).
  unfold bind at 1. unfold uds_perform_write.
  erewrite (write_unconnected _ minor _ PIPE_BUF 1 _ d1)
    by first [ exact H1 | lia | rewrite Em; exact Hw | rewrite Ep; exact Hp
             | unfold connection_oriented; rewrite Et; exact Hco ].
  rewrite Ee. replace (err d =? ECONNRESET) with false by lia.
  replace (ENOTCONN =? 0) with false by lia.
  replace (ENOTCONN =? SUSPEND) with false by lia. cbn [negb andb when].
  erewrite bind_upd_fd by exact H1. cbn [tbl fs sent]. rewrite store_store.
  erewrite bind_upd_fd by (eapply lookup_store_eq; exact Hd).
  cbn [tbl fs sent]. rewrite store_store.
  erewrite bind_get_fd by (eapply lookup_store_eq; exact Hd).
  set (dm := set_syscall_done 1 _). exists dm.
  assert (Hmask : sel_ops_out dm = select_mask pending true).
  { change (Z.lor (sel_ops_out d1) SEL_WR = select_mask pending true).
    unfold d1, select_mask.
    destruct pending; cbn [sel_ops_out set_sel_ops_out d0];
      rewrite ?Z.lor_0_l; reflexivity. }
  rewrite Hmask.
  refine (conj (backlog_pending_spec _ _ _ Hpend) (conj eq_refl (conj _ _))).
  - unfold select_marked, dm, d1. destruct pending; cbn; intuition auto.
  - unfold dm, d1. destruct pending; reflexivity.
Qed.

End Readiness.

(** ** Cancelling a blocked read *)

Section Cancel_read.

Context `{C : Consts} `{B : Backend}.

(** X24.  A cancelled read is not answered later.  On a connected stream
    or seqpacket pair in use with an empty receiving buffer: uds_read
    blocks; uds_cancel on the reader answers EINTR and leaves it not
    suspended, with the call marked done; the uds_write of the peer that
    follows stores its bytes in the buffer of the reader and returns the
    count, and no DEV_REVIVE reply is sent for the read that was
    cancelled: the replies sent are what they were. *)
Theorem cancelled_read_is_not_revived fuel ma mb mc w da db b1 k :
  let a := uds_minor ma in
  let b := uds_minor mb in
  uds_minor mc = b →
  lookup_fd a (tbl w) = Some da →
  lookup_fd b (tbl w) = Some db →
  a ≠ b →
  state da = UDS_INUSE → state db = UDS_INUSE →
  connection_oriented da → type da ≠ SOCK_DGRAM →
  peer da = b → peer db = a →
  has_bit (mode da) S_IWUSR = true →
  has_bit (mode db) S_IRUSR = true →
  pos db = 0 → size db = 0 →
  suspended da = UDS_NOT_SUSPENDED →
  0 < COUNT mb → 0 < COUNT ma ≤ PIPE_BUF →
  m_type mb ≠ 0 → m_type mb ≠ DEV_IOCTL_S →
  fs_readwrite (fs w)
    (mk_rw_request REQ_WRITE (inode_nr db) (IO_GRANT ma) 0 (COUNT ma))
    = (b1, (OK, k)) →
  let blocked := set_suspended UDS_SUSPENDED_READ (track_io mb db) in
  let cancelled :=
    set_syscall_done 1
      (set_suspended UDS_NOT_SUSPENDED
         (set_selecting 0 (set_endpoint (USER_ENDPT mc) blocked))) in
  let w1 := mk_world (store_fd b blocked (tbl w)) (fs w) (sent w) in
  let w2 := mk_world (store_fd b cancelled (tbl w)) (fs w) (sent w) in
  uds_read fuel mb w =
    Ret (SUSPEND,
         Some (uds_set_reply DEV_REVIVE (USER_ENDPT mb) (IO_GRANT mb) SUSPEND))
        w1 ∧
  uds_cancel mc w1 =
    Ret (EINTR,
         Some (uds_set_reply DEV_REVIVE (USER_ENDPT mc) (IO_GRANT mc) EINTR))
        w2 ∧
  uds_write fuel ma w2 =
    Ret (k, Some (uds_set_reply DEV_REVIVE (USER_ENDPT ma) (IO_GRANT ma) k))
        (mk_world
           (store_fd b (set_size k cancelled)
              (store_fd a (track_io ma da) (tbl w)))
           b1 (sent w)).
Proof.
  intros a b Hmc Ha Hb Hab Hsta Hstb Hco Hnd Hpa Hpb Hwa Hrb Hpos Hsize
    Hsa Hnb Hna Hty0 Htyi Hwr blocked cancelled w1 w2.
  assert (Ha0 : 0 ≤ a) by apply (lookup_fd_Some _ _ _ Ha).
  assert (Hb0 : 0 ≤ b) by apply (lookup_fd_Some _ _ _ Hb).
  refine (conj _ (conj _ _)).
  - (* the read blocks *)
    unfold uds_read. fold b. rewrite (bind_get_fd _ _ _ _ Hb).
    unfold in_use. rewrite Hstb. cbn [UDS_STATE_eqb negb].
    rewrite (bind_upd_fd _ _ _ _ _ Hb).
    set (db1 := track_io mb db).
    set (T1 := store_fd b db1 (tbl w)).
    assert (Hb1 : lookup_fd b T1 = Some db1)
      by (eapply lookup_store_eq; exact Hb).
    assert (Ha1 : lookup_fd a T1 = Some da).
    { unfold T1. rewrite lookup_store_ne; [exact Ha | exact Hb0 | congruence]. }
    erewrite bind_get_fd by exact Hb1.
    change (io_gr_size db1) with (COUNT mb).
    unfold bind at 1. unfold uds_perform_read.
    erewrite (read_blocks_connected _ b _ (COUNT mb) _ db1 da)
      by first [ exact Hb1 | exact Hnb | exact Hrb | exact Hsize | exact Hwa
               | exact Hsa
               | change (peer db1) with (peer db); rewrite Hpb;
                 first [exact Ha1 | lia] ].
    cbn [tbl fs sent]. unfold T1. rewrite store_store.
    erewrite bind_get_fd by (eapply lookup_store_eq; exact Hb).
    reflexivity.
  - (* the cancel *)
    assert (Hbw : lookup_fd b (tbl w1) = Some blocked)
      by (eapply lookup_store_eq; exact Hb).
    unfold uds_cancel. rewrite Hmc. rewrite (bind_get_fd _ _ _ _ Hbw).
    unfold in_use. change (state blocked) with (state db).
    rewrite Hstb. cbn [UDS_STATE_eqb negb].
    rewrite (bind_upd_fd _ _ _ _ _ Hbw).
    unfold w1. cbn [tbl fs sent]. rewrite store_store.
    set (d1 := set_suspended UDS_NOT_SUSPENDED _).
    assert (H1 : lookup_fd b (store_fd b d1 (tbl w)) = Some d1)
      by (eapply lookup_store_eq; exact Hb).
    erewrite bind_get_fd by exact H1.
    change (call_nr d1) with (m_type mb).
    change (syscall_done d1) with 0.
    unfold truthy. replace (m_type mb =? 0) with false by lia.
    cbn [Z.eqb negb andb].
    unfold cancel_rollback. change (call_nr d1) with (m_type mb).
    replace (m_type mb =? DEV_IOCTL_S) with false by lia.
    rewrite bind_bind, bind_ret.
    erewrite bind_upd_fd by exact H1. cbn [tbl fs sent]. rewrite store_store.
    reflexivity.
  - (* the write finds nobody to wake *)
    assert (Hbw : lookup_fd b (tbl w2) = Some cancelled)
      by (eapply lookup_store_eq; exact Hb).
    assert (Haw : lookup_fd a (tbl w2) = Some da).
    { unfold w2. cbn [tbl].
      rewrite lookup_store_ne; [exact Ha | exact Hb0 | congruence]. }
    unfold uds_write. fold a. rewrite (bind_get_fd _ _ _ _ Haw).
    unfold in_use. rewrite Hsta. cbn [UDS_STATE_eqb negb].
    rewrite (bind_upd_fd _ _ _ _ _ Haw).
    set (da1 := track_io ma da).
    set (w3 := mk_world (store_fd a da1 (tbl w2)) (fs w2) (sent w2)).
    assert (Ha3 : lookup_fd a (tbl w3) = Some da1)
      by (eapply lookup_store_eq; exact Haw).
    assert (Hb3 : lookup_fd b (tbl w3) = Some cancelled).
    { unfold w3. cbn [tbl].
      rewrite lookup_store_ne; [exact Hbw | exact Ha0 | exact Hab]. }
    erewrite bind_get_fd by exact Ha3.
    change (io_gr_size da1) with (COUNT ma).
    unfold bind at 1. unfold uds_perform_write.
    erewrite (write_connected _ a _ (COUNT ma) 0 _ da1)
      by first [exact Ha3 | exact Hwa | exact Hco | exact Hna
               | change (peer da1) with (peer da); lia].
    change (peer da1) with (peer da). rewrite Hpa.
    erewrite (write_to_peer_completes _ a _ (COUNT ma) da1 b cancelled w3 b1 k)
      by first [ exact Ha3 | exact Hb3 | exact Hrb | reflexivity
               | change (size cancelled) with (size db); rewrite Hsize;
                 apply andb_false_r
               | change (pos cancelled) with (pos db);
                 change (size cancelled) with (size db);
                 rewrite Hpos, Hsize; first [exact Hwr | lia]
               | change (selecting cancelled) with 0; lia ].
    replace (written da1 cancelled k) with (set_size k cancelled).
    2: { unfold written. change (type da1) with (type da).
         replace (type da =? SOCK_DGRAM) with false by lia.
         cbv zeta. change (size cancelled) with (size db).
         rewrite Hsize. reflexivity. }
    cbn [tbl fs sent].
    assert (Hfin : store_fd b (set_size k cancelled) (tbl w3)
                   = store_fd b (set_size k cancelled)
                       (store_fd a da1 (tbl w))).
    { unfold w3, w2. cbn [tbl].
      rewrite (store_fd_commute a b da1 cancelled (tbl w) Ha0 Hb0 Hab).
      apply store_store. }
    rewrite Hfin.
    erewrite bind_get_fd.
    2: { cbn [tbl]. rewrite lookup_store_ne; [|exact Hb0 | congruence].
         eapply lookup_store_eq; exact Ha. }
    reflexivity.
Qed.

End Cancel_read.

(** * The theorems at work on concrete tables *)

Section Concrete.

Import Sample.

#[local] Existing Instance consts.

Let B0 : Backend := backend 0.
#[local] Existing Instance B0.

Lemma honest_within_request : transfers_within_request (B := honest).
Proof.
  intros b req b' rc n H Hrc. simpl in H.
  destruct (0 <=? REQ_NBYTES req) eqn:E.
  - injection H as _ _ <-. lia.
  - injection H as _ <- _. simpl in Hrc. discriminate.
Defined.

Lemma clamping_counts_not_SUSPEND :
  counts_are_not_SUSPEND (B := clamping).
Proof.
  intros b req b' rc n H _. simpl in H. injection H as _ _ <-.
  simpl. lia.
Defined.

Lemma zero_size_transfer_witness :
  uds_perform_read 0 1 100 0 0 (world_of shut_table) =
    Ret 0 (world_of shut_table) ∧
  uds_perform_write 0 1 100 0 0 (world_of shut_table) =
    Ret 0 (world_of shut_table) ∧
  uds_perform_read 0 1 100 5 0 (world_of shut_table) =
    Ret EPIPE (world_of shut_table) ∧
  uds_perform_write 0 1 100 5 0 (world_of shut_table) =
    Ret EPIPE (world_of shut_table).
Proof.
  destruct (zero_size_transfer 0 1 100 0 (world_of shut_table)
              (set_mode 0 (sock SOCK_STREAM 2)) eq_refl)
    as (H0 & H1 & H2 & H3 & _).
  refine (conj H0 (conj H1 (conj _ _))).
  - apply H2; [lia | reflexivity].
  - apply H3; [lia | reflexivity].
Defined.

Lemma window_within_pipe_witness :
  ∃ r w',
    uds_write (B := honest) 3 (request 5 1 10) (honest_world_of table)
      = Ret r w' ∧
    fd_ok_kept (tbl (honest_world_of table)) (tbl w').
Proof.
  destruct (uds_write (B := honest) 3 (request 5 1 10)
              (honest_world_of table)) as [r w'| |] eqn:E.
  - exists r, w'. split; [reflexivity|].
    destruct (window_within_pipe (B := honest) 3 (request 5 1 10) 100 1
                (honest_world_of table))
      as (_ & _ & _ & H & _).
    + simpl. lia.
    + exact honest_within_request.
    + exact (H r w' E).
  - vm_compute in E. discriminate.
  - vm_compute in E. discriminate.
Defined.

Lemma probe_mutates_nothing_witness :
  ∃ r w', uds_perform_read 0 1 100 1 1 (world_of table) = Ret r w' ∧
          window_unchanged (tbl (world_of table)) (tbl w') ∧
          fs w' = fs (world_of table) ∧ sent w' = sent (world_of table) ∧
          (peer (sock SOCK_STREAM 2) ≠ -1 →
           lookup_fd (peer (sock SOCK_STREAM 2)) (tbl w') =
           lookup_fd (peer (sock SOCK_STREAM 2)) (tbl (world_of table))).
Proof.
  apply (probe_mutates_nothing 0 1 100 1 1 (world_of table)
           (sock SOCK_STREAM 2)).
  - reflexivity.
  - reflexivity.
  - right. exists (sock SOCK_STREAM 1). reflexivity.
Defined.

Lemma dgram_table_first_hit :
  first_hit (dgram_bound_to (path 65)) dgram_table 2.
Proof.
  destruct (scan_from_0 (dgram_bound_to (path 65)) dgram_table) as [[H _]|H].
  - vm_compute in H. discriminate.
  - exact H.
Defined.

Lemma datagram_dropped_when_peer_busy_witness :
  uds_perform_write 0 1 100 8 0 (world_of dgram_table) =
  Ret 8 (world_of dgram_table).
Proof.
  apply (datagram_dropped_when_peer_busy 0 1 100 8 0 (world_of dgram_table)
           (set_target (path 65) (set_addr (path 66) (sock SOCK_DGRAM (-1))))
           2 (set_size 10 (set_addr (path 65) (sock SOCK_DGRAM (-1))))).
  - reflexivity.
  - reflexivity.
  - simpl. lia.
  - simpl. lia.
  - exact dgram_table_first_hit.
  - reflexivity.
  - simpl. lia.
  - reflexivity.
  - simpl. lia.
  - reflexivity.
Defined.


Lemma reset_latch_consumed_once_witness :
  let d := set_err ECONNRESET (sock SOCK_STREAM (-1)) in
  uds_perform_read 0 3 100 4 0 (world_of table) =
    Ret ECONNRESET (clear_err 3 d (world_of table)) ∧
  uds_perform_write 0 3 100 4 0 (clear_err 3 d (world_of table)) =
    Ret ENOTCONN (clear_err 3 d (world_of table)).
Proof.
  intros d.
  destruct (reset_latch_consumed_once 0 3 100 (world_of table) d
              Read 4 0 Write 4 0) as (H1 & _ & _ & H2).
  - reflexivity.
  - left. reflexivity.
  - reflexivity.
  - reflexivity.
  - simpl. lia.
  - simpl. repeat split; lia.
  - simpl. repeat split; lia.
  - split; [exact H1 | exact H2].
Defined.

(** C5 as stated fails: the transfer of size 0 returns 0, not ECONNRESET,
    and leaves the latch set. *)
Lemma reset_latch_size_zero_counterexample :
  let d := set_err ECONNRESET (sock SOCK_STREAM (-1)) in
  lookup_fd 3 (tbl (world_of table)) = Some d ∧
  type d = SOCK_STREAM ∧ size d = 0 ∧ peer d = -1 ∧ err d = ECONNRESET ∧
  uds_perform_read 0 3 100 0 0 (world_of table) = Ret 0 (world_of table) ∧
  uds_perform_write 0 3 100 0 0 (world_of table) = Ret 0 (world_of table) ∧
  0 ≠ ECONNRESET.
Proof.
  intros d. vm_compute. repeat split; discriminate.
Qed.

Lemma read_disabled_EPIPE_witness :
  uds_perform_read 0 1 100 5 0 (world_of shut_table) =
  Ret EPIPE (world_of shut_table).
Proof.
  apply (read_disabled_EPIPE 0 1 100 5 0 (world_of shut_table)
           (set_mode 0 (sock SOCK_STREAM 2))).
  - reflexivity.
  - reflexivity.
  - lia.
Defined.

(** C6 as stated fails: on a descriptor shut down for reading, the read of
    size 0 returns 0, not EPIPE. *)
Lemma read_disabled_size_zero_counterexample :
  let d := set_mode 0 (sock SOCK_STREAM 2) in
  lookup_fd 1 (tbl (world_of shut_table)) = Some d ∧
  has_bit (mode d) S_IRUSR = false ∧
  uds_perform_read 0 1 100 0 0 (world_of shut_table) =
    Ret 0 (world_of shut_table) ∧
  uds_perform_read 0 1 100 0 1 (world_of shut_table) =
    Ret 0 (world_of shut_table) ∧
  0 ≠ EPIPE.
Proof.
  intros d. vm_compute. repeat split; discriminate.
Qed.

Lemma dgram_peer_resolution_witness :
  no_hit (dgram_bound_to (path 67)) dgram_table ∧
  uds_perform_write 0 3 100 8 0 (world_of dgram_table) =
    Ret ENOENT (world_of dgram_table).
Proof.
  destruct (dgram_peer_resolution 0 3 100 8 0 (world_of dgram_table)
              (set_target (path 67) (sock SOCK_DGRAM (-1))))
    as [[Hno Hw]|(p & dp & Hhit & _)].
  - reflexivity.
  - reflexivity.
  - simpl. lia.
  - simpl. lia.
  - reflexivity.
  - simpl. lia.
  - split; [exact Hno | exact Hw].
  - exfalso. destruct Hhit as [(dq & Hq & Hb) _].
    assert (Hp := lookup_fd_lt _ _ _ Hq). simpl in Hp.
    assert (Hcase : p = 0 ∨ p = 1 ∨ p = 2 ∨ p = 3) by lia.
    destruct Hcase as [-> | [-> | [-> | ->]]]; vm_compute in Hq;
      injection Hq as <-; vm_compute in Hb; discriminate.
Defined.

(** C7 as stated fails: with no descriptor bound to the target, the
    non-probe write of size 0 returns 0, not ENOENT, and a write on a
    descriptor shut down for writing returns EPIPE. *)
Lemma dgram_write_size_zero_counterexample :
  let d := set_target (path 67) (sock SOCK_DGRAM (-1)) in
  lookup_fd 3 (tbl (world_of dgram_table)) = Some d ∧
  type d = SOCK_DGRAM ∧
  scan_from (dgram_bound_to (target d)) 0 dgram_table = -1 ∧
  uds_perform_write 0 3 100 0 0 (world_of dgram_table) =
    Ret 0 (world_of dgram_table) ∧
  0 ≠ ENOENT.
Proof.
  intros d. vm_compute. repeat split; discriminate.
Qed.

Lemma cancel_accept_clears_child_witness :
  ∃ w' dm,
    uds_cancel (request 9 1 0) (world_of accept_table) =
      Ret (EINTR, Some (uds_set_reply DEV_REVIVE 200 300 EINTR)) w' ∧
    (∀ i di, lookup_fd i (tbl w') = Some di → child di ≠ 1) ∧
    lookup_fd 1 (tbl w') = Some dm ∧
    selecting dm = 0 ∧ suspended dm = UDS_NOT_SUSPENDED ∧
    syscall_done dm = 1 ∧
    fs w' = fs (world_of accept_table) ∧
    sent w' = sent (world_of accept_table).
Proof.
  destruct (cancel_accept_clears_child (request 9 1 0) (world_of accept_table)
              (set_syscall_done 0
                 (set_ioctl NWIOSUDSACCEPT
                    (set_call_nr DEV_IOCTL_S (sock SOCK_STREAM (-1))))))
    as [_ H].
  - reflexivity.
  - reflexivity.
  - apply H.
    + reflexivity.
    + simpl. lia.
    + reflexivity.
    + reflexivity.
Defined.

Lemma revive_priorities_witness :
  uds_unsuspend 1 100 1 (world_of notified_table) =
    Ret OK
      (mk_world
         (store_fd 1
            (set_selecting 0
               (set_status_updated 0 (set_status_updated 1 blocked_reader)))
            notified_table)
         [] [(100, Some (uds_sel_reply DEV_SEL_REPL2 1 0))]) ∧
  let w2 := clamped_world_of
              (store_fd 1
                 (set_suspended UDS_SUSPENDED_READ
                    (set_ready_to_revive 0 blocked_reader))
                 revived_table) in
  uds_unsuspend (B := clamping) 1 100 1 (clamped_world_of revived_table) =
    Ret SUSPEND w2 ∧
  (∃ d2, lookup_fd 1 (tbl w2) = Some d2 ∧
         suspended d2 = suspended blocked_reader) ∧
  sent w2 = [].
Proof.
  split.
  - destruct (revive_priorities 0 100 1 (world_of notified_table)
                (set_status_updated 1 blocked_reader)) as [H _].
    + reflexivity.
    + apply H. reflexivity.
  - intros w2.
    destruct (revive_priorities (B := clamping) 0 100 1
                (clamped_world_of revived_table) blocked_reader) as [_ H].
    + reflexivity.
    + destruct (H ltac:(simpl; lia) eq_refl ltac:(simpl; lia)
                  clamping_counts_not_SUSPEND Read w2 eq_refl eq_refl)
        as (H1 & H2 & H3).
      refine (conj H1 (conj H2 _)). apply H3.
      intros dp Hdp. vm_compute in Hdp. injection Hdp as <-. reflexivity.
Defined.

(** ** The further properties at work *)

Lemma table_well_linked : well_linked table.
Proof.
  apply table_ok_Forall; [reflexivity|].
  repeat constructor; simpl; lia.
Defined.

Lemma connect_table_in_bounds : backlogs_in_bounds connect_table.
Proof.
  apply (table_ok_backlogs_in_bounds 3), table_ok_Forall; [reflexivity|].
  repeat constructor; simpl; lia.
Defined.

Lemma table_first_hit : first_hit (dgram_bound_to (path 65)) table 5.
Proof.
  destruct (scan_from_0 (dgram_bound_to (path 65)) table) as [[H _]|H].
  - vm_compute in H. discriminate.
  - exact H.
Defined.

Lemma dgram_table_no_hit : no_hit (dgram_bound_to (path 67)) dgram_table.
Proof.
  destruct (scan_from_0 (dgram_bound_to (path 67)) dgram_table)
    as [[_ H]|[(dp & H & _) _]].
  - exact H.
  - vm_compute in H. discriminate.
Defined.

Lemma free_table_lowest j dj :
  1 ≤ j < 3 → lookup_fd j free_table = Some dj → state dj ≠ UDS_FREE.
Proof.
  intros Hj Hl. assert (Hc : j = 1 ∨ j = 2) by lia.
  destruct Hc as [-> | ->]; vm_compute in Hl; injection Hl as <-;
    discriminate.
Defined.

(** Discharging the hypotheses of a theorem at a concrete input. *)
Ltac side :=
  first [ reflexivity
        | simpl; lia
        | simpl; discriminate
        | left; reflexivity
        | vm_compute; lia
        | vm_compute; discriminate ].

Ltac discharge H :=
  cbv zeta in H;
  repeat lazymatch type of H with
         | ?P → _ =>
             let hp := fresh in
             assert (hp : P) by side; specialize (H hp); clear hp
         end.

Lemma transfers_keep_the_sockets_witness :
  ∃ r w',
    uds_perform_write 1 2 100 4 0 (world_of revived_table) = Ret r w' ∧
    slots_rel same_socket (tbl (world_of revived_table)) (tbl w').
Proof.
  destruct (uds_perform_write 1 2 100 4 0 (world_of revived_table))
    as [r w'| |] eqn:E.
  - exists r, w'. split; [reflexivity|].
    destruct (transfers_keep_the_sockets 1 2 100 4 0 (world_of revived_table))
      as (_ & H & _).
    exact (H r w' E).
  - vm_compute in E. discriminate.
  - vm_compute in E. discriminate.
Defined.

Lemma windows_stay_well_formed_witness :
  ∃ r w',
    uds_write (B := honest) 3 (request 5 1 10) (honest_world_of table)
      = Ret r w' ∧
    slots_rel (fun d d' => window_wf d → window_wf d')
      (tbl (honest_world_of table)) (tbl w').
Proof.
  assert (Hp : 0 ≤ PIPE_BUF) by (simpl; lia).
  destruct (uds_write (B := honest) 3 (request 5 1 10)
              (honest_world_of table)) as [r w'| |] eqn:E.
  - exists r, w'. split; [reflexivity|].
    destruct (windows_stay_well_formed (B := honest) Hp 3 (request 5 1 10)
                100 1 (honest_world_of table) honest_within_request)
      as (_ & _ & _ & H & _).
    exact (H r w' E).
  - vm_compute in E. discriminate.
  - vm_compute in E. discriminate.
Defined.

Lemma free_slot_is_refused_witness :
  uds_read 0 (request 4 0 8) (world_of table) =
    Ret (EINVAL, Some (uds_set_reply DEV_REVIVE 200 300 EINVAL))
        (world_of table) ∧
  uds_cancel (request 9 0 0) (world_of table) =
    Ret (SUSPEND, None) (world_of table).
Proof.
  pose proof (free_slot_is_refused 0 (request 4 0 8) (world_of table) zero_fd)
    as H1.
  discharge H1. destruct H1 as (H1 & _).
  pose proof (free_slot_is_refused 0 (request 9 0 0) (world_of table) zero_fd)
    as H2.
  discharge H2. destruct H2 as (_ & _ & _ & H2).
  split; [exact H1 | exact H2].
Defined.

Lemma read_blocks_on_empty_buffer_witness :
  uds_perform_read 0 1 100 4 0 (world_of table) =
  Ret SUSPEND
    (world_of
       (store_fd 1 (set_suspended UDS_SUSPENDED_READ (sock SOCK_STREAM 2))
          table)).
Proof.
  apply (read_blocks_on_empty_buffer 0 1 100 4 (world_of table)
           (sock SOCK_STREAM 2)); try side.
  right. split; [simpl; lia|]. exists (sock SOCK_STREAM 1).
  repeat split.
Defined.

Lemma read_end_of_file_witness :
  uds_perform_read 0 2 100 4 0 (world_of shut_table) =
  Ret 0 (world_of shut_table).
Proof.
  apply (read_end_of_file 0 2 100 4 0 (world_of shut_table)
           (sock SOCK_STREAM 1) (set_mode 0 (sock SOCK_STREAM 2))); side.
Defined.

Lemma write_blocks_on_full_pipe_witness :
  uds_perform_write 0 1 100 10 0 (world_of full_table) =
  Ret SUSPEND
    (world_of
       (store_fd 1 (set_suspended UDS_SUSPENDED_WRITE (sock SOCK_STREAM 2))
          full_table)).
Proof.
  apply (write_blocks_on_full_pipe 0 1 100 10 (world_of full_table)
           (sock SOCK_STREAM 2) (set_size PIPE_BUF (sock SOCK_STREAM 1)));
    side.
Defined.

Lemma write_refusals_witness :
  uds_perform_write 0 1 100 40000 0 (world_of table) =
    Ret EMSGSIZE (world_of table) ∧
  uds_perform_write 0 2 100 8 0 (world_of shut_table) =
    Ret EPIPE (world_of shut_table) ∧
  uds_perform_write 0 3 100 8 0 (world_of dgram_table) =
    Ret ENOENT (world_of dgram_table).
Proof.
  pose proof (write_refusals 0 1 100 40000 (world_of table)
                (sock SOCK_STREAM 2)) as H1.
  discharge H1. destruct H1 as (H1 & _).
  pose proof (write_refusals 0 2 100 8 (world_of shut_table)
                (sock SOCK_STREAM 1)) as H2.
  discharge H2. destruct H2 as (_ & H2 & _).
  pose proof (write_refusals 0 3 100 8 (world_of dgram_table)
                (set_target (path 67) (sock SOCK_DGRAM (-1)))) as H3.
  discharge H3. destruct H3 as (_ & _ & H3).
  refine (conj _ (conj _ _)).
  - apply H1. simpl. lia.
  - apply (H2 ltac:(simpl; lia) ltac:(vm_compute; discriminate)
             (set_mode 0 (sock SOCK_STREAM 2)) 0); reflexivity.
  - apply H3; [simpl; lia | | exact dgram_table_no_hit].
    intros [H | H]; vm_compute in H; discriminate.
Defined.

Lemma open_takes_lowest_free_slot_witness :
  uds_open (request 1 0 0) (world_of free_table) =
    Ret (3, Some (uds_set_reply DEV_OPEN_REPL 200 300 3))
        (world_of (store_fd 3 fresh free_table)) ∧
  uds_open (B := out_of_nodes) (request 1 0 0)
      (mk_world (B := out_of_nodes) free_table [] []) =
    Ret (-28, Some (uds_set_reply DEV_OPEN_REPL 200 300 (-28)))
        (mk_world (B := out_of_nodes) free_table [] []) ∧
  uds_open (B := unknown_caller) (request 1 0 0)
      (mk_world (B := unknown_caller) free_table [] []) =
    Ret (-3, Some (uds_set_reply DEV_OPEN_REPL 200 300 (-3)))
        (mk_world (B := unknown_caller) free_table [] []) ∧
  uds_open (request 1 0 0) (world_of revived_table) =
    Ret (ENFILE, Some (uds_set_reply DEV_OPEN_REPL 200 300 ENFILE))
        (world_of revived_table).
Proof.
  assert (Hslot : ∀ minor d,
    1 ≤ minor → lookup_fd minor free_table = Some d → state d = UDS_FREE →
    minor = 3 ∧ d = zero_fd).
  { intros minor d Hge Hd Hfree.
    pose proof (lookup_fd_lt _ _ _ Hd) as Hlt. simpl in Hlt.
    assert (E : minor = 1 ∨ minor = 2 ∨ minor = 3) by lia.
    destruct E as [-> | [-> | ->]]; vm_compute in Hd; injection Hd as <-;
      first [discriminate Hfree | split; reflexivity]. }
  refine (conj _ (conj _ (conj _ _))).
  - destruct (open_takes_lowest_free_slot (request 1 0 0)
                (world_of free_table))
      as [[Hall _] | (minor & d & Hge & Hd & Hfree & _ & Hrun)].
    + exfalso. apply (Hall 3 zero_fd); [lia | reflexivity | reflexivity].
    + destruct (Hslot minor d Hge Hd Hfree) as [-> ->]. exact Hrun.
  - destruct (open_takes_lowest_free_slot (B := out_of_nodes) (request 1 0 0)
                (mk_world (B := out_of_nodes) free_table [] []))
      as [[Hall _] | (minor & d & Hge & Hd & Hfree & _ & Hrun)].
    + exfalso. apply (Hall 3 zero_fd); [lia | reflexivity | reflexivity].
    + destruct (Hslot minor d Hge Hd Hfree) as [-> ->]. exact Hrun.
  - destruct (open_takes_lowest_free_slot (B := unknown_caller)
                (request 1 0 0)
                (mk_world (B := unknown_caller) free_table [] []))
      as [[Hall _] | (minor & d & Hge & Hd & Hfree & _ & Hrun)].
    + exfalso. apply (Hall 3 zero_fd); [lia | reflexivity | reflexivity].
    + destruct (Hslot minor d Hge Hd Hfree) as [-> ->]. exact Hrun.
  - destruct (open_takes_lowest_free_slot (request 1 0 0)
                (world_of revived_table))
      as [[_ Hrun] | (minor & d & Hge & Hd & Hfree & _ & _)].
    + exact Hrun.
    + exfalso.
      pose proof (lookup_fd_lt _ _ _ Hd) as Hlt. simpl in Hlt.
      assert (E : minor = 1 ∨ minor = 2) by lia.
      destruct E as [-> | ->]; vm_compute in Hd; injection Hd as <-;
        discriminate Hfree.
Defined.

Lemma open_then_close_witness :
  ∃ w1,
    uds_open (request 1 0 0) (world_of free_table) =
      Ret (3, Some (uds_set_reply DEV_OPEN_REPL 200 300 3)) w1 ∧
    uds_close 0 (request 6 3 0) w1 =
      Ret (OK, Some (uds_set_reply DEV_CLOSE_REPL 200 300 OK))
          (world_of free_table).
Proof.
  destruct (open_then_close 0 (request 1 0 0) (request 6 3 0)
              (world_of free_table) 3 zero_fd [] 0 0 0 0 [] 7)
    as (w1 & Ho & _ & Hc & Hz); try side.
  - exact free_table_lowest.
  - exists w1. split; [exact Ho|]. rewrite Hc. reflexivity.
Defined.

Lemma cancel_connect_unlists_witness :
  ∃ w' d2,
    uds_cancel (request 9 1 0) (world_of connect_table) =
      Ret (EINTR, Some (uds_set_reply DEV_REVIVE 200 300 EINTR)) w' ∧
    lookup_fd 2 (tbl w') = Some d2 ∧
    ¬ in_backlog 1 d2 ∧ backlog d2 !! 0%nat = Some 3.
Proof.
  pose proof (cancel_connect_unlists (request 9 1 0) (world_of connect_table)
    (set_syscall_done 0
       (set_ioctl NWIOSUDSCONN
          (set_call_nr DEV_IOCTL_S
             (set_addr (path 65) (sock SOCK_STREAM (-1))))))) as H.
  discharge H. specialize (H connect_table_in_bounds).
  destruct H as (w' & Hrun & _ & _ & Hall & _).
  destruct (Hall 2 _ eq_refl) as (d2 & Hd2 & _ & Hout & Hkeep).
  exists w', d2. refine (conj Hrun (conj Hd2 (conj _ _))).
  - apply Hout. reflexivity.
  - apply Hkeep; [reflexivity | simpl; lia].
Defined.

Lemma select_reports_without_transfer_witness :
  ∃ rd wr dm,
    uds_select 0 (request 7 1 3) (world_of table) =
      Ret (select_mask rd wr,
           Some (uds_sel_reply DEV_SEL_REPL1 1 (select_mask rd wr)))
          (world_of (store_fd 1 dm table)) ∧
    select_marked (request 7 1 3) (sock SOCK_STREAM 2) dm ∧
    sel_ops_out dm = select_mask rd wr ∧
    syscall_done dm = 1.
Proof.
  apply (select_reports_without_transfer 0 (request 7 1 3) (world_of table)
           (sock SOCK_STREAM 2)); try side.
  right. exists (sock SOCK_STREAM 1). reflexivity.
Defined.

Lemma select_consumes_reset_latch_witness :
  uds_perform_read 0 3 100 4 0 (world_of table) =
    Ret ECONNRESET
      (clear_err 3 (set_err ECONNRESET (sock SOCK_STREAM (-1)))
         (world_of table)) ∧
  ∃ dm,
    uds_select 0 (request 7 3 3) (world_of table) =
      Ret (3, Some (uds_sel_reply DEV_SEL_REPL1 3 3))
          (world_of (store_fd 3 dm table)) ∧
    uds_perform_read 0 3 100 4 0 (world_of (store_fd 3 dm table)) =
      Ret ENOTCONN (world_of (store_fd 3 dm table)).
Proof.
  pose proof (select_consumes_reset_latch 0 (request 7 3 3) (world_of table)
                (set_err ECONNRESET (sock SOCK_STREAM (-1)))) as H.
  discharge H. destruct H as (Hbefore & dm & Hsel & _ & Hafter).
  split; [apply Hbefore; lia|].
  exists dm. split; [exact Hsel | apply Hafter; lia].
Defined.

Lemma close_wakes_blocked_peer_witness :
  ∃ t',
    uds_close 1 (request 6 2 0) (world_of revived_table) =
      Ret (OK, Some (uds_set_reply DEV_CLOSE_REPL 200 300 OK))
          (mk_world t' []
             [(100, Some (uds_set_reply DEV_REVIVE 200 0 ECONNRESET))]) ∧
    lookup_fd 2 t' = Some zero_fd ∧
    ∃ d1, lookup_fd 1 t' = Some d1 ∧
          suspended d1 = UDS_NOT_SUSPENDED ∧ peer d1 = -1.
Proof.
  pose proof (close_wakes_blocked_peer 0 (request 6 2 0)
                (world_of revived_table) Read (sock SOCK_STREAM 1)
                blocked_reader) as H.
  discharge H.
  assert (Hr : reaches_connection_test Read (io_gr_size blocked_reader)
                 blocked_reader) by (simpl; repeat split; lia).
  specialize (H Hr ltac:(simpl; lia)).
  eexists. split; [exact H|]. split; [reflexivity|].
  eexists. split; [reflexivity|]. split; reflexivity.
Defined.

Lemma revive_without_transfer_witness :
  uds_unsuspend 1 100 1 (world_of table) =
  Ret OK (mk_world table [] [(100, None)]).
Proof.
  pose proof (revive_without_transfer 0 100 1 (world_of table)
                (sock SOCK_STREAM 2)) as H.
  discharge H. destruct H as (_ & _ & H). apply H. simpl. lia.
Defined.

Lemma socket_write_then_read_witness :
  ∃ w1 w2,
    uds_write 0 (request 5 1 10) (world_of table) =
      Ret (10, Some (uds_set_reply DEV_REVIVE 200 300 10)) w1 ∧
    uds_read 0 (request 4 2 16) w1 =
      Ret (10, Some (uds_set_reply DEV_REVIVE 200 300 10)) w2 ∧
    sent w2 = [].
Proof.
  epose proof (socket_write_then_read 0 (request 5 1 10) (request 4 2 16)
                 (world_of table) (sock SOCK_STREAM 2) (sock SOCK_STREAM 1)
                 _ _) as H.
  discharge H. destruct H as [H1 H2].
  eexists _, _. refine (conj H1 (conj H2 _)). reflexivity.
Defined.

Lemma no_unfilled_reply_witness :
  ∃ r w',
    uds_close 1 (request 6 2 0) (world_of revived_table) = Ret r w' ∧
    filled_since (sent (world_of revived_table)) (sent w').
Proof.
  assert (Hs : SUSPEND ≠ OK) by (simpl; lia).
  destruct (uds_close 1 (request 6 2 0) (world_of revived_table))
    as [r w'| |] eqn:E.
  - exists r, w'. split; [reflexivity|].
    destruct (no_unfilled_reply Hs 1 (request 6 2 0) 100 1
                (world_of revived_table)) as (_ & H & _).
    exact (H r w' E).
  - vm_compute in E. discriminate.
  - vm_compute in E. discriminate.
Defined.

Lemma no_out_of_bounds_access_witness :
  stays_in_bounds (uds_read 1 (request 4 1 10)) (world_of table) ∧
  stays_in_bounds (uds_write 1 (request 4 1 10)) (world_of table) ∧
  stays_in_bounds (uds_close 1 (request 4 1 10)) (world_of table).
Proof.
  destruct (no_out_of_bounds_access 1 (request 4 1 10) 100 (world_of table)
              table_well_linked) as (_ & Hc & Hr & Hw & _).
  - simpl. lia.
  - exact (conj Hr (conj Hw Hc)).
Defined.

Lemma blocked_read_is_completed_by_write_witness :
  ∃ w1 w2,
    uds_read 0 (request 4 2 6) (world_of table) =
      Ret (SUSPEND, Some (uds_set_reply DEV_REVIVE 200 300 SUSPEND)) w1 ∧
    uds_write 1 (request 5 1 10) w1 =
      Ret (10, Some (uds_set_reply DEV_REVIVE 200 300 10)) w2 ∧
    sent w2 = [(100, Some (uds_set_reply DEV_REVIVE 200 300 6))].
Proof.
  epose proof (blocked_read_is_completed_by_write 0 (request 5 1 10)
                 (request 4 2 6) (world_of table) (sock SOCK_STREAM 2)
                 (sock SOCK_STREAM 1) _ _ _ _) as H.
  discharge H. destruct H as [H1 H2].
  eexists _, _. refine (conj H1 (conj H2 _)). reflexivity.
Defined.

Lemma blocked_write_is_completed_by_read_witness :
  ∃ w1 w2,
    uds_write 0 (request 5 1 10) (world_of full_table) =
      Ret (SUSPEND, Some (uds_set_reply DEV_REVIVE 200 300 SUSPEND)) w1 ∧
    uds_read 1 (request 4 2 PIPE_BUF) w1 =
      Ret (PIPE_BUF, Some (uds_set_reply DEV_REVIVE 200 300 PIPE_BUF)) w2 ∧
    sent w2 = [(100, Some (uds_set_reply DEV_REVIVE 200 300 10))].
Proof.
  epose proof (blocked_write_is_completed_by_read 0 (request 5 1 10)
                 (request 4 2 PIPE_BUF) (world_of full_table)
                 (sock SOCK_STREAM 2)
                 (set_size PIPE_BUF (sock SOCK_STREAM 1)) _ _ _) as H.
  discharge H. destruct H as [H1 H2].
  eexists _, _. refine (conj H1 (conj H2 _)). reflexivity.
Defined.

Lemma datagram_records_sender_witness :
  ∃ w1 w2 d5,
    uds_write 0 (request 5 4 10) (world_of table) =
      Ret (10, Some (uds_set_reply DEV_REVIVE 200 300 10)) w1 ∧
    uds_read 0 (request 4 5 16) w1 =
      Ret (10, Some (uds_set_reply DEV_REVIVE 200 300 10)) w2 ∧
    lookup_fd 5 (tbl w2) = Some d5 ∧ source d5 = path 66.
Proof.
  epose proof (datagram_records_sender 0 (request 5 4 10) (request 4 5 16)
                 (world_of table)
                 (set_target (path 65) (set_addr (path 66)
                                          (sock SOCK_DGRAM (-1))))
                 (set_addr (path 65) (sock SOCK_DGRAM (-1))) _ _ _ _) as H.
  discharge H. specialize (H table_first_hit). discharge H.
  destruct H as (H1 & H2 & H3).
  eexists _, _, _. refine (conj H1 (conj H2 (conj _ H3))). reflexivity.
Defined.

Lemma bytes_leave_in_the_order_they_came_witness :
  ∃ w1 w2 w3 w4,
    uds_perform_write 0 1 100 4 0 (world_of table) = Ret 4 w1 ∧
    uds_perform_write 0 1 100 6 0 w1 = Ret 6 w2 ∧
    uds_perform_read 0 2 100 4 0 w2 = Ret 4 w3 ∧
    uds_perform_read 0 2 100 64 0 w3 = Ret 6 w4 ∧
    tbl w4 = table ∧
    fs w4 =
      [ mk_rw_request REQ_READ 7 0 4 6; mk_rw_request REQ_READ 7 0 0 4;
        mk_rw_request REQ_WRITE 7 0 4 6; mk_rw_request REQ_WRITE 7 0 0 4 ].
Proof.
  epose proof (bytes_leave_in_the_order_they_came 0 1 2 100 4 6 64
                 (world_of table) (sock SOCK_STREAM 2) (sock SOCK_STREAM 1)
                 _ _ _ _) as H.
  discharge H. destruct H as (H1 & H2 & H3 & H4).
  eexists _, _, _, _.
  refine (conj H1 (conj H2 (conj H3 (conj H4 (conj _ _))))); reflexivity.
Defined.

Lemma select_readiness_of_a_connection_witness :
  ∃ dm2 dm1,
    uds_select 0 (request 7 2 3) (world_of full_table) =
      Ret (3, Some (uds_sel_reply DEV_SEL_REPL1 2 3))
          (world_of (store_fd 2 dm2 full_table)) ∧
    uds_select 0 (request 7 1 3) (world_of full_table) =
      Ret (0, Some (uds_sel_reply DEV_SEL_REPL1 1 0))
          (world_of (store_fd 1 dm1 full_table)).
Proof.
  pose proof (select_readiness_of_a_connection 0 (request 7 2 3)
                (world_of full_table)
                (set_size PIPE_BUF (sock SOCK_STREAM 1))
                (sock SOCK_STREAM 2)) as H2.
  discharge H2. destruct H2 as (dm2 & H2 & _).
  pose proof (select_readiness_of_a_connection 0 (request 7 1 3)
                (world_of full_table) (sock SOCK_STREAM 2)
                (set_size PIPE_BUF (sock SOCK_STREAM 1))) as H1.
  discharge H1. destruct H1 as (dm1 & H1 & _).
  exists dm2, dm1. split; [exact H2 | exact H1].
Defined.

Lemma select_reports_pending_connections_witness :
  ∃ dm,
    uds_select 0 (request 7 2 3) (world_of connect_table) =
      Ret (3, Some (uds_sel_reply DEV_SEL_REPL1 2 3))
          (world_of (store_fd 2 dm connect_table)).
Proof.
  pose proof (select_reports_pending_connections 0 (request 7 2 3)
                (world_of connect_table)
                (set_backlog [3; 1; -1; -1]
                   (set_listening 1
                      (set_addr (path 65) (sock SOCK_STREAM (-1)))))) as H.
  discharge H. destruct H as (pending & dm & Hp & H & _).
  assert (Hy : pending = true).
  { apply Hp. exists 0%nat, 3. repeat split; simpl; lia. }
  subst pending. exists dm. exact H.
Defined.

Lemma cancelled_read_is_not_revived_witness :
  ∃ w1 w2 w3,
    uds_read 0 (request 4 2 6) (world_of table) =
      Ret (SUSPEND, Some (uds_set_reply DEV_REVIVE 200 300 SUSPEND)) w1 ∧
    uds_cancel (request 9 2 0) w1 =
      Ret (EINTR, Some (uds_set_reply DEV_REVIVE 200 300 EINTR)) w2 ∧
    uds_write 0 (request 5 1 10) w2 =
      Ret (10, Some (uds_set_reply DEV_REVIVE 200 300 10)) w3 ∧
    sent w3 = [].
Proof.
  epose proof (cancelled_read_is_not_revived 0 (request 5 1 10)
                 (request 4 2 6) (request 9 2 0) (world_of table)
                 (sock SOCK_STREAM 2) (sock SOCK_STREAM 1) _ _) as H.
  discharge H. destruct H as (H1 & H2 & H3).
  eexists _, _, _. refine (conj H1 (conj H2 (conj H3 _))). reflexivity.
Defined.

End Concrete.
